(** * eyemodule.py: the EyeModule class of [src/eyemodule.py]

    A shallow embedding of the image extractor for the eyemodule .pdb
    databases: the three database files with their seek/read position, the
    record indices built by the constructor, the header decoder, the two
    pixel decoders, the navigation methods and the methods that list and
    extract the images; followed by the properties established about
    them. *)

From Stdlib Require Import ZArith Lia List Strings.Byte String Ascii DecimalString.
From stdpp Require Import base option list gmap sorting.

Local Open Scope Z_scope.

(** ** Python values *)

(** A Python 2 [str] is a sequence of bytes. *)
Abbreviation pystr := (list byte).

Definition ord (c : byte) : Z := Z.of_N (Byte.to_N c).

(** [chr] on a value that is known to lie in [0, 255] (values stored in an
    [array('B')]); other values are reduced modulo 256. *)
Definition chr (z : Z) : byte :=
  match Byte.of_N (Z.to_N (z mod 256)) with
  | Some b => b
  | None => x00
  end.

Definition len {A} (l : list A) : Z := Z.of_nat (length l).

(** Exceptions raised by the modelled code. *)
Inductive exn : Type :=
| IndexError
| KeyError
| ValueError
| StructError
| IOError
| OverflowError
| TypeError
| AttributeError
| AssertionError
| Exception (cause : exn).

(** The outcome of running a piece of the program: a value, an exception,
    or, for the [while] loops, running past the given number of
    iterations. *)
Inductive result (A : Type) : Type :=
| Ok (a : A)
| Raise (e : exn)
| OutOfFuel.
Arguments Ok {A} a.
Arguments Raise {A} e.
Arguments OutOfFuel {A}.

Module Res.
Definition bind {A B} (r : result A) (k : A -> result B) : result B :=
  match r with
  | Ok a => k a
  | Raise e => Raise e
  | OutOfFuel => OutOfFuel
  end.

(** A [for] loop that threads its accumulator and stops at the first
    exception. *)
Fixpoint fold {A B} (body : A -> B -> result A) (acc : A) (l : list B)
  : result A :=
  match l with
  | [] => Ok acc
  | x :: l' => bind (body acc x) (fun acc' => fold body acc' l')
  end.
End Res.

Notation "'let!' x ':=' c1 'in' c2" := (Res.bind c1 (fun x => c2))
  (at level 10, x name, c1 at level 100, c2 at level 200, only parsing).
Notation "'let!' ' p ':=' c1 'in' c2" :=
  (Res.bind c1 (fun x => match x with p => c2 end))
  (at level 10, p pattern, c1 at level 100, c2 at level 200, only parsing).

(** [seq[i]]: negative indices count from the end, an index outside the
    sequence raises IndexError. *)
Definition getitem {A} (l : list A) (i : Z) : result A :=
  let j := if i <? 0 then i + len l else i in
  if (0 <=? j) && (j <? len l) then
    match l !! Z.to_nat j with
    | Some x => Ok x
    | None => Raise IndexError
    end
  else Raise IndexError.

(** [d[k]] on a dictionary: KeyError when the key is absent. *)
Definition dict_getitem (d : gmap Z Z) (k : Z) : result Z :=
  match d !! k with
  | Some v => Ok v
  | None => Raise KeyError
  end.

(** [xrange(start, stop, step)] for a positive step: the [n] numbers
    [start], [start + step], ... below [stop]. *)
Fixpoint xrange_from (n : nat) (start step : Z) : list Z :=
  match n with
  | O => []
  | S n' => start :: xrange_from n' (start + step) step
  end.

Definition xrange (start stop step : Z) : list Z :=
  let n := if start <? stop then (stop - start + step - 1) / step else 0 in
  xrange_from (Z.to_nat n) start step.

Definition range (n : Z) : list Z := xrange 0 n 1.

(** [string.index(s, "\0")]: position of the first NUL, ValueError when
    there is none. *)
Fixpoint index_nul (s : pystr) : result Z :=
  match s with
  | [] => Raise ValueError
  | c :: s' =>
      if ord c =? 0 then Ok 0
      else let! i := index_nul s' in Ok (i + 1)
  end.

(** [s[:n]] for [0 <= n]. *)
Definition slice_to {A} (s : list A) (n : Z) : list A := take (Z.to_nat n) s.

(** ** array.array('B') *)

(** The items of an [array('B')]; [fromlist] appends a list of integers and
    raises OverflowError when one of them is not an unsigned byte. *)
Definition array_fromlist (arr : list Z) (items : list Z) : result (list Z) :=
  if forallb (fun v => (0 <=? v) && (v <=? 255)) items
  then Ok (arr ++ items)
  else Raise OverflowError.

Definition array_tostring (arr : list Z) : pystr := map chr arr.

(** ** struct.unpack and the string-to-integer helpers *)

Definition __str_to_Word (str : pystr) : result Z :=
  match str with
  | [a; b] => Ok (Z.shiftl (ord a) 8 + ord b)
  | _ => Raise AssertionError
  end.

Definition __str_to_Long (str : pystr) : result Z :=
  match str with
  | [a; b; c] => Ok (Z.shiftl (ord a) 16 + Z.shiftl (ord b) 8 + ord c)
  | [a; b; c; d] =>
      Ok (Z.shiftl (ord a) 24 + Z.shiftl (ord b) 16 + Z.shiftl (ord c) 8 + ord d)
  | _ => Raise AssertionError
  end.

(** Big-endian unsigned value of a byte string (the [L] and [B] codes of
    [struct] with the [>] prefix). *)
Definition be_uint (s : pystr) : Z :=
  fold_left (fun acc c => acc * 256 + ord c) s 0.

(** [struct.unpack("> L", s)] *)
Definition unpack_L (s : pystr) : result Z :=
  if len s =? 4 then Ok (be_uint s) else Raise StructError.

(** [struct.unpack("> 2s", s)] *)
Definition unpack_2s (s : pystr) : result pystr :=
  if len s =? 2 then Ok s else Raise StructError.

(** [struct.unpack("> L B 3s", s)]: a record-list entry. *)
Definition unpack_L_B_3s (s : pystr) : result (Z * Z * pystr) :=
  if len s =? 8 then
    Ok (be_uint (take 4 s), be_uint (take 1 (drop 4 s)), drop 5 s)
  else Raise StructError.

(** ** Files *)

(** An open file: its content and the current position. *)
Record file : Type := mkfile { f_data : pystr; f_pos : Z }.

Definition f_open (data : pystr) : file := mkfile data 0.

(** [fd.seek(offset)]: a negative offset is an error, an offset beyond the
    end is accepted. *)
Definition f_seek (fd : file) (offset : Z) : result file :=
  if offset <? 0 then Raise IOError else Ok (mkfile (f_data fd) offset).

Definition f_tell (fd : file) : Z := f_pos fd.

(** [fd.read(n)]: at most [n] bytes from the current position, fewer (or
    none) at the end of the file; the position moves past what was read. *)
Definition f_read (fd : file) (n : Z) : pystr * file :=
  let s := take (Z.to_nat n) (drop (Z.to_nat (f_pos fd)) (f_data fd)) in
  (s, mkfile (f_data fd) (f_pos fd + len s)).

(** ** The host's clock: time.mktime and time.ctime *)

(** [get_header] calls two functions of the [time] module of the Python
    library.  Both work in the local time of the host: [time.mktime] takes a
    time tuple that expresses the time in local time, not UTC, and
    [time.ctime] gives the text of an instant in local time.  The host's
    zone is taken as a fixed offset from UTC, in seconds east of Greenwich
    (no daylight saving rules). *)
Class Host : Type := { utc_offset : Z }.

Module Time.
(** Days between 1970-01-01 and the given day of the proleptic Gregorian
    calendar. *)
Definition days_from_civil (y m d : Z) : Z :=
  let y' := if m <=? 2 then y - 1 else y in
  let era := y' / 400 in
  let yoe := y' - era * 400 in
  let mp := (m + 9) mod 12 in
  let doy := (153 * mp + 2) / 5 + d - 1 in
  let doe := yoe * 365 + yoe / 4 - yoe / 100 + doy in
  era * 146097 + doe - 719468.

Definition civil_from_days (z : Z) : Z * Z * Z :=
  let z' := z + 719468 in
  let era := z' / 146097 in
  let doe := z' - era * 146097 in
  let yoe := (doe - doe / 1460 + doe / 36524 - doe / 146096) / 365 in
  let doy := doe - (365 * yoe + yoe / 4 - yoe / 100) in
  let mp := (5 * doy + 2) / 153 in
  let d := doy - (153 * mp + 2) / 5 + 1 in
  let m := if mp <? 10 then mp + 3 else mp - 9 in
  let y := yoe + era * 400 in
  (if m <=? 2 then y + 1 else y, m, d).

(** The fields of a time tuple that [mktime] reads and [ctime] prints. *)
Record struct_time : Type := mktm {
  tm_year : Z; tm_mon : Z; tm_mday : Z;
  tm_hour : Z; tm_min : Z; tm_sec : Z
}.

(** Seconds since 1970-01-01T00:00:00 UTC of a time tuple read as UTC. *)
Definition timegm (t : struct_time) : Z :=
  days_from_civil (tm_year t) (tm_mon t) (tm_mday t) * 86400
  + tm_hour t * 3600 + tm_min t * 60 + tm_sec t.

Definition gmtime (secs : Z) : struct_time :=
  let '(y, m, d) := civil_from_days (secs / 86400) in
  let r := secs mod 86400 in
  mktm y m d (r / 3600) (r mod 3600 / 60) (r mod 60).

(** [time.mktime(t)]: the time tuple is read in the host's local time. *)
Definition mktime {host : Host} (t : struct_time) : Z := timegm t - utc_offset.

(** [time.localtime(secs)] *)
Definition localtime {host : Host} (secs : Z) : struct_time :=
  gmtime (secs + utc_offset).

Definition decimal (z : Z) : pystr :=
  list_byte_of_string (NilZero.string_of_int (Z.to_int z)).

Definition digits2 (z : Z) : pystr := [chr (48 + z / 10); chr (48 + z mod 10)].

Definition day_names : list string :=
  ["Sun"; "Mon"; "Tue"; "Wed"; "Thu"; "Fri"; "Sat"]%string.

Definition month_names : list string :=
  ["Jan"; "Feb"; "Mar"; "Apr"; "May"; "Jun";
   "Jul"; "Aug"; "Sep"; "Oct"; "Nov"; "Dec"]%string.

Definition name_at (names : list string) (i : Z) : pystr :=
  list_byte_of_string (nth (Z.to_nat i) names "???"%string).

(** Day of the week of a local time tuple, Sunday = 0. *)
Definition weekday (t : struct_time) : Z :=
  (days_from_civil (tm_year t) (tm_mon t) (tm_mday t) + 4) mod 7.

(** The 24-character form [Www Mmm dd hh:mm:ss yyyy], the day of the month
    padded with a blank. *)
Definition asctime (t : struct_time) : pystr :=
  let sp := [chr 32] in
  let colon := [chr 58] in
  name_at day_names (weekday t) ++ sp
  ++ name_at month_names (tm_mon t - 1) ++ sp
  ++ (if tm_mday t <? 10 then sp ++ decimal (tm_mday t) else decimal (tm_mday t))
  ++ sp ++ digits2 (tm_hour t) ++ colon ++ digits2 (tm_min t) ++ colon
  ++ digits2 (tm_sec t) ++ sp ++ decimal (tm_year t).

(** [time.ctime(secs)] *)
Definition ctime {host : Host} (secs : Z) : pystr := asctime (localtime secs).
End Time.

(** ** The Python Imaging Library *)

Inductive mode : Type := L | YCbCr | RGB.

(** The two entry points of PIL that the decoders call: building an image
    from raw bytes, and converting it to another mode. *)
Class PIL : Type := {
  Image : Type;
  frombytes : mode -> Z * Z -> pystr -> result Image;
  convert : Image -> mode -> result Image
}.

(** ** The pixel decoders *)

Section Decoders.
Context {pil : PIL}.

(** Body of the loop of [_decode_image_Grayscale]: two pixels per byte. *)
Definition grayscale_body (img_array : list Z) (value : byte) : result (list Z) :=
  let pixel1 := 255 - Z.land (ord value) 0xF0 in
  let pixel2 := 255 - Z.shiftl (Z.land (ord value) 0x0F) 4 in
  array_fromlist img_array [pixel1; pixel2].

(** The loop [for value in img_data] and the array it fills. *)
Definition grayscale_scan (img_data : pystr) : result (list Z) :=
  Res.fold grayscale_body [] img_data.

(** The image that line 224 creates is never used and is left out. *)
Definition _decode_image_Grayscale (img_data : pystr) (img_width img_height : Z)
  : result Image :=
  let! img_array := grayscale_scan img_data in
  frombytes L (img_width, img_height) (array_tostring img_array).

(** Body of the loop of [_decode_image_Color] at position [pos]. *)
Definition color_body (img_data : pystr) (img_array : list Z) (pos : Z)
  : result (list Z) :=
  if pos mod 6404 =? 0 then Ok img_array
  else
    let! U := getitem img_data pos in
    let! Y1 := getitem img_data (pos + 1) in
    let! V := getitem img_data (pos + 2) in
    let! Y2 := getitem img_data (pos + 3) in
    array_fromlist img_array [ord Y1; ord U; ord V; ord Y2; ord U; ord V].

(** The loop [for pos in xrange(4, len(img_data), 4)]. *)
Definition color_scan (img_data : pystr) : result (list Z) :=
  Res.fold (color_body img_data) [] (xrange 4 (len img_data) 4).

Definition _decode_image_Color (img_data : pystr) (img_width img_height : Z)
  : result Image :=
  let! img_array := color_scan img_data in
  let! img := frombytes YCbCr (img_width, img_height) (array_tostring img_array) in
  convert img RGB.
End Decoders.

(** ** The EyeModule object *)

(** The dictionary returned by [get_header], one field per key. *)
Record header_dict : Type := mkheader {
  h_Name : pystr;
  h_version : Z;
  h_Type : Z;
  h_firstVGARecUID : Z;
  h_noteUID : Z;
  h_lastPosX : Z;
  h_lastPosY : Z;
  h_created : pystr;
  h_anchorX : Z;
  h_anchorY : Z;
  h_Width : Z;
  h_Height : Z
}.

(** The attributes of an [EyeModule] instance. *)
Record EyeModule : Type := mkEyeModule {
  emDB_fd : file;
  emVGADB_fd : file;
  emNoteDB_fd : file;
  cur_image : Z;
  record_cnt : Z;
  rec_data_offset_dict : gmap Z Z;
  images : list Z;
  category_names : list pystr;
  vga_record_cnt : Z;
  rec_data_offset_vga_dict : gmap Z Z;
  note_record_cnt : Z;
  rec_data_offset_note_dict : gmap Z Z
}.

Definition HEADER_LENGTH : Z := 58.

(** The three database files of an instance. *)
Inductive handle : Type := DB | VGADB | NoteDB.

Definition fd_of (h : handle) (self : EyeModule) : file :=
  match h with
  | DB => emDB_fd self
  | VGADB => emVGADB_fd self
  | NoteDB => emNoteDB_fd self
  end.

Definition with_fd (h : handle) (fd : file) (self : EyeModule) : EyeModule :=
  match self with
  | mkEyeModule a b c cur cnt d im cat vc vd nc nd =>
      match h with
      | DB => mkEyeModule fd b c cur cnt d im cat vc vd nc nd
      | VGADB => mkEyeModule a fd c cur cnt d im cat vc vd nc nd
      | NoteDB => mkEyeModule a b fd cur cnt d im cat vc vd nc nd
      end
  end.

Definition with_cur_image (n : Z) (self : EyeModule) : EyeModule :=
  match self with
  | mkEyeModule a b c _ cnt d im cat vc vd nc nd =>
      mkEyeModule a b c n cnt d im cat vc vd nc nd
  end.

Definition with_record_cnt (n : Z) (self : EyeModule) : EyeModule :=
  match self with
  | mkEyeModule a b c cur _ d im cat vc vd nc nd =>
      mkEyeModule a b c cur n d im cat vc vd nc nd
  end.

Definition with_rec_data_offset_dict (d : gmap Z Z) (self : EyeModule) : EyeModule :=
  match self with
  | mkEyeModule a b c cur cnt _ im cat vc vd nc nd =>
      mkEyeModule a b c cur cnt d im cat vc vd nc nd
  end.

Definition with_images (im : list Z) (self : EyeModule) : EyeModule :=
  match self with
  | mkEyeModule a b c cur cnt d _ cat vc vd nc nd =>
      mkEyeModule a b c cur cnt d im cat vc vd nc nd
  end.

Definition with_category_names (cat : list pystr) (self : EyeModule) : EyeModule :=
  match self with
  | mkEyeModule a b c cur cnt d im _ vc vd nc nd =>
      mkEyeModule a b c cur cnt d im cat vc vd nc nd
  end.

Definition with_vga_record_cnt (vc : Z) (self : EyeModule) : EyeModule :=
  match self with
  | mkEyeModule a b c cur cnt d im cat _ vd nc nd =>
      mkEyeModule a b c cur cnt d im cat vc vd nc nd
  end.

Definition with_rec_data_offset_vga_dict (vd : gmap Z Z) (self : EyeModule) : EyeModule :=
  match self with
  | mkEyeModule a b c cur cnt d im cat vc _ nc nd =>
      mkEyeModule a b c cur cnt d im cat vc vd nc nd
  end.

Definition with_note_record_cnt (nc : Z) (self : EyeModule) : EyeModule :=
  match self with
  | mkEyeModule a b c cur cnt d im cat vc vd _ nd =>
      mkEyeModule a b c cur cnt d im cat vc vd nc nd
  end.

Definition with_rec_data_offset_note_dict (nd : gmap Z Z) (self : EyeModule) : EyeModule :=
  match self with
  | mkEyeModule a b c cur cnt d im cat vc vd nc _ =>
      mkEyeModule a b c cur cnt d im cat vc vd nc nd
  end.

(** *** Methods as state transformers

    A method runs on the instance and leaves it changed, also when it ends
    in an exception. *)
Definition M (A : Type) : Type := EyeModule -> result A * EyeModule.

Module St.
Definition ret {A} (a : A) : M A := fun self => (Ok a, self).

Definition bind {A B} (c : M A) (k : A -> M B) : M B :=
  fun self =>
    match c self with
    | (Ok a, self') => k a self'
    | (Raise e, self') => (Raise e, self')
    | (OutOfFuel, self') => (OutOfFuel, self')
    end.

Definition lift {A} (r : result A) : M A := fun self => (r, self).

Definition gets {A} (f : EyeModule -> A) : M A := fun self => (Ok (f self), self).

Definition modify (f : EyeModule -> EyeModule) : M unit :=
  fun self => (Ok tt, f self).

(** [for x in l: body(x)] *)
Fixpoint for_ {A} (l : list A) (body : A -> M unit) : M unit :=
  match l with
  | [] => ret tt
  | x :: l' => bind (body x) (fun _ => for_ l' body)
  end.

(** [while cond(s): s = body(s)], with the local variables [s] of the
    loop, for at most [fuel] evaluations of the condition. *)
Fixpoint while_ {S} (fuel : nat) (cond : S -> M bool) (body : S -> M S) (s : S)
  : M S :=
  match fuel with
  | O => fun self => (OutOfFuel, self)
  | Datatypes.S fuel' =>
      bind (cond s) (fun b =>
        if b then bind (body s) (while_ fuel' cond body)
        else ret s)
  end.

(** [try: c  except Exception, error: raise Exception(str(error) + "\n")] *)
Definition reraise {A} (c : M A) : M A :=
  fun self =>
    match c self with
    | (Raise e, self') => (Raise (Exception e), self')
    | r => r
    end.
End St.

Notation "'do!' x ':=' c1 'in' c2" := (St.bind c1 (fun x => c2))
  (at level 10, x name, c1 at level 100, c2 at level 200, only parsing).
Notation "'do!' ' p ':=' c1 'in' c2" :=
  (St.bind c1 (fun x => match x with p => c2 end))
  (at level 10, p pattern, c1 at level 100, c2 at level 200, only parsing).

Definition fd_seek (h : handle) (offset : Z) : M unit :=
  fun self =>
    match f_seek (fd_of h self) offset with
    | Ok fd => (Ok tt, with_fd h fd self)
    | Raise e => (Raise e, self)
    | OutOfFuel => (OutOfFuel, self)
    end.

Definition fd_read (h : handle) (n : Z) : M pystr :=
  fun self =>
    let '(s, fd) := f_read (fd_of h self) n in (Ok s, with_fd h fd self).

Definition fd_tell (h : handle) : M Z := St.gets (fun self => f_tell (fd_of h self)).

(** *** The constructor *)

(** Lines 112-119: the location of the appinfo block and the number of
    records of eyemoduleDB.pdb.  The appinfo location is a local variable of
    the constructor and is handed on to the category names. *)
Definition init_record_cnt : M Z :=
  do! _ := fd_seek DB 52 in
  do! s := fd_read DB 4 in
  do! appinfo_start := St.lift (unpack_L s) in
  do! _ := fd_seek DB 76 in
  do! s := fd_read DB 2 in
  do! w := St.lift (unpack_2s s) in
  do! cnt := St.lift (__str_to_Word w) in
  do! _ := St.modify (with_record_cnt cnt) in
  St.ret appinfo_start.

(** Lines 121-132: the record data offsets with their categories, and the
    sorted list of the offsets. *)
Definition read_image_record : M unit :=
  do! s := fd_read DB 8 in
  do! '(offset, attr, _) := St.lift (unpack_L_B_3s s) in
  St.modify (fun self =>
    with_rec_data_offset_dict
      (<[offset := Z.land attr 0x0F]> (rec_data_offset_dict self)) self).

Definition init_images : M unit :=
  do! _ := St.modify (with_rec_data_offset_dict ∅) in
  do! cnt := St.gets record_cnt in
  do! _ := St.for_ (range cnt) (fun _ => read_image_record) in
  St.modify (fun self =>
    with_images (merge_sort Z.le (map_to_list (rec_data_offset_dict self)).*1) self).

(** Lines 134-141: the names of the categories, 16 bytes each. *)
Definition category_cond (category : pystr) : M bool :=
  do! c := St.lift (getitem category 0) in
  if ord c =? 0 then St.ret false
  else
    do! pos := fd_tell DB in
    do! im := St.gets images in
    do! first := St.lift (getitem im 0) in
    St.ret (pos <? first).

Definition category_body (category : pystr) : M pystr :=
  do! i := St.lift (index_nul category) in
  do! _ := St.modify (fun self =>
    with_category_names (category_names self ++ [slice_to category i]) self) in
  fd_read DB 16.

Definition init_category_names (fuel : nat) (appinfo_start : Z) : M unit :=
  do! _ := St.modify (with_category_names []) in
  do! _ := fd_seek DB (appinfo_start + 2) in
  do! category := fd_read DB 16 in
  do! _ := St.while_ fuel category_cond category_body category in
  St.ret tt.

(** Lines 143-159: the record data offsets of the color images, one entry
    out of 24. *)
Definition read_vga_record : M unit :=
  do! s := fd_read VGADB 8 in
  do! '(offset, _, uid) := St.lift (unpack_L_B_3s s) in
  do! key := St.lift (__str_to_Long uid) in
  do! _ := St.modify (fun self =>
    with_rec_data_offset_vga_dict
      (<[key := offset]> (rec_data_offset_vga_dict self)) self) in
  do! pos := fd_tell VGADB in
  fd_seek VGADB (pos + 184).

Definition init_vga : M unit :=
  do! _ := fd_seek VGADB 76 in
  do! s := fd_read VGADB 2 in
  do! w := St.lift (unpack_2s s) in
  do! cnt := St.lift (__str_to_Word w) in
  do! _ := St.modify (with_vga_record_cnt cnt) in
  do! _ := St.modify (with_rec_data_offset_vga_dict ∅) in
  St.for_ (xrange 0 cnt 24) (fun _ => read_vga_record).

(** Lines 161-173: the record data offsets of the notes. *)
Definition read_note_record : M unit :=
  do! s := fd_read NoteDB 8 in
  do! '(offset, _, uid) := St.lift (unpack_L_B_3s s) in
  do! key := St.lift (__str_to_Long uid) in
  St.modify (fun self =>
    with_rec_data_offset_note_dict
      (<[key := offset]> (rec_data_offset_note_dict self)) self).

Definition init_note : M unit :=
  do! _ := fd_seek NoteDB 76 in
  do! s := fd_read NoteDB 2 in
  do! w := St.lift (unpack_2s s) in
  do! cnt := St.lift (__str_to_Word w) in
  do! _ := St.modify (with_note_record_cnt cnt) in
  do! _ := St.modify (with_rec_data_offset_note_dict ∅) in
  St.for_ (range cnt) (fun _ => read_note_record).

(** The instance before the constructor has filled it in: the three files
    opened, the current image number zero. *)
Definition fresh (emDB emVGADB emNoteDB : pystr) : EyeModule :=
  mkEyeModule (f_open emDB) (f_open emVGADB) (f_open emNoteDB)
    0 0 ∅ [] [] 0 ∅ 0 ∅.

(** Every turn of the category loop but the last reads at least one more
    byte of the file. *)
Definition category_fuel (emDB : pystr) : nat := S (S (length emDB)).

Definition init_body (fuel : nat) : M unit :=
  do! appinfo_start := init_record_cnt in
  do! _ := init_images in
  do! _ := init_category_names fuel appinfo_start in
  do! _ := init_vga in
  init_note.

(** [EyeModule(O_PATH, P_PATH)] from line 101 on, given the contents of the
    three .pdb files; the checks and the change of directory before that
    line concern the file system only. *)
Definition __init__ (emDB emVGADB emNoteDB : pystr) : result EyeModule :=
  match init_body (category_fuel emDB) (fresh emDB emVGADB emNoteDB) with
  | (Ok _, self) => Ok self
  | (Raise e, _) => Raise e
  | (OutOfFuel, _) => OutOfFuel
  end.

(** *** The methods *)

(** The test that opens [get_header], [get_image], [view_image] and
    [extract_image]: -1 stands for the current image, a number below the
    record count becomes the current image, any other number makes the
    method return None. *)
Definition resolve_image_nr (image_nr : Z) : M (option Z) :=
  do! cur := St.gets cur_image in
  do! cnt := St.gets record_cnt in
  if image_nr =? -1 then St.ret (Some cur)
  else if image_nr <? cnt then
    do! _ := St.modify (with_cur_image image_nr) in St.ret (Some image_nr)
  else St.ret None.

(** [struct.unpack("> 32s B B L L 2s 2s L 2s 2s 2s 2s", header)] *)
Definition sub (s : pystr) (off n : nat) : pystr := take n (drop off s).

Definition unpack_header (s : pystr)
  : result (pystr * Z * Z * Z * Z * pystr * pystr * Z * pystr * pystr * pystr * pystr) :=
  if len s =? 58 then
    Ok (sub s 0 32, be_uint (sub s 32 1), be_uint (sub s 33 1),
        be_uint (sub s 34 4), be_uint (sub s 38 4), sub s 42 2, sub s 44 2,
        be_uint (sub s 46 4), sub s 50 2, sub s 52 2, sub s 54 2, sub s 56 2)
  else Raise StructError.

Section Header.
Context {host : Host}.

(** Line 310: [long(time.mktime((1904, 1, 1, 0, 0, 0, 0, 0, 0)))] *)
Definition time_Offset : Z := Time.mktime (Time.mktm 1904 1 1 0 0 0).

(** The argument of [time.ctime] on line 311. *)
Definition created_secs (created_raw : Z) : Z := created_raw + time_Offset.

(** Lines 282-325: the header dictionary of the 58 bytes read. *)
Definition header_of (header : pystr) : result header_dict :=
  let! '(t0, t1, t2, t3, t4, t5, t6, t7, t8, t9, t10, t11) := unpack_header header in
  let! i := index_nul t0 in
  let name := slice_to t0 i in
  let! lastPosX := __str_to_Word t5 in
  let! lastPosY := __str_to_Word t6 in
  let created := Time.ctime (created_secs t7) in
  let! anchorX := __str_to_Word t8 in
  let! anchorY := __str_to_Word t9 in
  let! width := __str_to_Word t10 in
  let! height := __str_to_Word t11 in
  Ok (mkheader name t1 t2 t3 t4 lastPosX lastPosY created
        anchorX anchorY width height).

(** Lines 278-325 of [get_header], once the image number is settled. *)
Definition get_header_body (image_nr : Z) : M (option header_dict) :=
  do! im := St.gets images in
  do! offset := St.lift (getitem im image_nr) in
  do! _ := fd_seek DB offset in
  do! header := fd_read DB HEADER_LENGTH in
  do! header_dict := St.lift (header_of header) in
  St.ret (Some header_dict).

Definition get_header (image_nr : Z) : M (option header_dict) :=
  do! r := resolve_image_nr image_nr in
  match r with
  | None => St.ret None
  | Some image_nr => get_header_body image_nr
  end.
End Header.

(** [self.__category_names[self.__rec_data_offset_dict[self.__images[image_nr]]]] *)
Definition category_of (image_nr : Z) : M pystr :=
  do! im := St.gets images in
  do! offset := St.lift (getitem im image_nr) in
  do! d := St.gets rec_data_offset_dict in
  do! category := St.lift (dict_getitem d offset) in
  do! names := St.gets category_names in
  St.lift (getitem names category).

Definition max_image_nr : M Z := St.gets record_cnt.

Definition get_cur_image_nr : M Z := St.gets cur_image.

Section Images.
Context {host : Host} {pil : PIL}.

(** Lines 341-368 of [get_image], once the image number is settled.  The
    line written to standard output is left out; the category name it
    contains is looked up all the same. *)
Definition get_image_body (image_nr : Z) : M (option Image) :=
  do! cur := St.gets cur_image in
  do! header := get_header cur in
  match header with
  | None => St.lift (Raise TypeError)
  | Some header =>
      let img_length := h_Width header * h_Height header in
      do! _ := category_of image_nr in
      if negb (h_firstVGARecUID header =? 0) then
        do! d := St.gets rec_data_offset_vga_dict in
        do! offset := St.lift (dict_getitem d (h_firstVGARecUID header)) in
        do! _ := fd_seek VGADB offset in
        do! img_data := fd_read VGADB 153696 in
        do! img := St.lift
          (_decode_image_Color img_data (h_Width header) (h_Height header)) in
        St.ret (Some img)
      else
        do! im := St.gets images in
        do! offset := St.lift (getitem im image_nr) in
        do! _ := fd_seek DB (offset + HEADER_LENGTH) in
        do! img_data := fd_read DB (img_length / 2) in
        do! img := St.lift
          (_decode_image_Grayscale img_data (h_Width header) (h_Height header)) in
        St.ret (Some img)
  end.

Definition get_image (image_nr : Z) : M (option Image) :=
  do! r := resolve_image_nr image_nr in
  match r with
  | None => St.ret None
  | Some image_nr => get_image_body image_nr
  end.

Definition get_next_image : M (option Image) :=
  do! cur := St.gets cur_image in
  do! cnt := St.gets record_cnt in
  if cur + 1 <? cnt then
    do! _ := St.modify (with_cur_image (cur + 1)) in
    do! cur := St.gets cur_image in
    get_image cur
  else St.ret None.

Definition get_previous_image : M (option Image) :=
  do! cur := St.gets cur_image in
  if cur - 1 >? 0 then
    do! _ := St.modify (with_cur_image (cur - 1)) in
    do! cur := St.gets cur_image in
    get_image cur
  else St.ret None.

(** Lines 487-490: the text of a note, read byte by byte up to the first
    NUL.  The local variables of the loop are the byte just read and the
    text written to the note file so far. *)
Definition is_nul (c : pystr) : bool :=
  match c with
  | [b] => ord b =? 0
  | _ => false
  end.

Definition note_cond (s : pystr * pystr) : M bool :=
  let '(c, _) := s in St.ret (negb (is_nul c)).

Definition note_body (s : pystr * pystr) : M (pystr * pystr) :=
  let '(c, text) := s in
  do! c' := fd_read NoteDB 1 in St.ret (c', text ++ c).

Definition read_note_text (fuel : nat) : M pystr :=
  do! c := fd_read NoteDB 1 in
  do! '(_, text) := St.while_ fuel note_cond note_body (c, []) in
  St.ret text.

(** What [extract_image] leaves on disk: the category directory, the file
    name, the text of the note file if the image has a note, and the
    image saved. *)
Record extracted : Type := mkextracted {
  x_category : pystr;
  x_filename : pystr;
  x_note : option pystr;
  x_image : Image
}.

Definition replace_char (old new : Z) (s : pystr) : pystr :=
  map (fun c => if ord c =? old then chr new else c) s.

(** [extract_image] without the directory handling and the encoding of
    the saved file; the note loop runs for at most [fuel] turns. *)
Definition extract_image (fuel : nat) (image_nr : Z) : M (option extracted) :=
  do! r := resolve_image_nr image_nr in
  match r with
  | None => St.ret None
  | Some image_nr =>
      do! header := get_header image_nr in
      do! category := category_of image_nr in
      match header with
      | None => St.lift (Raise TypeError)
      | Some header =>
          let filename := replace_char 47 45 (h_Name header) in
          let filename := replace_char 92 45 filename in
          let filename := replace_char 58 45 filename in
          St.reraise (
            do! note :=
              (if negb (h_noteUID header =? 0) then
                 do! d := St.gets rec_data_offset_note_dict in
                 do! offset := St.lift (dict_getitem d (h_noteUID header)) in
                 do! _ := fd_seek NoteDB offset in
                 do! text := read_note_text fuel in
                 St.ret (Some text)
               else St.ret None) in
            do! img := get_image image_nr in
            match img with
            | None => St.lift (Raise AttributeError)
            | Some img => St.ret (Some (mkextracted category filename note img))
            end)
      end
  end.
End Images.

(** ** The methods that go through all images *)

(** [for x in l: body(x)], keeping what every turn hands over. *)
Fixpoint for_each {A B} (l : list A) (body : A -> M B) : M (list B) :=
  match l with
  | [] => St.ret []
  | x :: l' =>
      do! b := body x in
      do! bs := for_each l' body in
      St.ret (b :: bs)
  end.

(** What a line of [list_images] shows: the number of the image counted
    from one, its name, its size, its category and its creation time. *)
Record listing : Type := mklisting {
  l_number : Z;
  l_Name : pystr;
  l_Width : Z;
  l_Height : Z;
  l_category : pystr;
  l_created : pystr
}.

(** Lines 515-520: one turn of the loop of [list_images]. *)
Definition list_images_line {host : Host} (image_nr : Z) : M listing :=
  do! header := get_header image_nr in
  match header with
  | None => St.lift (Raise TypeError)
  | Some header =>
      do! category := category_of image_nr in
      St.ret (mklisting (image_nr + 1) (h_Name header) (h_Width header)
                (h_Height header) category (h_created header))
  end.

(** [list_images]: the lines written to standard output, in order. *)
Definition list_images {host : Host} : M (list listing) :=
  do! cnt := max_image_nr in
  for_each (range cnt) list_images_line.

(** [extract_all_images]: what each call of [extract_image] leaves. *)
Definition extract_all_images {host : Host} {pil : PIL} (fuel : nat)
  : M (list (option extracted)) :=
  do! cnt := max_image_nr in
  for_each (range cnt) (extract_image fuel).

(** ** Reference functions of the statements *)

(** The two pixels of one byte of a grayscale image. *)
Definition gray_pixels (b : byte) : list Z :=
  [255 - Z.land (ord b) 0xF0; 255 - Z.shiftl (Z.land (ord b) 0x0F) 4].

(** The byte of a string at an index inside it, as a number. *)
Definition byte_at (s : pystr) (p : Z) : Z := ord (nth (Z.to_nat p) s x00).

(** The two YCbCr samples (Y1,U,V) and (Y2,U,V) of the quad U Y1 V Y2 at
    position [p] of a color payload. *)
Definition quad_samples (payload : pystr) (p : Z) : list Z :=
  [byte_at payload (p + 1); byte_at payload p; byte_at payload (p + 2)]
  ++ [byte_at payload (p + 3); byte_at payload p; byte_at payload (p + 2)].

(** The positions 4, 8, ... below [n] that are not multiples of 6404. *)
Definition pixel_positions (n : Z) : list Z :=
  List.filter (fun p => negb (p mod 6404 =? 0)) (xrange 4 n 4).

(** ** Building database files

    The layout of the .pdb files as the constructor reads it, used to write
    down databases with given records. *)

(** The [width] bytes of [v], most significant first. *)
Definition be_bytes (width : nat) (v : Z) : pystr :=
  map (fun i => chr (Z.shiftr v (8 * Z.of_nat (width - 1 - i)))) (seq 0 width).

Definition zeros (n : nat) : pystr := repeat x00 n.

Definition pad_to (n : nat) (s : pystr) : pystr := s ++ zeros (n - length s).

(** The first 78 bytes of a .pdb file: the appinfo location at byte 52 and
    the number of records at byte 76. *)
Definition pdb_preamble (appinfo_start cnt : Z) : pystr :=
  zeros 52 ++ be_bytes 4 appinfo_start ++ zeros 20 ++ be_bytes 2 cnt.

(** An entry of the record list: data offset, attributes, unique id. *)
Definition record_entry (e : Z * Z * Z) : pystr :=
  let '(offset, attr, uid) := e in
  be_bytes 4 offset ++ be_bytes 1 attr ++ be_bytes 3 uid.

(** A .pdb file with the given record list, followed by [rest]. *)
Definition pdb_file (appinfo_start : Z) (entries : list (Z * Z * Z)) (rest : pystr)
  : pystr :=
  pdb_preamble appinfo_start (len entries) ++ flat_map record_entry entries ++ rest.

(** The 58 bytes of an image header. *)
Definition image_header (name : string) (vga_uid note_uid created width height : Z)
  : pystr :=
  pad_to 32 (list_byte_of_string name) ++ be_bytes 1 1 ++ be_bytes 1 0
  ++ be_bytes 4 vga_uid ++ be_bytes 4 note_uid ++ be_bytes 2 0 ++ be_bytes 2 0
  ++ be_bytes 4 created ++ be_bytes 2 0xFFFF ++ be_bytes 2 0xFFFF
  ++ be_bytes 2 width ++ be_bytes 2 height.

Module Example.
(** Three grayscale images of 2 x 2 pixels at the offsets 152, 212 and
    272, listed out of order, in the categories 1, 0 and 1; two category
    names; the second image has the note 5. *)
Definition entries : list (Z * Z * Z) :=
  [(272, 0x41, 3); (152, 0x01, 1); (212, 0x00, 2)].

Definition payload : pystr :=
  zeros 2
  ++ pad_to 16 (list_byte_of_string "Unfiled")
  ++ pad_to 16 (list_byte_of_string "Work")
  ++ zeros 16
  ++ image_header "first" 0 0 0 2 2 ++ [xf0; x00]
  ++ image_header "second" 0 5 86400 2 2 ++ [x12; x34]
  ++ image_header "third" 0 0 3000000000 2 2 ++ [xff; x0f].

Definition emDB : pystr := pdb_file 102 entries payload.

(** A color database with 25 records, of which the first and the last
    are read. *)
Definition vga_entries : list (Z * Z * Z) :=
  (300, 0, 7) :: repeat (0, 0, 0) 23 ++ [(400, 0, 9)].

Definition emVGADB : pystr := pdb_file 0 vga_entries [].

(** A note database with the note 5, "hello". *)
Definition emNoteDB : pystr :=
  pdb_file 0 [(86, 0, 5)] (list_byte_of_string "hello" ++ [x00]).

(** The same note without its final NUL. *)
Definition emNoteDB_open : pystr :=
  pdb_file 0 [(86, 0, 5)] (list_byte_of_string "hello").

(** A stand-in for the imaging library that keeps the mode, the size and
    the raw bytes of an image. *)
#[local] Instance raw_pil : PIL := {|
  Image := mode * (Z * Z) * pystr;
  frombytes m size data := Ok (m, size, data);
  convert img m := Ok (m, snd (fst img), snd img)
|}.

Definition utc : Host := {| utc_offset := 0 |}.

(** The instance the constructor builds from the three files, or the
    empty instance if it fails. *)
Definition instance_of (r : result EyeModule) : EyeModule :=
  match r with
  | Ok self => self
  | _ => fresh [] [] []
  end.

Definition em : EyeModule := instance_of (__init__ emDB emVGADB emNoteDB).

(** A main database with two records at the same data offset. *)
Definition emDB_dup : pystr :=
  pdb_file 94 [(144, 0x01, 1); (144, 0x00, 2)]
    (zeros 2
     ++ pad_to 16 (list_byte_of_string "Unfiled")
     ++ pad_to 16 (list_byte_of_string "Work")
     ++ zeros 16
     ++ image_header "only" 0 0 0 2 2 ++ [xf0; x00]).

Definition em_dup : EyeModule :=
  instance_of (__init__ emDB_dup emVGADB emNoteDB).

(** A main database whose third record has the category 5, with two
    category names. *)
Definition emDB_cat : pystr :=
  pdb_file 102 [(272, 0x45, 3); (152, 0x01, 1); (212, 0x00, 2)] payload.

Definition em_cat : EyeModule :=
  instance_of (__init__ emDB_cat emVGADB emNoteDB).

(** The instance whose note has no final NUL. *)
Definition em_open : EyeModule :=
  instance_of (__init__ emDB emVGADB emNoteDB_open).
End Example.

Module Dangling.
(** A main database with two grayscale-sized images: the header of the
    first names the color record 8, the header of the second the note 6;
    neither is in the indices built from [Example.emVGADB] and
    [Example.emNoteDB]. *)
Definition emDB : pystr :=
  pdb_file 94 [(144, 0x00, 1); (204, 0x01, 2)]
    (zeros 2
     ++ pad_to 16 (list_byte_of_string "Unfiled")
     ++ pad_to 16 (list_byte_of_string "Work")
     ++ zeros 16
     ++ image_header "color" 8 0 0 2 2 ++ [xf0; x00]
     ++ image_header "noted" 0 6 0 2 2 ++ [x12; x34]).

Definition em : EyeModule :=
  Example.instance_of (__init__ emDB Example.emVGADB Example.emNoteDB).
End Dangling.

(** A computation that leaves the current image number alone. *)
Definition keeps_cur {A} (c : M A) : Prop :=
  forall self, cur_image (snd (c self)) = cur_image self.

(** What [resolve_image_nr] does to the current image number. *)
Definition resolved_cur (self : EyeModule) (n : Z) : Z :=
  if n =? -1 then cur_image self
  else if n <? record_cnt self then n else cur_image self.

(** The 58 bytes of the main database at the offset [off]. *)
Definition header_bytes (self : EyeModule) (off : Z) : pystr :=
  take 58 (drop (Z.to_nat off) (f_data (emDB_fd self))).

(** The value [get_header] returns for the header dictionary it decoded. *)
Definition returned {A} (r : result A) : result (option A) :=
  let! a := r in Ok (Some a).

(** Two instances that differ at most in the current image number. *)
Definition same_but_cur (s1 s2 : EyeModule) : Prop :=
  with_cur_image 0 s1 = with_cur_image 0 s2.

(** Two computations that, started from instances related by [R], end with
    the same outcome in instances related by [R]. *)
Definition alike (R : EyeModule -> EyeModule -> Prop) {A} (c1 c2 : M A) : Prop :=
  forall s1 s2, R s1 s2 ->
    fst (c1 s1) = fst (c2 s2) /\ R (snd (c1 s1)) (snd (c2 s2)).


(** The rest of the note database from the current position on. *)
Definition note_rest (self : EyeModule) : pystr :=
  drop (Z.to_nat (f_pos (emNoteDB_fd self))) (f_data (emNoteDB_fd self)).


(** An entry of a record list whose fields fit their widths. *)
Definition entry_ok (e : Z * Z * Z) : Prop :=
  let '(offset, attr, uid) := e in
  0 <= offset < 2 ^ 32 /\ 0 <= attr < 256 /\ 0 <= uid < 2 ^ 24.

Definition entry_offset (e : Z * Z * Z) : Z := e.1.1.

Definition entry_uid (e : Z * Z * Z) : Z := e.2.

(** A list sorted ascending and deduplicated. *)
Definition sorted_distinct (l : list Z) : list Z := merge_sort Z.le (remove_dups l).

(** The category recorded for each data offset: the low four bits of the
    attributes of the last entry with that offset. *)
Definition category_index (entries : list (Z * Z * Z)) (d : gmap Z Z) : gmap Z Z :=
  fold_left (fun d e => <[entry_offset e := Z.land e.1.2 0x0F]> d) entries d.

(** The fields of an instance that reading the record list of the main
    database leaves alone. *)
Definition same_but_index (s s' : EyeModule) : Prop :=
  cur_image s' = cur_image s /\ record_cnt s' = record_cnt s
  /\ emVGADB_fd s' = emVGADB_fd s /\ emNoteDB_fd s' = emNoteDB_fd s.

(** The first two steps of the constructor: the record count and the image
    list of the main database. *)
Definition init_index : M Z :=
  do! appinfo_start := init_record_cnt in
  do! _ := init_images in
  St.ret appinfo_start.

(** The image list, the record count, the categories and the current image
    number of an instance; and the computations that leave them alone. *)
Definition index_of (s : EyeModule) : list Z * Z * gmap Z Z * Z :=
  (images s, record_cnt s, rec_data_offset_dict s, cur_image s).

Definition keeps_index {A} (c : M A) : Prop :=
  forall s, index_of (snd (c s)) = index_of s.

(** What the category of an image is looked up in. *)
Definition tables_of (s : EyeModule) : list Z * gmap Z Z * list pystr :=
  (images s, rec_data_offset_dict s, category_names s).

Definition keeps_tables {A} (c : M A) : Prop :=
  forall s, tables_of (snd (c s)) = tables_of s.

(** A computation that ends, with a value or an exception. *)
Definition in_fuel {A} (c : M A) : Prop := forall s, fst (c s) <> OutOfFuel.

(** The number of groups of 24 records that a record list of [cnt] records
    starts, and the first entry of each group. *)
Definition vga_groups (cnt : Z) : nat := Z.to_nat ((cnt + 23) / 24).

Definition indexed_entries (entries : list (Z * Z * Z)) : list (Z * Z * Z) :=
  omap (fun k => entries !! (24 * k)%nat) (seq 0 (vga_groups (len entries))).

(** The dictionary from unique ids to data offsets. *)
Definition uid_index (entries : list (Z * Z * Z)) (d : gmap Z Z) : gmap Z Z :=
  fold_left (fun d e => <[entry_uid e := entry_offset e]> d) entries d.

(** Two instances, one with the current image number [n] and one with [m],
    that agree otherwise and whose record count admits both numbers. *)
Definition same_entry (im0 : list Z) (n m : Z) (s1 s2 : EyeModule) : Prop :=
  same_but_cur s1 s2 /\ images s1 = im0
  /\ cur_image s1 = n /\ cur_image s2 = m
  /\ n < record_cnt s1 /\ m < record_cnt s1.

(** What holds of the image list of every instance the constructor
    returns. *)
Definition index_ok (s : EyeModule) : Prop :=
  0 <= record_cnt s < 2 ^ 16
  /\ len (images s) <= record_cnt s
  /\ StronglySorted Z.lt (images s)
  /\ (forall o, o ∈ images s <-> is_Some (rec_data_offset_dict s !! o))
  /\ (forall o c, rec_data_offset_dict s !! o = Some c -> 0 <= o /\ 0 <= c <= 15).

(** The categories recorded after [j] turns of the record loop. *)
Definition categories_ok (j : nat) (s : EyeModule) : Prop :=
  (size (rec_data_offset_dict s) <= j)%nat
  /\ (forall o c, rec_data_offset_dict s !! o = Some c -> 0 <= o /\ 0 <= c <= 15).

(** The number of bytes of the main database from the current position
    on. *)
Definition emDB_left (s : EyeModule) : nat :=
  length (drop (Z.to_nat (f_pos (emDB_fd s))) (f_data (emDB_fd s))).

(** A computation that leaves the content of the main database alone. *)
Definition keeps_data {A} (c : M A) : Prop :=
  forall s, f_data (emDB_fd (snd (c s))) = f_data (emDB_fd s).

(** ** Further reference functions *)

(** The byte that two grayscale samples come from. *)
Definition gray_byte (pixel1 pixel2 : Z) : byte :=
  chr ((255 - pixel1) + Z.shiftr (255 - pixel2) 4).

Fixpoint gray_bytes (samples : list Z) : pystr :=
  match samples with
  | pixel1 :: pixel2 :: rest => gray_byte pixel1 pixel2 :: gray_bytes rest
  | _ => []
  end.

(** The last position that the scan of a color payload of [n] bytes
    visits. *)
Definition last_position (n : Z) : Z := 4 * ((n - 1) / 4).

(** What the constructor builds and the methods only read: the content of
    the three databases, the record counts and the indices. *)
Definition built (s : EyeModule)
  : pystr * pystr * pystr * Z * gmap Z Z * list Z * list pystr
    * (Z * gmap Z Z) * (Z * gmap Z Z) :=
  (f_data (emDB_fd s), f_data (emVGADB_fd s), f_data (emNoteDB_fd s),
   record_cnt s, rec_data_offset_dict s, images s, category_names s,
   (vga_record_cnt s, rec_data_offset_vga_dict s),
   (note_record_cnt s, rec_data_offset_note_dict s)).

Definition keeps_built {A} (c : M A) : Prop :=
  forall s, built (snd (c s)) = built s.

(** The name of the category recorded for the data offset [off]. *)
Definition category_at (self : EyeModule) (off : Z) : result pystr :=
  let! category := dict_getitem (rec_data_offset_dict self) off in
  getitem (category_names self) category.

(** The image of the record at the data offset [off], decoded from the
    content of the databases: a color image from the 153696 bytes at the
    offset filed under its unique id, a grayscale image from the bytes
    behind the header. *)
Definition image_at {host : Host} {pil : PIL} (self : EyeModule) (off : Z)
  : result Image :=
  let! header := header_of (header_bytes self off) in
  let! _ := category_at self off in
  if negb (h_firstVGARecUID header =? 0) then
    let! vga_off := dict_getitem (rec_data_offset_vga_dict self)
                      (h_firstVGARecUID header) in
    if vga_off <? 0 then Raise IOError
    else
      _decode_image_Color
        (take (Z.to_nat 153696) (drop (Z.to_nat vga_off) (f_data (emVGADB_fd self))))
        (h_Width header) (h_Height header)
  else
    _decode_image_Grayscale
      (take (Z.to_nat (h_Width header * h_Height header / 2))
         (drop (Z.to_nat (off + 58)) (f_data (emDB_fd self))))
      (h_Width header) (h_Height header).

(** A computation that leaves the part [f] of the instance alone. *)
Definition leaves {X} (f : EyeModule -> X) {A} (c : M A) : Prop :=
  forall s, f (snd (c s)) = f s.

(** The content of the three databases. *)
Definition contents (s : EyeModule) : pystr * pystr * pystr :=
  (f_data (emDB_fd s), f_data (emVGADB_fd s), f_data (emNoteDB_fd s)).

(** An index of unique ids: the keys fit three bytes, the offsets four,
    and there are at most [n] of them. *)
Definition uids_ok (n : Z) (d : gmap Z Z) : Prop :=
  Z.of_nat (size d) <= n
  /\ forall uid offset, d !! uid = Some offset ->
       0 <= uid < 2 ^ 24 /\ 0 <= offset < 2 ^ 32.

(** A category name as the constructor stores it: not empty, at most 15
    bytes, none of them NUL. *)
Definition name_ok (name : pystr) : Prop :=
  0 < len name <= 15 /\ Forall (fun c => ord c <> 0) name.

(** Two instances built from the same databases, with the same current
    image number and, when a file is named, the same position in it. *)
Definition agree (h : option handle) (s1 s2 : EyeModule) : Prop :=
  built s1 = built s2
  /\ cur_image s1 = cur_image s2
  /\ forall x, h = Some x -> f_pos (fd_of x s1) = f_pos (fd_of x s2).

(** A computation whose outcome is the same on two instances that agree,
    and that, when it returns, leaves instances that agree. *)
Definition related (h h' : option handle) {A} (c : M A) : Prop :=
  forall s1 s2, agree h s1 s2 ->
    fst (c s1) = fst (c s2)
    /\ forall a, fst (c s1) = Ok a -> agree h' (snd (c s1)) (snd (c s2)).

(** The line of [list_images] for the image number [n] whose data starts
    at [off]. *)
Definition line_at {host : Host} (self : EyeModule) (n off : Z) : result listing :=
  let! header := header_of (header_bytes self off) in
  let! category := category_at self off in
  Ok (mklisting (n + 1) (h_Name header) (h_Width header) (h_Height header)
        category (h_created header)).

(** The values of a list of outcomes, up to the first exception. *)
Fixpoint collect {A} (l : list (result A)) : result (list A) :=
  match l with
  | [] => Ok []
  | r :: l' =>
      let! a := r in
      let! rest := collect l' in
      Ok (a :: rest)
  end.

(** * Properties *)

(** ** Bytes and arrays *)

Lemma ord_range (c : byte) : 0 <= ord c <= 255.
Proof.
  unfold ord. pose proof (Byte.to_N_bounded c). lia.
Qed.

Lemma len_app {A} (l1 l2 : list A) : len (l1 ++ l2) = len l1 + len l2.
Proof. unfold len. rewrite length_app. lia. Qed.

Lemma len_nonneg {A} (l : list A) : 0 <= len l.
Proof. unfold len. lia. Qed.

Lemma array_fromlist_bytes (arr items : list Z) :
  Forall (fun v => 0 <= v <= 255) items ->
  array_fromlist arr items = Ok (arr ++ items).
Proof.
  intros Hall. unfold array_fromlist.
  replace (forallb _ items) with true; [reflexivity|].
  symmetry. apply forallb_forall. intros v Hv.
  rewrite Forall_forall in Hall. apply list_elem_of_In in Hv.
  specialize (Hall v Hv). lia.
Qed.

Lemma getitem_lookup {A} (l : list A) (i : Z) (x : A) :
  0 <= i -> l !! Z.to_nat i = Some x -> getitem l i = Ok x.
Proof.
  intros Hi Hx. unfold getitem.
  assert (i < len l) by (apply lookup_lt_Some in Hx; unfold len; lia).
  replace (i <? 0) with false by lia.
  replace ((0 <=? i) && (i <? len l)) with true by lia.
  now rewrite Hx.
Qed.

(** ** The grayscale decoder *)

Lemma gray_pixels_range (b : byte) : Forall (fun v => 0 <= v <= 255) (gray_pixels b).
Proof.
  destruct b; repeat constructor; vm_compute; discriminate.
Qed.

Lemma grayscale_fold (img_data : pystr) (acc : list Z) :
  Res.fold grayscale_body acc img_data = Ok (acc ++ flat_map gray_pixels img_data).
Proof.
  revert acc. induction img_data as [|b rest IH]; intros acc; simpl.
  - now rewrite app_nil_r.
  - unfold grayscale_body at 1.
    change [_; _] with (gray_pixels b).
    rewrite (array_fromlist_bytes _ _ (gray_pixels_range b)). simpl.
    rewrite IH. now rewrite <- app_assoc.
Qed.

Lemma len_flat_map_gray (img_data : pystr) :
  len (flat_map gray_pixels img_data) = 2 * len img_data.
Proof.
  unfold len. induction img_data as [|b rest IH]; simpl in *; lia.
Qed.

(** C2. Every byte of the grayscale data yields two samples, first
    [255 - (b & 0xF0)] and then [255 - ((b & 0x0F) << 4)], in the order of
    the bytes; the array never overflows, [n] bytes give [2 * n] samples,
    the byte 0xF0 gives (15, 255) and the byte 0x00 gives (255, 255); the
    image is built from exactly these samples. *)
Theorem grayscale_two_samples_per_byte {pil : PIL} (img_data : pystr) (w h : Z) :
  grayscale_scan img_data
    = Ok (flat_map (fun b => [255 - Z.land (ord b) 0xF0;
                              255 - Z.shiftl (Z.land (ord b) 0x0F) 4]) img_data)
  /\ len (flat_map gray_pixels img_data) = 2 * len img_data
  /\ grayscale_scan [xf0] = Ok [15; 255]
  /\ grayscale_scan [x00] = Ok [255; 255]
  /\ _decode_image_Grayscale img_data w h
     = frombytes L (w, h) (array_tostring (flat_map gray_pixels img_data)).
Proof.
  assert (Hscan : grayscale_scan img_data = Ok (flat_map gray_pixels img_data)).
  { unfold grayscale_scan. now rewrite grayscale_fold. }
  repeat split.
  - exact Hscan.
  - apply len_flat_map_gray.
  - unfold _decode_image_Grayscale. now rewrite Hscan.
Qed.

(** ** The color decoder *)

Lemma xrange_from_spec (n : nat) (start step p : Z) :
  In p (xrange_from n start step)
  <-> exists i, 0 <= i < Z.of_nat n /\ p = start + step * i.
Proof.
  revert start. induction n as [|n IH]; intros start; simpl.
  - split; [tauto|]. intros (i & Hi & _). lia.
  - rewrite IH. split.
    + intros [<- | (i & Hi & ->)].
      * exists 0. split; lia.
      * exists (i + 1). split; lia.
    + intros (i & Hi & ->).
      destruct (Z.eq_dec i 0) as [-> | Hnz]; [left; lia|].
      right. exists (i - 1). split; lia.
Qed.

Lemma length_xrange_from (n : nat) (start step : Z) :
  length (xrange_from n start step) = n.
Proof.
  revert start. induction n as [|n IH]; intros start; simpl; [reflexivity|].
  now rewrite IH.
Qed.

Lemma xrange_spec (start stop step p : Z) :
  0 < step ->
  In p (xrange start stop step)
  <-> start <= p < stop /\ (p - start) mod step = 0.
Proof.
  intros Hstep. unfold xrange. rewrite xrange_from_spec. split.
  - intros (i & Hi & ->).
    destruct (Z.ltb_spec start stop) as [Hlt|Hge]; [|simpl in Hi; lia].
    assert (Hq : i < (stop - start + step - 1) / step) by lia.
    assert (step * i < stop - start).
    { destruct (Z_lt_le_dec (step * i) (stop - start)) as [|Hle]; [assumption|].
      exfalso.
      assert ((stop - start + step - 1) / step <= i); [|lia].
      apply Z.lt_succ_r. apply Z.div_lt_upper_bound; lia. }
    split; [lia|].
    replace (start + step * i - start) with (i * step) by lia.
    apply Z.mod_mul. lia.
  - intros [[Hlo Hhi] Hmod].
    exists ((p - start) / step).
    assert (Hdiv : p - start = step * ((p - start) / step)).
    { rewrite (Z.div_mod (p - start) step) at 1 by lia. lia. }
    assert (0 <= (p - start) / step) by (apply Z.div_pos; lia).
    split; [|lia].
    replace (start <? stop) with true by lia.
    assert ((p - start) / step + 1 <= (stop - start + step - 1) / step); [|lia].
    apply Z.div_le_lower_bound; [lia|]. nia.
Qed.

Lemma getitem_byte_at (s : pystr) (p : Z) :
  0 <= p < len s -> getitem s p = Ok (nth (Z.to_nat p) s x00).
Proof.
  intros Hp. apply getitem_lookup; [lia|].
  destruct (nth_lookup_or_length s (Z.to_nat p) x00) as [E|E]; [exact E|].
  unfold len in Hp. lia.
Qed.

Lemma quad_samples_range (payload : pystr) (p : Z) :
  Forall (fun v => 0 <= v <= 255) (quad_samples payload p).
Proof.
  unfold quad_samples, byte_at. repeat constructor; apply ord_range.
Qed.

Lemma color_body_skip (payload : pystr) (arr : list Z) (p : Z) :
  p mod 6404 = 0 -> color_body payload arr p = Ok arr.
Proof.
  intros Hp. unfold color_body. now replace (p mod 6404 =? 0) with true by lia.
Qed.

Lemma color_body_emit (payload : pystr) (arr : list Z) (p : Z) :
  0 <= p -> p + 3 < len payload -> p mod 6404 <> 0 ->
  color_body payload arr p = Ok (arr ++ quad_samples payload p).
Proof.
  intros Hlo Hhi Hp. unfold color_body.
  replace (p mod 6404 =? 0) with false by lia.
  rewrite !getitem_byte_at by lia. simpl.
  apply (array_fromlist_bytes arr (quad_samples payload p)).
  apply quad_samples_range.
Qed.


Example color_body_quad :
  color_body (zeros 8 ++ [chr 10; chr 20; chr 30; chr 40]) [] 8
  = Ok [20; 10; 30; 40; 10; 30].
Proof. reflexivity. Qed.

Example color_body_at_6404 :
  color_body (zeros (Z.to_nat 6404) ++ [chr 10; chr 20; chr 30; chr 40]) [1; 2; 3] 6404
  = Ok [1; 2; 3].
Proof. reflexivity. Qed.





(** ** The navigation cursor *)

Lemma resolve_default (self : EyeModule) :
  resolve_image_nr (-1) self = (Ok (Some (cur_image self)), self).
Proof. reflexivity. Qed.

Lemma resolve_explicit (self : EyeModule) (n : Z) :
  n <> -1 -> n < record_cnt self ->
  resolve_image_nr n self = (Ok (Some n), with_cur_image n self).
Proof.
  intros Hn Hlt. unfold resolve_image_nr, St.bind, St.gets, St.modify, St.ret.
  replace (n =? -1) with false by lia.
  now replace (n <? record_cnt self) with true by lia.
Qed.

Lemma resolve_out_of_range (self : EyeModule) (n : Z) :
  n <> -1 -> record_cnt self <= n ->
  resolve_image_nr n self = (Ok None, self).
Proof.
  intros Hn Hge. unfold resolve_image_nr, St.bind, St.gets, St.modify, St.ret.
  replace (n =? -1) with false by lia.
  now replace (n <? record_cnt self) with false by lia.
Qed.

Lemma keeps_cur_ret {A} (a : A) : keeps_cur (St.ret a).
Proof. intros self. reflexivity. Qed.

Lemma keeps_cur_lift {A} (r : result A) : keeps_cur (St.lift r).
Proof. intros self. reflexivity. Qed.

Lemma keeps_cur_gets {A} (f : EyeModule -> A) : keeps_cur (St.gets f).
Proof. intros self. reflexivity. Qed.

Lemma keeps_cur_bind {A B} (c : M A) (k : A -> M B) :
  keeps_cur c -> (forall a, keeps_cur (k a)) -> keeps_cur (St.bind c k).
Proof.
  intros Hc Hk self. unfold St.bind. specialize (Hc self).
  destruct (c self) as [[a| e |] self']; simpl in *; try assumption.
  now rewrite Hk.
Qed.

Lemma fd_of_with_fd (h : handle) (fd : file) (s : EyeModule) :
  fd_of h (with_fd h fd s) = fd.
Proof. destruct s, h; reflexivity. Qed.

Lemma cur_image_with_fd (h : handle) (fd : file) (self : EyeModule) :
  cur_image (with_fd h fd self) = cur_image self.
Proof. destruct self, h; reflexivity. Qed.

Lemma keeps_cur_fd_seek (h : handle) (offset : Z) : keeps_cur (fd_seek h offset).
Proof.
  intros self. unfold fd_seek. destruct (f_seek _ _); simpl; try reflexivity.
  apply cur_image_with_fd.
Qed.

Lemma keeps_cur_fd_read (h : handle) (n : Z) : keeps_cur (fd_read h n).
Proof. intros self. unfold fd_read. simpl. apply cur_image_with_fd. Qed.

Lemma keeps_cur_category_of (n : Z) : keeps_cur (category_of n).
Proof.
  unfold category_of.
  repeat (apply keeps_cur_bind; [|intros]);
    auto using keeps_cur_gets, keeps_cur_lift.
Qed.

Lemma cur_image_with_cur_image (n : Z) (self : EyeModule) :
  cur_image (with_cur_image n self) = n.
Proof. destruct self; reflexivity. Qed.

Lemma resolve_cur (self : EyeModule) (n : Z) :
  cur_image (snd (resolve_image_nr n self)) = resolved_cur self n.
Proof.
  unfold resolve_image_nr, resolved_cur, St.bind, St.gets, St.modify, St.ret.
  destruct (n =? -1); [reflexivity|].
  destruct (n <? record_cnt self); [|reflexivity].
  apply cur_image_with_cur_image.
Qed.

Lemma bind_cur {A B} (c : M A) (k : A -> M B) (self : EyeModule) :
  (forall a, keeps_cur (k a)) ->
  cur_image (snd (St.bind c k self)) = cur_image (snd (c self)).
Proof.
  intros Hk. unfold St.bind.
  destruct (c self) as [[a| e |] self']; simpl; try reflexivity.
  apply Hk.
Qed.

Lemma get_header_cur {host : Host} (self : EyeModule) (n : Z) :
  cur_image (snd (get_header n self)) = resolved_cur self n.
Proof.
  unfold get_header. rewrite bind_cur; [apply resolve_cur|].
  intros [k|]; [|apply keeps_cur_ret]. unfold get_header_body.
  repeat (apply keeps_cur_bind; [|intros]);
    auto using keeps_cur_gets, keeps_cur_lift, keeps_cur_fd_seek,
      keeps_cur_fd_read, keeps_cur_ret.
Qed.

Lemma resolved_cur_same (self : EyeModule) :
  resolved_cur self (cur_image self) = cur_image self.
Proof.
  unfold resolved_cur. destruct (_ =? -1); [reflexivity|].
  now destruct (_ <? _).
Qed.


Lemma get_image_cur {host : Host} {pil : PIL} (self : EyeModule) (n : Z) :
  cur_image (snd (get_image n self)) = resolved_cur self n.
Proof.
  unfold get_image. rewrite bind_cur; [apply resolve_cur|].
  intros [k|]; [|apply keeps_cur_ret]. unfold get_image_body.
  intros self'. unfold St.bind at 1. unfold St.gets at 1. cbn [fst snd].
  rewrite bind_cur; [rewrite get_header_cur; apply resolved_cur_same|].
  intros [header|]; [|apply keeps_cur_lift].
  apply keeps_cur_bind; [apply keeps_cur_category_of|intros _].
  destruct (negb _);
    repeat (apply keeps_cur_bind; [|intros]);
    auto using keeps_cur_gets, keeps_cur_lift, keeps_cur_fd_seek,
      keeps_cur_fd_read, keeps_cur_ret.
Qed.


Lemma get_next_image_at_end {host : Host} {pil : PIL} (self : EyeModule) :
  record_cnt self <= cur_image self + 1 ->
  get_next_image self = (Ok None, self).
Proof.
  intros Hge. unfold get_next_image, St.bind, St.gets, St.ret.
  now replace (cur_image self + 1 <? record_cnt self) with false by lia.
Qed.


(** C3, at the cursor value where the code departs from it: with the
    current image number 1, [get_previous_image] returns None and leaves
    the instance as it is, so the current image number stays 1 and image 0
    is not reached by going back (the test is [cur - 1 > 0]). *)
Theorem get_previous_image_stuck_at_1 {host : Host} {pil : PIL} (self : EyeModule) :
  cur_image self = 1 ->
  get_previous_image self = (Ok None, self)
  /\ cur_image (snd (get_previous_image self)) <> 0.
Proof.
  intros Hcur.
  assert (E : get_previous_image self = (Ok None, self)).
  { unfold get_previous_image, St.bind, St.gets, St.ret. now rewrite Hcur. }
  split; [exact E|]. rewrite E. simpl. lia.
Qed.

Lemma get_previous_image_stuck_at_1_witness :
  let self :=
    snd (get_next_image (host := Example.utc) (pil := Example.raw_pil) Example.em) in
  cur_image Example.em = 0
  /\ cur_image self = 1
  /\ get_previous_image (host := Example.utc) (pil := Example.raw_pil) self
     = (Ok None, self).
Proof.
  split; [vm_compute; reflexivity|].
  split; [vm_compute; reflexivity|].
  apply (get_previous_image_stuck_at_1 (host := Example.utc) (pil := Example.raw_pil)).
  vm_compute; reflexivity.
Defined.

(** ** Reading a header *)

Lemma images_with_cur_image (n : Z) (self : EyeModule) :
  images (with_cur_image n self) = images self.
Proof. destruct self; reflexivity. Qed.

Lemma emDB_fd_with_cur_image (n : Z) (self : EyeModule) :
  emDB_fd (with_cur_image n self) = emDB_fd self.
Proof. destruct self; reflexivity. Qed.

Lemma record_cnt_with_cur_image (n : Z) (self : EyeModule) :
  record_cnt (with_cur_image n self) = record_cnt self.
Proof. destruct self; reflexivity. Qed.

Lemma get_header_settled {host : Host} (self : EyeModule) (k off : Z) :
  getitem (images self) k = Ok off ->
  fst (get_header_body k self)
  = if off <? 0 then Raise IOError
    else returned (header_of (header_bytes self off)).
Proof.
  intros Hoff. unfold get_header_body.
  unfold St.bind at 1. unfold St.gets at 1.
  unfold St.bind at 1. unfold St.lift at 1. rewrite Hoff.
  unfold St.bind at 1. unfold fd_seek, f_seek.
  destruct (off <? 0); [reflexivity|].
  unfold St.bind at 1. unfold fd_read, f_read. cbn [fst snd].
  unfold St.bind, St.lift, St.ret, returned, header_bytes, HEADER_LENGTH.
  destruct self as [[d p] b c cur cnt dd im cat vc vd nc nd]. cbn.
  destruct (header_of _); reflexivity.
Qed.


Lemma get_header_explicit {host : Host} (self : EyeModule) (n off : Z) :
  n <> -1 -> n < record_cnt self ->
  getitem (images self) n = Ok off -> 0 <= off ->
  fst (get_header n self) = returned (header_of (header_bytes self off)).
Proof.
  intros Hn Hlt Hoff Hpos. unfold get_header. unfold St.bind at 1.
  rewrite resolve_explicit by assumption.
  rewrite (get_header_settled (with_cur_image n self) n off)
    by (now rewrite images_with_cur_image).
  replace (off <? 0) with false by lia.
  unfold header_bytes. now rewrite emDB_fd_with_cur_image.
Qed.

Lemma get_header_out_of_range {host : Host} (self : EyeModule) (n : Z) :
  n <> -1 -> record_cnt self <= n -> get_header n self = (Ok None, self).
Proof.
  intros Hn Hge. unfold get_header. unfold St.bind at 1.
  now rewrite resolve_out_of_range by assumption.
Qed.



(** ** Negative image numbers *)

Lemma getitem_negative {A} (l : list A) (n : Z) (x : A) :
  - len l <= n < 0 -> l !! Z.to_nat (len l + n) = Some x -> getitem l n = Ok x.
Proof.
  intros Hn Hx. unfold getitem.
  replace (n <? 0) with true by lia.
  replace ((0 <=? n + len l) && (n + len l <? len l)) with true by lia.
  replace (n + len l) with (len l + n) by lia. now rewrite Hx.
Qed.

Lemma getitem_below {A} (l : list A) (n : Z) :
  n < - len l -> getitem l n = Raise IndexError.
Proof.
  intros Hn. unfold getitem.
  pose proof (len_nonneg l).
  replace (n <? 0) with true by lia.
  now replace ((0 <=? n + len l) && (n + len l <? len l)) with false by lia.
Qed.

Lemma get_header_getitem_raises {host : Host} (self : EyeModule) (n : Z) (e : exn) :
  n <> -1 -> n < record_cnt self ->
  getitem (images self) n = Raise e ->
  get_header n self = (Raise e, with_cur_image n self).
Proof.
  intros Hn Hlt Hget. unfold get_header. unfold St.bind at 1.
  rewrite resolve_explicit by assumption. unfold get_header_body.
  unfold St.bind at 1. unfold St.gets at 1.
  unfold St.bind at 1. unfold St.lift at 1.
  now rewrite images_with_cur_image, Hget.
Qed.

Lemma get_header_not_none {host : Host} (self : EyeModule) (n : Z) :
  n <> -1 -> n < record_cnt self -> fst (get_header n self) <> Ok None.
Proof.
  intros Hn Hlt. unfold get_header. unfold St.bind at 1.
  rewrite resolve_explicit by assumption.
  unfold get_header_body, St.bind, St.gets, St.lift, St.ret, fd_seek, fd_read.
  repeat match goal with
         | |- context [match ?x with _ => _ end] => destruct x; cbn [fst snd]
         end; discriminate.
Qed.

Lemma get_image_not_none {host : Host} {pil : PIL} (self : EyeModule) (n : Z) :
  n <> -1 -> n < record_cnt self -> fst (get_image n self) <> Ok None.
Proof.
  intros Hn Hlt. unfold get_image. unfold St.bind at 1.
  rewrite resolve_explicit by assumption. unfold get_image_body.
  unfold St.bind at 1. unfold St.gets at 1.
  unfold St.bind at 1.
  destruct (get_header _ _) as [[[header|]|e|] s1]; cbn [fst snd];
    try discriminate.
  unfold St.bind at 1.
  destruct (category_of n s1) as [[c|e|] s2]; cbn [fst snd]; try discriminate.
  unfold St.bind, St.gets, St.lift, St.ret, fd_seek, fd_read.
  repeat match goal with
         | |- context [match ?x with _ => _ end] => destruct x; cbn [fst snd]
         end; discriminate.
Qed.

Lemma get_image_header_raises {host : Host} {pil : PIL} (self : EyeModule) (n : Z)
    (e : exn) :
  n <> -1 -> n < record_cnt self ->
  getitem (images self) n = Raise e ->
  get_image n self = (Raise e, with_cur_image n self).
Proof.
  intros Hn Hlt Hget. unfold get_image. unfold St.bind at 1.
  rewrite resolve_explicit by assumption. unfold get_image_body.
  unfold St.bind at 1. unfold St.gets at 1.
  unfold St.bind at 1. rewrite cur_image_with_cur_image.
  rewrite (get_header_getitem_raises (with_cur_image n self) n e); try assumption.
  - destruct self; reflexivity.
  - now rewrite record_cnt_with_cur_image.
  - now rewrite images_with_cur_image.
Qed.

Lemma with_cur_image_with_fd (k : Z) (h : handle) (fd : file) (s : EyeModule) :
  with_cur_image k (with_fd h fd s) = with_fd h fd (with_cur_image k s).
Proof. destruct s, h; reflexivity. Qed.

Lemma fd_of_with_cur_image (k : Z) (h : handle) (s : EyeModule) :
  fd_of h (with_cur_image k s) = fd_of h s.
Proof. destruct s, h; reflexivity. Qed.

Lemma record_cnt_with_fd (h : handle) (fd : file) (s : EyeModule) :
  record_cnt (with_fd h fd s) = record_cnt s.
Proof. destruct s, h; reflexivity. Qed.

Lemma images_with_fd (h : handle) (fd : file) (s : EyeModule) :
  images (with_fd h fd s) = images s.
Proof. destruct s, h; reflexivity. Qed.

Lemma with_cur_image_twice (j k : Z) (s : EyeModule) :
  with_cur_image j (with_cur_image k s) = with_cur_image j s.
Proof. destruct s; reflexivity. Qed.

Lemma with_cur_image_same (s : EyeModule) :
  with_cur_image (cur_image s) s = s.
Proof. destruct s; reflexivity. Qed.

(** Two image numbers [n] and [m] that select the same entry of the image
    list lead [get_header] and [get_image] to the same outcome. *)
Section SameEntry.
Context {host : Host} {pil : PIL}.
Variables (im0 : list Z) (n m : Z).
Hypothesis Hn : n <> -1.
Hypothesis Hm : m <> -1.
Hypothesis Hentry : getitem im0 n = getitem im0 m.

Local Abbreviation R := (same_entry im0 n m).

Lemma alike_ret {A} (a : A) : alike R (St.ret a) (St.ret a).
Proof. intros s1 s2 HR. split; [reflexivity|exact HR]. Qed.

Lemma alike_lift {A} (r : result A) : alike R (St.lift r) (St.lift r).
Proof. intros s1 s2 HR. split; [reflexivity|exact HR]. Qed.

Lemma alike_bind {A B} (c1 c2 : M A) (k1 k2 : A -> M B) :
  alike R c1 c2 -> (forall a, alike R (k1 a) (k2 a)) ->
  alike R (St.bind c1 k1) (St.bind c2 k2).
Proof.
  intros Hc Hk s1 s2 HR. unfold St.bind.
  destruct (Hc s1 s2 HR) as [Hfst Hsnd].
  destruct (c1 s1) as [r1 t1], (c2 s2) as [r2 t2]. simpl in Hfst, Hsnd.
  subst r2. destruct r1 as [a|e|]; [now apply Hk| |]; now split.
Qed.

Lemma alike_gets {A} (f : EyeModule -> A) :
  (forall s, f (with_cur_image 0 s) = f s) ->
  alike R (St.gets f) (St.gets f).
Proof.
  intros Hf s1 s2 HR. split; [|exact HR]. simpl.
  destruct HR as (Hsame & _). unfold same_but_cur in Hsame.
  rewrite <- (Hf s1), <- (Hf s2). now rewrite Hsame.
Qed.

Lemma alike_gets_images {B} (k1 k2 : list Z -> M B) :
  alike R (k1 im0) (k2 im0) ->
  alike R (St.bind (St.gets images) k1) (St.bind (St.gets images) k2).
Proof.
  intros Hk s1 s2 HR. unfold St.bind, St.gets.
  assert (images s1 = im0) as -> by apply HR.
  assert (images s2 = im0) as ->.
  { destruct HR as (Hsame & <- & _). unfold same_but_cur in Hsame.
    rewrite <- (images_with_cur_image 0 s2), <- Hsame.
    apply images_with_cur_image. }
  now apply Hk.
Qed.

Lemma alike_gets_cur {B} (k1 k2 : Z -> M B) :
  alike R (k1 n) (k2 m) ->
  alike R (St.bind (St.gets cur_image) k1) (St.bind (St.gets cur_image) k2).
Proof.
  intros Hk s1 s2 HR. unfold St.bind, St.gets.
  assert (cur_image s1 = n) as -> by apply HR.
  assert (cur_image s2 = m) as -> by apply HR.
  now apply Hk.
Qed.

Lemma R_with_fd (h : handle) (fd : file) (s1 s2 : EyeModule) :
  R s1 s2 -> R (with_fd h fd s1) (with_fd h fd s2).
Proof.
  unfold R, same_but_cur. intros (Hsame & Him & Hc1 & Hc2 & Hr1 & Hr2).
  rewrite !with_cur_image_with_fd, Hsame, images_with_fd,
    !cur_image_with_fd, !record_cnt_with_fd.
  repeat split; assumption.
Qed.

Lemma R_fd_of (h : handle) (s1 s2 : EyeModule) :
  R s1 s2 -> fd_of h s1 = fd_of h s2.
Proof.
  unfold R, same_but_cur. intros (Hsame & _).
  rewrite <- (fd_of_with_cur_image 0 h s1), Hsame.
  apply fd_of_with_cur_image.
Qed.

Lemma alike_fd_seek (h : handle) (offset : Z) :
  alike R (fd_seek h offset) (fd_seek h offset).
Proof.
  intros s1 s2 HR. unfold fd_seek. rewrite <- (R_fd_of h s1 s2 HR).
  destruct (f_seek _ _); simpl; (split; [reflexivity|]);
    [now apply R_with_fd|exact HR|exact HR].
Qed.

Lemma alike_fd_read (h : handle) (k : Z) :
  alike R (fd_read h k) (fd_read h k).
Proof.
  intros s1 s2 HR. unfold fd_read. rewrite <- (R_fd_of h s1 s2 HR).
  simpl. split; [reflexivity|]. now apply R_with_fd.
Qed.

Lemma alike_get_header_body :
  alike R (get_header_body n) (get_header_body m).
Proof.
  unfold get_header_body. apply alike_gets_images. rewrite Hentry.
  repeat (apply alike_bind; [|intros]);
    auto using alike_lift, alike_fd_seek, alike_fd_read, alike_ret.
Qed.

Lemma R_record_cnt (s1 s2 : EyeModule) : R s1 s2 -> record_cnt s2 = record_cnt s1.
Proof.
  intros (Hsame & _). unfold same_but_cur in Hsame.
  rewrite <- (record_cnt_with_cur_image 0 s2), <- Hsame.
  apply record_cnt_with_cur_image.
Qed.

Lemma get_header_at_cur (s : EyeModule) :
  cur_image s <> -1 -> cur_image s < record_cnt s ->
  get_header (cur_image s) s = get_header_body (cur_image s) s.
Proof.
  intros Hc Hlt. unfold get_header. unfold St.bind at 1.
  rewrite resolve_explicit by assumption. now rewrite with_cur_image_same.
Qed.

Lemma alike_get_header : alike R (get_header n) (get_header m).
Proof.
  intros s1 s2 HR. pose proof (R_record_cnt s1 s2 HR) as Hcnt.
  pose proof HR as (Hsame & Him & Hc1 & Hc2 & Hr1 & Hr2).
  pose proof (get_header_at_cur s1) as E1. rewrite Hc1 in E1.
  pose proof (get_header_at_cur s2) as E2. rewrite Hc2, Hcnt in E2.
  rewrite (E1 Hn Hr1), (E2 Hm Hr2). now apply alike_get_header_body.
Qed.

Lemma alike_category_of : alike R (category_of n) (category_of m).
Proof.
  unfold category_of. apply alike_gets_images. rewrite Hentry.
  apply alike_bind; [apply alike_lift|intros offset].
  apply alike_bind;
    [apply alike_gets; intros s; destruct s; reflexivity|intros d].
  apply alike_bind; [apply alike_lift|intros c].
  apply alike_bind;
    [apply alike_gets; intros s; destruct s; reflexivity|intros names].
  apply alike_lift.
Qed.

Lemma alike_get_image_body :
  alike R (get_image_body n) (get_image_body m).
Proof.
  unfold get_image_body. apply alike_gets_cur.
  apply alike_bind; [apply alike_get_header|intros [header|]];
    [|apply alike_lift].
  apply alike_bind; [apply alike_category_of|intros _].
  destruct (negb _).
  - apply alike_bind;
      [apply alike_gets; intros s; destruct s; reflexivity|intros d].
    repeat (apply alike_bind; [|intros]);
      auto using alike_lift, alike_fd_seek, alike_fd_read, alike_ret.
  - apply alike_gets_images. rewrite Hentry.
    repeat (apply alike_bind; [|intros]);
      auto using alike_lift, alike_fd_seek, alike_fd_read, alike_ret.
Qed.

(** Outcome of [get_header] and [get_image] at the two numbers. *)
Lemma same_entry_same_outcome (self : EyeModule) :
  images self = im0 -> n < record_cnt self -> m < record_cnt self ->
  fst (get_header n self) = fst (get_header m self)
  /\ fst (get_image n self) = fst (get_image m self).
Proof.
  intros Him Hr1 Hr2.
  assert (HR : R (with_cur_image n self) (with_cur_image m self)).
  { unfold R, same_but_cur.
    rewrite !with_cur_image_twice, images_with_cur_image,
      !cur_image_with_cur_image, record_cnt_with_cur_image.
    repeat split; assumption. }
  unfold get_header, get_image. unfold St.bind.
  rewrite !resolve_explicit by assumption. split.
  - now apply alike_get_header_body.
  - now apply alike_get_image_body.
Qed.
End SameEntry.

(** C9. An image number [n] below -1 passes the test of [get_header] and
    of [get_image], since it is below the record count: the method does not
    return None and the current image number becomes [n].  The image list is
    then indexed from its end: when [n] is not below minus the number of
    images, the outcome is that of the number [len images + n] (for -2 the
    header of the last image but one); below that the index is outside the
    list and IndexError is raised, the current image number being [n]
    already. *)
Theorem negative_image_nr_counts_from_end {host : Host} {pil : PIL}
    (self : EyeModule) (n : Z) :
  n < -1 ->
  len (images self) <= record_cnt self ->
  cur_image (snd (get_header n self)) = n
  /\ fst (get_header n self) <> Ok None
  /\ cur_image (snd (get_image n self)) = n
  /\ fst (get_image n self) <> Ok None
  /\ (- len (images self) <= n ->
      fst (get_header n self) = fst (get_header (len (images self) + n) self)
      /\ fst (get_image n self) = fst (get_image (len (images self) + n) self)
      /\ forall off,
           images self !! Z.to_nat (len (images self) + n) = Some off ->
           0 <= off ->
           fst (get_header n self) = returned (header_of (header_bytes self off)))
  /\ (n < - len (images self) ->
      get_header n self = (Raise IndexError, with_cur_image n self)
      /\ get_image n self = (Raise IndexError, with_cur_image n self)).
Proof.
  intros Hn Hcnt. pose proof (len_nonneg (images self)) as Hlen.
  assert (Hcur : resolved_cur self n = n).
  { unfold resolved_cur. replace (n =? -1) with false by lia.
    now replace (n <? record_cnt self) with true by lia. }
  split; [now rewrite get_header_cur|].
  split; [apply get_header_not_none; lia|].
  split; [now rewrite get_image_cur|].
  split; [apply get_image_not_none; lia|].
  split.
  - intros Hin.
    assert (Hentry : getitem (images self) n
                     = getitem (images self) (len (images self) + n)).
    { unfold getitem. replace (n <? 0) with true by lia.
      replace (len (images self) + n <? 0) with false by lia.
      now replace (n + len (images self)) with (len (images self) + n) by lia. }
    destruct (same_entry_same_outcome (images self) n (len (images self) + n)
                ltac:(lia) ltac:(lia) Hentry self eq_refl ltac:(lia) ltac:(lia))
      as [Hh Hi].
    split; [exact Hh|]. split; [exact Hi|].
    intros off Hoff Hpos. apply get_header_explicit; try lia.
    apply getitem_negative; [lia|exact Hoff].
  - intros Hout. split.
    + apply get_header_getitem_raises; try lia. now apply getitem_below.
    + apply get_image_header_raises; try lia. now apply getitem_below.
Qed.

Lemma negative_image_nr_counts_from_end_witness :
  (-2 < -1 /\ len (images Example.em) <= record_cnt Example.em)
  /\ cur_image (snd (get_header (host := Example.utc) (-2) Example.em)) = -2
  /\ fst (get_image (host := Example.utc) (pil := Example.raw_pil) (-2) Example.em)
     = fst (get_image (host := Example.utc) (pil := Example.raw_pil) 1 Example.em).
Proof.
  assert (H1 : -2 < -1) by lia.
  assert (H2 : len (images Example.em) <= record_cnt Example.em)
    by (vm_compute; discriminate).
  destruct (negative_image_nr_counts_from_end
              (host := Example.utc) (pil := Example.raw_pil) Example.em (-2) H1 H2)
    as (Hcur & _ & _ & _ & Hin & _).
  split; [split; assumption|]. split; [exact Hcur|].
  apply Hin. vm_compute; discriminate.
Defined.

(** ** The creation time *)






(** ** The text of a note *)

Lemma read_note_text_unfold (fuel : nat) :
  read_note_text fuel
  = (do! c := fd_read NoteDB 1 in
     do! '(_, text) := St.while_ fuel note_cond note_body (c, []) in
     St.ret text).
Proof. reflexivity. Qed.

(** One byte read from the note database. *)
Lemma fd_read_note_1 (self : EyeModule) :
  0 <= f_pos (emNoteDB_fd self) ->
  exists self',
    fd_read NoteDB 1 self = (Ok (take 1 (note_rest self)), self')
    /\ 0 <= f_pos (emNoteDB_fd self')
    /\ note_rest self' = drop 1 (note_rest self).
Proof.
  intros Hpos. unfold fd_read, f_read, note_rest.
  destruct self as [a b [data pos] cur cnt d im cat vc vd nc nd].
  cbn [fd_of with_fd emNoteDB_fd f_data f_pos] in *.
  eexists. split; [reflexivity|].
  cbn [emNoteDB_fd f_data f_pos].
  change (Z.to_nat 1) with 1%nat.
  set (rest := drop (Z.to_nat pos) data).
  assert (Hlen : len (take 1 rest) = Z.of_nat (Nat.min 1 (length rest))).
  { unfold len. now rewrite length_take. }
  split; [lia|].
  replace (Z.to_nat (pos + len (take 1 rest)))
    with (Z.to_nat pos + Nat.min 1 (length rest))%nat by lia.
  rewrite <- drop_drop. fold rest.
  destruct rest as [|b' rest']; [reflexivity|].
  simpl. reflexivity.
Qed.

(** Without a NUL ahead the loop is still running after any number of
    turns. *)
Lemma note_loop_runs_on (fuel : nat) (c text : pystr) (self : EyeModule) :
  is_nul c = false ->
  0 <= f_pos (emNoteDB_fd self) ->
  Forall (fun b => ord b <> 0) (note_rest self) ->
  fst (St.while_ fuel note_cond note_body (c, text) self) = OutOfFuel.
Proof.
  revert c text self. induction fuel as [|fuel IH]; intros c text self Hc Hpos Hrest.
  - reflexivity.
  - cbn [St.while_]. unfold St.bind at 1. unfold note_cond at 1, St.ret at 1.
    rewrite Hc. cbn [negb]. unfold St.bind at 1. unfold note_body at 1.
    unfold St.bind at 1.
    destruct (fd_read_note_1 self Hpos) as (self' & -> & Hpos' & Hrest').
    unfold St.ret at 1.
    apply IH; [|exact Hpos'|].
    + destruct (note_rest self) as [|b rest]; [reflexivity|].
      simpl. apply Forall_cons in Hrest as [Hb _]. now apply Z.eqb_neq.
    + rewrite Hrest'. now apply Forall_drop.
Qed.

(** With a NUL ahead the loop stops at it. *)
Lemma note_loop_stops (t rest : pystr) :
  forall (fuel : nat) (c text : pystr) (self : EyeModule),
  is_nul c = false ->
  0 <= f_pos (emNoteDB_fd self) ->
  Forall (fun b => ord b <> 0) t ->
  note_rest self = t ++ x00 :: rest ->
  (length t + 2 <= fuel)%nat ->
  exists self',
    St.while_ fuel note_cond note_body (c, text) self
    = (Ok ([x00], text ++ c ++ t), self')
    /\ note_rest self' = rest.
Proof.
  induction t as [|b t IH]; intros fuel c text self Hc Hpos Ht Hrest Hfuel.
  - destruct fuel as [|[|fuel]]; [simpl in Hfuel; lia..|].
    cbn [St.while_]. unfold St.bind at 1. unfold note_cond at 1, St.ret at 1.
    rewrite Hc. cbn [negb]. unfold St.bind at 1. unfold note_body at 1.
    unfold St.bind at 1.
    destruct (fd_read_note_1 self Hpos) as (self' & -> & Hpos' & Hrest').
    rewrite Hrest in *. simpl in Hrest'. simpl take. rewrite ?take_0, ?drop_0 in *.
    exists self'. split; [|exact Hrest'].
    unfold St.ret, St.bind, note_cond. simpl. now rewrite app_nil_r.
  - destruct fuel as [|fuel]; [simpl in Hfuel; lia|].
    cbn [St.while_]. unfold St.bind at 1. unfold note_cond at 1, St.ret at 1.
    rewrite Hc. cbn [negb]. unfold St.bind at 1. unfold note_body at 1.
    unfold St.bind at 1.
    destruct (fd_read_note_1 self Hpos) as (self' & -> & Hpos' & Hrest').
    rewrite Hrest in *. simpl in Hrest'. simpl take. rewrite ?take_0, ?drop_0 in *. unfold St.ret at 1.
    apply Forall_cons in Ht as [Hb Ht].
    destruct (IH fuel [b] (text ++ c) self') as (self'' & E & Hrest'');
      [simpl; now apply Z.eqb_neq|assumption..|simpl in Hfuel; lia|].
    exists self''. split; [|exact Hrest''].
    rewrite E. now rewrite <- !app_assoc.
Qed.

Lemma read_note_text_runs_on (fuel : nat) (self : EyeModule) :
  0 <= f_pos (emNoteDB_fd self) ->
  Forall (fun b => ord b <> 0) (note_rest self) ->
  fst (read_note_text fuel self) = OutOfFuel.
Proof.
  intros Hpos Hrest. rewrite read_note_text_unfold. unfold St.bind at 1.
  destruct (fd_read_note_1 self Hpos) as (self' & -> & Hpos' & Hrest').
  unfold St.bind at 1.
  pose proof (note_loop_runs_on fuel (take 1 (note_rest self)) [] self') as Hloop.
  destruct (St.while_ _ _ _ _ _) as [r s']. simpl in Hloop. rewrite Hloop.
  - reflexivity.
  - destruct (note_rest self) as [|b rest]; [reflexivity|].
    simpl. rewrite ?take_0. simpl.
    apply Forall_cons in Hrest as [Hb _]. now apply Z.eqb_neq.
  - exact Hpos'.
  - rewrite Hrest'. now apply Forall_drop.
Qed.

Lemma read_note_text_stops (fuel : nat) (self : EyeModule) (text rest : pystr) :
  0 <= f_pos (emNoteDB_fd self) ->
  Forall (fun b => ord b <> 0) text ->
  note_rest self = text ++ x00 :: rest ->
  (length text < fuel)%nat ->
  exists self', read_note_text fuel self = (Ok text, self')
                /\ note_rest self' = rest.
Proof.
  intros Hpos Htext Hrest Hfuel. rewrite read_note_text_unfold. unfold St.bind at 1.
  destruct (fd_read_note_1 self Hpos) as (self' & -> & Hpos' & Hrest').
  rewrite Hrest in *. unfold St.bind at 1.
  destruct text as [|b t].
  - simpl in *. rewrite ?take_0, ?drop_0 in *.
    destruct fuel as [|fuel]; [lia|]. exists self'. split; [|exact Hrest'].
    reflexivity.
  - simpl in *. rewrite ?take_0, ?drop_0 in *.
    apply Forall_cons in Htext as [Hb Ht].
    destruct (note_loop_stops t rest fuel [b] [] self') as (self'' & E & Hrest'');
      [simpl; now apply Z.eqb_neq|assumption..|lia|].
    rewrite E. exists self''. split; [reflexivity|exact Hrest''].
Qed.

(** [extract_image] on an image whose note has no NUL up to the end of the
    note database: the method is still in its note loop after any number of
    turns. *)
Lemma extract_image_note_runs_on {host : Host} {pil : PIL} (fuel : nat) (n : Z)
    (self s1 : EyeModule) (header : header_dict) (category : pystr) (offset : Z) :
  n <> -1 -> n < record_cnt self ->
  get_header n (with_cur_image n self) = (Ok (Some header), s1) ->
  category_of n s1 = (Ok category, s1) ->
  h_noteUID header <> 0 ->
  rec_data_offset_note_dict s1 !! h_noteUID header = Some offset ->
  0 <= offset ->
  Forall (fun b => ord b <> 0) (drop (Z.to_nat offset) (f_data (emNoteDB_fd s1))) ->
  fst (extract_image fuel n self) = OutOfFuel.
Proof.
  intros Hn Hlt Hget Hcat Hnote Hd Hoff Hrest.
  unfold extract_image. unfold St.bind at 1.
  rewrite resolve_explicit by assumption.
  unfold St.bind at 1. rewrite Hget. unfold St.bind at 1. rewrite Hcat.
  replace (h_noteUID header =? 0) with false by lia. cbn [negb].
  unfold St.reraise. unfold St.bind at 1. unfold St.bind at 1.
  unfold St.gets at 1. unfold St.bind at 1. unfold St.lift at 1.
  unfold dict_getitem. rewrite Hd. unfold St.bind at 1.
  unfold fd_seek, f_seek. replace (offset <? 0) with false by lia.
  unfold St.bind at 1.
  set (s2 := with_fd NoteDB _ s1).
  assert (Hfd : emNoteDB_fd s2 = mkfile (f_data (emNoteDB_fd s1)) offset)
    by apply (fd_of_with_fd NoteDB).
  pose proof (read_note_text_runs_on fuel s2) as Hruns.
  destruct (read_note_text fuel s2) as [r s3]. cbn [fst] in Hruns.
  rewrite Hruns; [reflexivity| |].
  - rewrite Hfd. exact Hoff.
  - unfold note_rest. rewrite Hfd. exact Hrest.
Qed.

Lemma extract_image_example_runs_on (fuel : nat) :
  fst (extract_image (host := Example.utc) (pil := Example.raw_pil)
         fuel 1 Example.em_open) = OutOfFuel.
Proof.
  eapply extract_image_note_runs_on with (offset := 86).
  - discriminate.
  - vm_compute; reflexivity.
  - vm_compute; reflexivity.
  - vm_compute; reflexivity.
  - vm_compute; discriminate.
  - vm_compute; reflexivity.
  - lia.
  - vm_compute. repeat constructor; discriminate.
Qed.

(** C10. The text of a note is read one byte at a time from the position
    the note database was moved to.  When a NUL lies ahead, the loop ends at
    the first one: the text is the bytes before it and the position is just
    behind it.  When no NUL lies between the position and the end of the
    file, the loop has not ended after any number of turns: at the end of
    the file the read returns the empty string, which is not the NUL
    string. *)
Theorem note_text_ends_only_at_nul (self : EyeModule) :
  0 <= f_pos (emNoteDB_fd self) ->
  (forall text rest,
     Forall (fun b => ord b <> 0) text ->
     note_rest self = text ++ x00 :: rest ->
     forall fuel, (length text < fuel)%nat ->
       exists self', read_note_text fuel self = (Ok text, self')
                     /\ note_rest self' = rest)
  /\ (Forall (fun b => ord b <> 0) (note_rest self) ->
      forall fuel, fst (read_note_text fuel self) = OutOfFuel)
  /\ (note_rest self = [] ->
      fst (fd_read NoteDB 1 self) = Ok [] /\ is_nul [] = false).
Proof.
  intros Hpos. split; [|split].
  - intros text rest Htext Hrest fuel Hfuel. now apply read_note_text_stops.
  - intros Hrest fuel. now apply read_note_text_runs_on.
  - intros Hrest. split; [|reflexivity].
    destruct (fd_read_note_1 self Hpos) as (self' & -> & _). now rewrite Hrest.
Qed.

Lemma note_text_ends_only_at_nul_witness :
  let at_note := snd (fd_seek NoteDB 86 Example.em) in
  let at_open := snd (fd_seek NoteDB 86 Example.em_open) in
  (0 <= f_pos (emNoteDB_fd at_note) /\ 0 <= f_pos (emNoteDB_fd at_open))
  /\ fst (read_note_text 6 at_note) = Ok (list_byte_of_string "hello")
  /\ (forall fuel, fst (read_note_text fuel at_open) = OutOfFuel).
Proof.
  assert (H1 : 0 <= f_pos (emNoteDB_fd (snd (fd_seek NoteDB 86 Example.em))))
    by (vm_compute; discriminate).
  assert (H2 : 0 <= f_pos (emNoteDB_fd (snd (fd_seek NoteDB 86 Example.em_open))))
    by (vm_compute; discriminate).
  split; [split; assumption|]. split.
  - destruct (note_text_ends_only_at_nul _ H1) as (Hstop & _).
    destruct (Hstop (list_byte_of_string "hello") [])
      with (fuel := 6%nat) as (self' & E & _).
    + repeat constructor; vm_compute; discriminate.
    + vm_compute; reflexivity.
    + vm_compute; lia.
    + now rewrite E.
  - destruct (note_text_ends_only_at_nul _ H2) as (_ & Hruns & _).
    apply Hruns. vm_compute. repeat constructor; vm_compute; discriminate.
Defined.

(** ** Reading back a database file *)

Lemma ord_chr (z : Z) : ord (chr z) = z mod 256.
Proof.
  unfold ord, chr.
  assert (Hr : 0 <= z mod 256 < 256) by (apply Z.mod_pos_bound; lia).
  destruct (Byte.of_N (Z.to_N (z mod 256))) as [b|] eqn:E.
  - apply Byte.to_of_N in E. rewrite E. lia.
  - apply Byte.of_N_None_iff in E. lia.
Qed.

Lemma length_be_bytes (width : nat) (v : Z) : length (be_bytes width v) = width.
Proof. unfold be_bytes. now rewrite length_map, length_seq. Qed.

Lemma be_uint_be_bytes_1 (v : Z) : 0 <= v < 256 -> be_uint (be_bytes 1 v) = v.
Proof.
  intros Hv. unfold be_uint, be_bytes. simpl. rewrite ord_chr.
  rewrite Z.shiftr_0_r. apply Z.mod_small. lia.
Qed.

Lemma be_uint_be_bytes_4 (v : Z) : 0 <= v < 2 ^ 32 -> be_uint (be_bytes 4 v) = v.
Proof.
  intros Hv. unfold be_uint, be_bytes. simpl. rewrite !ord_chr.
  rewrite !Z.shiftr_div_pow2 by lia.
  change (2 ^ 24) with 16777216. change (2 ^ 16) with 65536.
  change (2 ^ 8) with 256. change (2 ^ 0) with 1.
  change (2 ^ 32) with 4294967296 in Hv.
  Z.div_mod_to_equations. lia.
Qed.

Lemma str_to_Word_be_bytes (v : Z) :
  0 <= v < 2 ^ 16 -> __str_to_Word (be_bytes 2 v) = Ok v.
Proof.
  intros Hv. unfold __str_to_Word, be_bytes. simpl. rewrite !ord_chr.
  rewrite Z.shiftl_mul_pow2, !Z.shiftr_div_pow2 by lia.
  change (2 ^ 8) with 256. change (2 ^ 0) with 1.
  change (2 ^ 16) with 65536 in Hv.
  f_equal. Z.div_mod_to_equations. lia.
Qed.

Lemma str_to_Long_be_bytes (v : Z) :
  0 <= v < 2 ^ 24 -> __str_to_Long (be_bytes 3 v) = Ok v.
Proof.
  intros Hv. unfold __str_to_Long, be_bytes. simpl. rewrite !ord_chr.
  rewrite !Z.shiftl_mul_pow2, !Z.shiftr_div_pow2 by lia.
  change (2 ^ 16) with 65536. change (2 ^ 8) with 256. change (2 ^ 0) with 1.
  change (2 ^ 24) with 16777216 in Hv.
  f_equal. Z.div_mod_to_equations. lia.
Qed.

Lemma length_record_entry (e : Z * Z * Z) : length (record_entry e) = 8%nat.
Proof. destruct e as [[o a] u]. reflexivity. Qed.

Lemma unpack_record_entry (o a u : Z) :
  entry_ok (o, a, u) ->
  unpack_L_B_3s (record_entry (o, a, u)) = Ok (o, a, be_bytes 3 u).
Proof.
  intros (Ho & Ha & Hu). unfold unpack_L_B_3s.
  replace (len (record_entry (o, a, u)) =? 8) with true
    by (unfold len; now rewrite length_record_entry).
  unfold record_entry.
  rewrite take_app_length' by now rewrite length_be_bytes.
  rewrite (drop_app_length' (be_bytes 4 o)) by now rewrite length_be_bytes.
  rewrite take_app_length' by now rewrite length_be_bytes.
  replace (drop 5 (be_bytes 4 o ++ be_bytes 1 a ++ be_bytes 3 u))
    with (be_bytes 3 u) by reflexivity.
  now rewrite be_uint_be_bytes_4, be_uint_be_bytes_1.
Qed.

Lemma f_read_app (pre s post : pystr) :
  f_read (mkfile (pre ++ s ++ post) (len pre)) (len s)
  = (s, mkfile (pre ++ s ++ post) (len pre + len s)).
Proof.
  unfold f_read. cbn [f_data f_pos]. unfold len. rewrite !Nat2Z.id.
  rewrite drop_app_length, take_app_length. reflexivity.
Qed.

Lemma read_image_record_step (pre post : pystr) (e : Z * Z * Z) (self : EyeModule) :
  entry_ok e ->
  emDB_fd self = mkfile (pre ++ record_entry e ++ post) (len pre) ->
  exists self',
    read_image_record self = (Ok tt, self')
    /\ emDB_fd self' = mkfile (pre ++ record_entry e ++ post) (len pre + 8)
    /\ rec_data_offset_dict self'
       = <[entry_offset e := Z.land e.1.2 0x0F]> (rec_data_offset_dict self)
    /\ same_but_index self self'.
Proof.
  intros Hok Hfd. unfold read_image_record. unfold St.bind at 1.
  unfold fd_read. cbn [fd_of]. rewrite Hfd.
  assert (Hlen : len (record_entry e) = 8)
    by (unfold len; now rewrite length_record_entry).
  rewrite <- Hlen. rewrite f_read_app. unfold St.bind at 1. unfold St.lift at 1.
  destruct e as [[o a] u]. rewrite (unpack_record_entry o a u Hok).
  unfold St.modify. eexists. split; [reflexivity|].
  destruct self; cbn. repeat split.
Qed.

Lemma same_but_index_trans (s1 s2 s3 : EyeModule) :
  same_but_index s1 s2 -> same_but_index s2 s3 -> same_but_index s1 s3.
Proof.
  unfold same_but_index. intros (A1 & A2 & A3 & A4) (B1 & B2 & B3 & B4).
  repeat split; congruence.
Qed.

(** The loop over the record list of the main database. *)
Lemma read_image_records (entries : list (Z * Z * Z)) (post : pystr) :
  forall (pre : pystr) (l : list Z) (self : EyeModule),
  length l = length entries ->
  Forall entry_ok entries ->
  emDB_fd self = mkfile (pre ++ flat_map record_entry entries ++ post) (len pre) ->
  exists self',
    St.for_ l (fun _ => read_image_record) self = (Ok tt, self')
    /\ emDB_fd self'
       = mkfile (pre ++ flat_map record_entry entries ++ post)
           (len pre + 8 * len entries)
    /\ rec_data_offset_dict self'
       = category_index entries (rec_data_offset_dict self)
    /\ same_but_index self self'.
Proof.
  induction entries as [|e entries IH]; intros pre l self Hl Hok Hfd.
  - destruct l; [|discriminate]. exists self. simpl.
    repeat split. rewrite Hfd. f_equal. unfold len. simpl. lia.
  - destruct l as [|i l]; [discriminate|]. injection Hl as Hl.
    apply Forall_cons in Hok as [He Hok].
    simpl flat_map in *. rewrite <- app_assoc in Hfd.
    destruct (read_image_record_step pre _ e self He Hfd)
      as (s1 & E1 & Hfd1 & Hd1 & Hsame1).
    cbn [St.for_]. unfold St.bind at 1. rewrite E1.
    destruct (IH (pre ++ record_entry e) l s1 Hl Hok) as (s2 & E2 & Hfd2 & Hd2 & Hsame2).
    { rewrite Hfd1, <- !app_assoc. f_equal.
      rewrite len_app. unfold len. now rewrite length_record_entry. }
    exists s2. split; [exact E2|]. split; [|split].
    + rewrite Hfd2, <- !app_assoc. f_equal.
      rewrite len_app. unfold len. rewrite length_record_entry. simpl length. lia.
    + rewrite Hd2, Hd1. reflexivity.
    + now apply (same_but_index_trans self s1 s2).
Qed.

Lemma f_read_at (data pre s post : pystr) (pos n : Z) :
  data = pre ++ s ++ post -> pos = len pre -> n = len s ->
  f_read (mkfile data pos) n = (s, mkfile data (pos + n)).
Proof. intros -> -> ->. apply f_read_app. Qed.

Lemma unpack_L_be_bytes (v : Z) :
  0 <= v < 2 ^ 32 -> unpack_L (be_bytes 4 v) = Ok v.
Proof. intros Hv. unfold unpack_L. simpl. now rewrite be_uint_be_bytes_4. Qed.

(** The record count and the appinfo location read from a database file. *)
Lemma init_record_cnt_pdb_file (appinfo_start : Z) (entries : list (Z * Z * Z))
    (rest emVGADB emNoteDB : pystr) :
  0 <= appinfo_start < 2 ^ 32 ->
  len entries < 2 ^ 16 ->
  init_record_cnt (fresh (pdb_file appinfo_start entries rest) emVGADB emNoteDB)
  = (Ok appinfo_start,
     with_record_cnt (len entries)
       (with_fd DB (mkfile (pdb_file appinfo_start entries rest) 78)
          (fresh (pdb_file appinfo_start entries rest) emVGADB emNoteDB))).
Proof.
  intros Ha Hn. pose proof (len_nonneg entries) as Hn0.
  set (data := pdb_file appinfo_start entries rest).
  unfold init_record_cnt, fresh, f_open.
  unfold St.bind at 1. unfold fd_seek at 1.
  cbn [fd_of f_seek f_data f_pos emDB_fd Z.ltb Z.compare with_fd].
  unfold St.bind at 1. unfold fd_read at 1.
  cbn [fd_of f_data f_pos emDB_fd with_fd].
  rewrite (f_read_at data (zeros 52) (be_bytes 4 appinfo_start)
             (zeros 20 ++ be_bytes 2 (len entries)
              ++ flat_map record_entry entries ++ rest) 52 4);
    [|unfold data, pdb_file, pdb_preamble; now rewrite <- !app_assoc
     |reflexivity|reflexivity].
  cbn [with_fd]. unfold St.bind at 1. unfold St.lift at 1.
  rewrite unpack_L_be_bytes by assumption.
  unfold St.bind at 1. unfold fd_seek at 1.
  cbn [fd_of f_seek f_data f_pos emDB_fd Z.ltb Z.compare with_fd].
  unfold St.bind at 1. unfold fd_read at 1.
  cbn [fd_of f_data f_pos emDB_fd with_fd].
  rewrite (f_read_at data (zeros 52 ++ be_bytes 4 appinfo_start ++ zeros 20)
             (be_bytes 2 (len entries))
             (flat_map record_entry entries ++ rest) 76 2);
    [|unfold data, pdb_file, pdb_preamble; now rewrite <- !app_assoc
     |reflexivity|reflexivity].
  cbn [with_fd]. unfold St.bind at 1. unfold St.lift at 1.
  replace (unpack_2s (be_bytes 2 (len entries))) with (Ok (be_bytes 2 (len entries)))
    by reflexivity.
  unfold St.bind at 1. unfold St.lift at 1.
  rewrite str_to_Word_be_bytes by lia.
  reflexivity.
Qed.

Lemma length_range (n : Z) : length (range n) = Z.to_nat n.
Proof.
  unfold range, xrange. rewrite length_xrange_from.
  destruct (Z.ltb_spec 0 n); [|lia].
  replace (n - 0 + 1 - 1) with n by lia. now rewrite Z.div_1_r.
Qed.

Lemma category_index_keys (entries : list (Z * Z * Z)) (d : gmap Z Z) (k : Z) :
  is_Some (category_index entries d !! k)
  <-> k ∈ map entry_offset entries \/ is_Some (d !! k).
Proof.
  revert d. induction entries as [|e entries IH]; intros d; simpl.
  - rewrite elem_of_nil. tauto.
  - unfold category_index in *. simpl. rewrite IH. rewrite elem_of_cons.
    destruct (decide (entry_offset e = k)) as [->|Hne].
    + rewrite lookup_insert_eq. split; [intros _; left; now left|eauto].
    + rewrite lookup_insert_ne by assumption.
      split; [tauto|]. intros [[Heq|Hin]|Hd]; [congruence|tauto|tauto].
Qed.

Lemma land_15_range (a : Z) : 0 <= Z.land a 0x0F <= 15.
Proof.
  change (Z.land a 0x0F) with (Z.land a (Z.ones 4)).
  rewrite Z.land_ones by lia. change (2 ^ 4) with 16.
  pose proof (Z.mod_pos_bound a 16). lia.
Qed.

(** The keys of a dictionary, sorted, are the sorted and deduplicated list
    of what was inserted. *)
Lemma sorted_keys (entries : list (Z * Z * Z)) :
  merge_sort Z.le (map_to_list (category_index entries ∅)).*1
  = sorted_distinct (map entry_offset entries).
Proof.
  unfold sorted_distinct.
  apply (Sorted_unique Z.le); try apply Sorted_merge_sort; try apply _.
  rewrite !merge_sort_Permutation.
  apply NoDup_Permutation.
  - apply NoDup_fst_map_to_list.
  - apply NoDup_remove_dups.
  - intros k. rewrite elem_of_remove_dups.
    rewrite list_elem_of_fmap. split.
    + intros ([k' c] & -> & Hin). apply elem_of_map_to_list in Hin.
      assert (Hs : is_Some (category_index entries ∅ !! k')) by eauto.
      apply category_index_keys in Hs as [Hk|Hk]; [exact Hk|].
      rewrite lookup_empty in Hk. now destruct Hk.
    + intros Hin.
      assert (Hs : is_Some (category_index entries ∅ !! k))
        by (apply category_index_keys; now left).
      destruct Hs as [c Hc]. exists (k, c). split; [reflexivity|].
      now apply elem_of_map_to_list.
Qed.

Lemma len_pdb_preamble (appinfo_start cnt : Z) : len (pdb_preamble appinfo_start cnt) = 78.
Proof. reflexivity. Qed.

(** The image list built from a database file. *)
Lemma init_index_pdb_file (appinfo_start : Z) (entries : list (Z * Z * Z))
    (rest emVGADB emNoteDB : pystr) :
  0 <= appinfo_start < 2 ^ 32 ->
  len entries < 2 ^ 16 ->
  Forall entry_ok entries ->
  exists self,
    init_index (fresh (pdb_file appinfo_start entries rest) emVGADB emNoteDB)
    = (Ok appinfo_start, self)
    /\ images self = sorted_distinct (map entry_offset entries)
    /\ rec_data_offset_dict self = category_index entries ∅
    /\ record_cnt self = len entries
    /\ cur_image self = 0
    /\ emDB_fd self
       = mkfile (pdb_file appinfo_start entries rest) (78 + 8 * len entries)
    /\ emVGADB_fd self = f_open emVGADB
    /\ emNoteDB_fd self = f_open emNoteDB.
Proof.
  intros Ha Hn Hok. unfold init_index. unfold St.bind at 1.
  rewrite init_record_cnt_pdb_file by assumption.
  set (data := pdb_file appinfo_start entries rest).
  unfold St.bind at 1. unfold init_images.
  unfold St.bind at 1. unfold St.modify at 1.
  unfold St.bind at 1. unfold St.gets at 1.
  unfold fresh, f_open.
  cbn [with_record_cnt with_fd with_rec_data_offset_dict record_cnt].
  unfold St.bind at 1.
  match goal with
  | |- context [St.for_ _ _ ?s] =>
      destruct (read_image_records entries rest
                  (pdb_preamble appinfo_start (len entries))
                  (range (len entries)) s)
        as (s2 & E & Hfd & Hd & Hc & Hr & Hv & Hnt)
  end.
  { rewrite length_range. unfold len. lia. }
  { exact Hok. }
  { reflexivity. }
  rewrite E. unfold St.modify, St.ret.
  eexists. split; [reflexivity|].
  cbn in Hd, Hc, Hr, Hv, Hnt. rewrite len_pdb_preamble in Hfd.
  destruct s2; cbn in *. subst.
  repeat split. apply sorted_keys.
Qed.

Lemma length_remove_dups_le (l : list Z) : (length (remove_dups l) <= length l)%nat.
Proof.
  induction l as [|x l IH]; simpl; [lia|].
  destruct (decide_rel _ _ _); simpl; lia.
Qed.

Lemma length_remove_dups_NoDup (l : list Z) :
  length (remove_dups l) = length l <-> NoDup l.
Proof.
  induction l as [|x l IH]; simpl.
  - split; [constructor|reflexivity].
  - rewrite NoDup_cons. pose proof (length_remove_dups_le l).
    destruct (decide_rel _ _ _) as [Hin|Hnin]; simpl.
    + split; [lia|tauto].
    + split.
      * intros Hlen. split; [exact Hnin|]. apply IH. lia.
      * intros [_ Hnd]. f_equal. now apply IH.
Qed.

Lemma strictly_ascending (l : list Z) :
  Sorted Z.le l -> NoDup l -> StronglySorted Z.lt l.
Proof.
  intros Hs Hnd. apply (Sorted_StronglySorted Z.le) in Hs.
  induction Hs as [|x l Hs IH Hall]; [constructor|].
  apply NoDup_cons in Hnd as [Hx Hnd].
  constructor; [now apply IH|].
  rewrite Forall_forall in *. intros y Hy.
  specialize (Hall y Hy). assert (x <> y) by (intros ->; contradiction). lia.
Qed.

Lemma sorted_distinct_spec (l : list Z) :
  StronglySorted Z.lt (sorted_distinct l)
  /\ (forall x, x ∈ sorted_distinct l <-> x ∈ l)
  /\ len (sorted_distinct l) = len (remove_dups l).
Proof.
  unfold sorted_distinct. split; [|split].
  - apply strictly_ascending; [apply Sorted_merge_sort; apply _|].
    rewrite merge_sort_Permutation. apply NoDup_remove_dups.
  - intros x. rewrite merge_sort_Permutation. apply elem_of_remove_dups.
  - unfold len. now rewrite merge_sort_Permutation.
Qed.

(** ** What the rest of the constructor leaves alone *)

Lemma keeps_index_ret {A} (a : A) : keeps_index (St.ret a).
Proof. intros s. reflexivity. Qed.

Lemma keeps_index_lift {A} (r : result A) : keeps_index (St.lift r).
Proof. intros s. reflexivity. Qed.

Lemma keeps_index_gets {A} (f : EyeModule -> A) : keeps_index (St.gets f).
Proof. intros s. reflexivity. Qed.

Lemma keeps_index_modify (f : EyeModule -> EyeModule) :
  (forall s, index_of (f s) = index_of s) -> keeps_index (St.modify f).
Proof. intros Hf s. apply Hf. Qed.

Lemma keeps_index_bind {A B} (c : M A) (k : A -> M B) :
  keeps_index c -> (forall a, keeps_index (k a)) -> keeps_index (St.bind c k).
Proof.
  intros Hc Hk s. unfold St.bind. specialize (Hc s).
  destruct (c s) as [[a| e |] s']; simpl in *; try assumption.
  now rewrite Hk.
Qed.

Lemma keeps_index_for {A} (l : list A) (body : A -> M unit) :
  (forall a, keeps_index (body a)) -> keeps_index (St.for_ l body).
Proof.
  intros Hb. induction l as [|x l IH]; simpl.
  - apply keeps_index_ret.
  - apply keeps_index_bind; [apply Hb|intros _; exact IH].
Qed.

Lemma keeps_index_while {S} (fuel : nat) (cond : S -> M bool) (body : S -> M S)
    (s0 : S) :
  (forall s, keeps_index (cond s)) -> (forall s, keeps_index (body s)) ->
  keeps_index (St.while_ fuel cond body s0).
Proof.
  intros Hc Hb. revert s0. induction fuel as [|fuel IH]; intros s0; simpl.
  - intros s. reflexivity.
  - apply keeps_index_bind; [apply Hc|intros [|]].
    + apply keeps_index_bind; [apply Hb|exact IH].
    + apply keeps_index_ret.
Qed.

Lemma index_of_with_fd (h : handle) (fd : file) (s : EyeModule) :
  index_of (with_fd h fd s) = index_of s.
Proof. destruct s, h; reflexivity. Qed.

Lemma keeps_index_fd_seek (h : handle) (offset : Z) : keeps_index (fd_seek h offset).
Proof.
  intros s. unfold fd_seek. destruct (f_seek _ _); simpl; try reflexivity.
  apply index_of_with_fd.
Qed.

Lemma keeps_index_fd_read (h : handle) (n : Z) : keeps_index (fd_read h n).
Proof. intros s. unfold fd_read. simpl. apply index_of_with_fd. Qed.

Lemma keeps_index_fd_tell (h : handle) : keeps_index (fd_tell h).
Proof. intros s. reflexivity. Qed.

Create HintDb keeps.

#[local] Hint Resolve keeps_index_ret keeps_index_lift keeps_index_gets
  keeps_index_fd_seek keeps_index_fd_read keeps_index_fd_tell : keeps.

Ltac keeps_index_steps :=
  repeat (apply keeps_index_bind; [|intros]);
  repeat match goal with
         | |- keeps_index (match ?x with _ => _ end) => destruct x
         | |- keeps_index (if ?x then _ else _) => destruct x
         | |- keeps_index (St.bind _ _) => apply keeps_index_bind; [|intros]
         | |- keeps_index (St.modify _) =>
             apply keeps_index_modify; intros []; reflexivity
         end;
  auto with keeps.

Lemma keeps_index_category_names (fuel : nat) (appinfo_start : Z) :
  keeps_index (init_category_names fuel appinfo_start).
Proof.
  unfold init_category_names.
  apply keeps_index_bind;
    [apply keeps_index_modify; intros []; reflexivity|intros _].
  apply keeps_index_bind; [auto with keeps|intros _].
  apply keeps_index_bind; [auto with keeps|intros category].
  apply keeps_index_bind; [|intros _; auto with keeps].
  apply keeps_index_while; intros s.
  - unfold category_cond. keeps_index_steps.
  - unfold category_body. keeps_index_steps.
Qed.

Lemma keeps_index_vga : keeps_index init_vga.
Proof.
  unfold init_vga.
  repeat (apply keeps_index_bind; [|intros]); auto with keeps;
    try (apply keeps_index_modify; intros []; reflexivity).
  apply keeps_index_for. intros _. unfold read_vga_record. keeps_index_steps.
Qed.

Lemma keeps_index_note : keeps_index init_note.
Proof.
  unfold init_note.
  repeat (apply keeps_index_bind; [|intros]); auto with keeps;
    try (apply keeps_index_modify; intros []; reflexivity).
  apply keeps_index_for. intros _. unfold read_note_record. keeps_index_steps.
Qed.

Lemma init_body_index (fuel : nat) (s : EyeModule) :
  init_body fuel s
  = St.bind init_index (fun appinfo_start =>
      do! _ := init_category_names fuel appinfo_start in
      do! _ := init_vga in
      init_note) s.
Proof.
  unfold init_body, init_index, St.bind, St.ret.
  destruct (init_record_cnt s) as [[a|e|] s1]; try reflexivity.
  destruct (init_images s1) as [[[]|e|] s2]; reflexivity.
Qed.

(** ** The image list *)

Lemma init_keeps_index (emDB emVGADB emNoteDB : pystr) (appinfo_start : Z)
    (s self : EyeModule) :
  init_index (fresh emDB emVGADB emNoteDB) = (Ok appinfo_start, s) ->
  __init__ emDB emVGADB emNoteDB = Ok self ->
  index_of self = index_of s.
Proof.
  intros Hindex. unfold __init__. rewrite init_body_index.
  unfold St.bind at 1. rewrite Hindex.
  assert (Hk : keeps_index
                 (do! _ := init_category_names (category_fuel emDB) appinfo_start in
                  do! _ := init_vga in init_note)).
  { apply keeps_index_bind; [apply keeps_index_category_names|intros _].
    apply keeps_index_bind; [apply keeps_index_vga|intros _].
    apply keeps_index_note. }
  specialize (Hk s).
  destruct (St.bind _ _ s) as [[[]|e|] s']; try discriminate.
  intros [= <-]. exact Hk.
Qed.

(** The claim C7 as it is worded fails when two records share a data
    offset: the database [Example.emDB_dup] has two records that carry the
    one offset 144, its image list is [144], and [max_image_nr] returns 2. *)
Lemma max_image_nr_is_record_count :
  __init__ Example.emDB_dup Example.emVGADB Example.emNoteDB = Ok Example.em_dup
  /\ images Example.em_dup = [144]
  /\ len (remove_dups [144; 144]) = 1
  /\ fst (max_image_nr Example.em_dup) = Ok 2
  /\ ~ (forall appinfo_start entries rest emVGADB emNoteDB self,
          __init__ (pdb_file appinfo_start entries rest) emVGADB emNoteDB = Ok self ->
          fst (max_image_nr self)
          = Ok (len (remove_dups (map entry_offset entries)))).
Proof.
  assert (E : __init__ Example.emDB_dup Example.emVGADB Example.emNoteDB
              = Ok Example.em_dup) by (vm_compute; reflexivity).
  split; [exact E|].
  split; [vm_compute; reflexivity|].
  split; [vm_compute; reflexivity|].
  split; [vm_compute; reflexivity|].
  intros Hclaim. specialize (Hclaim _ _ _ _ _ _ E).
  vm_compute in Hclaim. discriminate.
Qed.

(** C7, amended. For a main database whose record list has the entries
    [entries], the first steps of the constructor succeed and leave: the
    image list, which is the list of the data offsets sorted strictly
    ascending with duplicates removed, so that its length is the number [N]
    of distinct offsets; and the record count, which is what [max_image_nr]
    returns and which is the number of entries, equal to [N] exactly when no
    two entries share an offset.  The rest of the constructor changes none
    of this, and [get_header] takes the image number as the index into the
    image list. *)
Theorem image_list_of_pdb_file {host : Host} (appinfo_start : Z)
    (entries : list (Z * Z * Z)) (rest emVGADB emNoteDB : pystr) :
  0 <= appinfo_start < 2 ^ 32 ->
  len entries < 2 ^ 16 ->
  Forall entry_ok entries ->
  exists s,
    init_index (fresh (pdb_file appinfo_start entries rest) emVGADB emNoteDB)
    = (Ok appinfo_start, s)
    /\ images s = sorted_distinct (map entry_offset entries)
    /\ StronglySorted Z.lt (images s)
    /\ (forall o, o ∈ images s <-> o ∈ map entry_offset entries)
    /\ len (images s) = len (remove_dups (map entry_offset entries))
    /\ fst (max_image_nr s) = Ok (len entries)
    /\ (len (images s) = len entries <-> NoDup (map entry_offset entries))
    /\ (forall self,
          __init__ (pdb_file appinfo_start entries rest) emVGADB emNoteDB = Ok self ->
          images self = images s
          /\ fst (max_image_nr self) = Ok (len entries)
          /\ forall n o, 0 <= n -> images self !! Z.to_nat n = Some o ->
               fst (get_header n self) = returned (header_of (header_bytes self o))).
Proof.
  intros Ha Hn Hok.
  destruct (init_index_pdb_file appinfo_start entries rest emVGADB emNoteDB Ha Hn Hok)
    as (s & E & Him & Hd & Hcnt & Hcur & _).
  destruct (sorted_distinct_spec (map entry_offset entries)) as (Hsorted & Hmem & Hlen).
  assert (Hdup : len (remove_dups (map entry_offset entries)) <= len entries).
  { pose proof (length_remove_dups_le (map entry_offset entries)) as Hle.
    rewrite length_map in Hle. unfold len. lia. }
  exists s. rewrite Him.
  split; [exact E|]. split; [reflexivity|]. split; [exact Hsorted|].
  split; [exact Hmem|]. split; [exact Hlen|].
  split; [unfold max_image_nr, St.gets; simpl; now rewrite Hcnt|].
  split.
  { rewrite Hlen, <- length_remove_dups_NoDup. unfold len.
    rewrite length_map. lia. }
  intros self Hinit.
  pose proof (init_keeps_index _ _ _ _ _ _ E Hinit) as Hidx.
  unfold index_of in Hidx. injection Hidx as Hi Hr _ _.
  rewrite Hi, Him. split; [reflexivity|].
  split; [unfold max_image_nr, St.gets; simpl; now rewrite Hr, Hcnt|].
  intros n o Hn0 Hlook.
  assert (Hin : o ∈ sorted_distinct (map entry_offset entries))
    by (eapply list_elem_of_lookup_2; exact Hlook).
  apply Hmem in Hin.
  apply list_elem_of_fmap in Hin as ([[o' a] u] & -> & Hin).
  rewrite Forall_forall in Hok. apply Hok in Hin as (Ho & _).
  pose proof (lookup_lt_Some _ _ _ Hlook) as Hlt.
  apply get_header_explicit.
  - lia.
  - rewrite Hr, Hcnt. unfold len in *. lia.
  - apply getitem_lookup; [lia|]. now rewrite Hi, Him.
  - unfold entry_offset. simpl. lia.
Qed.

Lemma image_list_of_pdb_file_witness :
  (0 <= 102 < 2 ^ 32 /\ len Example.entries < 2 ^ 16
   /\ Forall entry_ok Example.entries)
  /\ images Example.em = [152; 212; 272]
  /\ fst (max_image_nr Example.em) = Ok 3.
Proof.
  assert (H1 : 0 <= 102 < 2 ^ 32) by lia.
  assert (H2 : len Example.entries < 2 ^ 16) by (vm_compute; reflexivity).
  assert (H3 : Forall entry_ok Example.entries)
    by (repeat constructor; vm_compute; discriminate).
  assert (E : __init__ Example.emDB Example.emVGADB Example.emNoteDB = Ok Example.em)
    by (vm_compute; reflexivity).
  destruct (image_list_of_pdb_file (host := Example.utc) 102 Example.entries
              Example.payload Example.emVGADB Example.emNoteDB H1 H2 H3)
    as (s & _ & Him & _ & _ & _ & _ & _ & Hinit).
  destruct (Hinit Example.em E) as (Himages & Hmax & _).
  split; [split; [exact H1|split; [exact H2|exact H3]]|].
  split; [rewrite Himages, Him; vm_compute; reflexivity|exact Hmax].
Defined.

(** ** The image list of any database *)

Lemma be_uint_nonneg (s : pystr) : 0 <= be_uint s.
Proof.
  unfold be_uint. assert (H : forall acc, 0 <= acc ->
    0 <= fold_left (fun acc c => acc * 256 + ord c) s acc); [|now apply H].
  induction s as [|c s IH]; intros acc Hacc; simpl; [exact Hacc|].
  apply IH. pose proof (ord_range c). lia.
Qed.

Lemma str_to_Word_range (s : pystr) (v : Z) :
  __str_to_Word s = Ok v -> 0 <= v < 2 ^ 16.
Proof.
  destruct s as [|a [|b [|c s]]]; try discriminate. intros [= <-].
  pose proof (ord_range a). pose proof (ord_range b).
  rewrite Z.shiftl_mul_pow2 by lia. change (2 ^ 8) with 256.
  change (2 ^ 16) with 65536. lia.
Qed.

Lemma for_invariant {A} (I : nat -> EyeModule -> Prop) (body : A -> M unit) :
  (forall j a s s', I j s -> body a s = (Ok tt, s') -> I (S j) s') ->
  forall (l : list A) (j : nat) (s s' : EyeModule),
    I j s -> St.for_ l body s = (Ok tt, s') -> I (j + length l)%nat s'.
Proof.
  intros Hbody. induction l as [|a l IH]; intros j s s' HI Hfor; simpl in *.
  - injection Hfor as <-. now rewrite Nat.add_0_r.
  - unfold St.bind in Hfor.
    destruct (body a s) as [[[]|e|] s1] eqn:E; try discriminate.
    replace (j + S (length l))%nat with (S j + length l)%nat by lia.
    apply (IH (S j) s1 s'); [|exact Hfor]. now apply (Hbody j a s s1).
Qed.

Lemma read_image_record_inserts (s s' : EyeModule) :
  read_image_record s = (Ok tt, s') ->
  exists o attr,
    0 <= o
    /\ rec_data_offset_dict s' = <[o := Z.land attr 0x0F]> (rec_data_offset_dict s)
    /\ record_cnt s' = record_cnt s.
Proof.
  unfold read_image_record. unfold St.bind at 1. unfold fd_read.
  destruct (f_read (fd_of DB s) 8) as [bytes fd]. unfold St.bind at 1.
  unfold St.lift at 1, unpack_L_B_3s.
  destruct (len bytes =? 8); [|discriminate]. unfold St.modify.
  intros [= <-]. exists (be_uint (take 4 bytes)), (be_uint (take 1 (drop 4 bytes))).
  split; [apply be_uint_nonneg|].
  destruct s; split; reflexivity.
Qed.

Lemma read_image_record_categories (j : nat) (a : Z) (s s' : EyeModule) :
  categories_ok j s -> read_image_record s = (Ok tt, s') -> categories_ok (S j) s'.
Proof.
  intros [Hsize Hval] Hread.
  destruct (read_image_record_inserts s s' Hread) as (o & attr & Ho & Hd & _).
  unfold categories_ok. rewrite Hd. split.
  - rewrite map_size_insert. destruct (_ !! o); unfold id; lia.
  - intros o' c. destruct (decide (o = o')) as [<-|Hne].
    + rewrite lookup_insert_eq. intros [= <-]. split; [exact Ho|apply land_15_range].
    + rewrite lookup_insert_ne by assumption. apply Hval.
Qed.

Lemma init_record_cnt_range (s s' : EyeModule) (appinfo_start : Z) :
  init_record_cnt s = (Ok appinfo_start, s') -> 0 <= record_cnt s' < 2 ^ 16.
Proof.
  unfold init_record_cnt.
  unfold St.bind at 1. destruct (fd_seek DB 52 s) as [[[]|e|] s1]; try discriminate.
  unfold St.bind at 1. destruct (fd_read DB 4 s1) as [[b4|e|] s2]; try discriminate.
  unfold St.bind at 1. unfold St.lift at 1.
  destruct (unpack_L b4) as [a|e|]; try discriminate.
  unfold St.bind at 1. destruct (fd_seek DB 76 s2) as [[[]|e|] s3]; try discriminate.
  unfold St.bind at 1. destruct (fd_read DB 2 s3) as [[b2|e|] s4]; try discriminate.
  unfold St.bind at 1. unfold St.lift at 1.
  destruct (unpack_2s b2) as [w|e|]; try discriminate.
  unfold St.bind at 1. unfold St.lift at 1.
  destruct (__str_to_Word w) as [cnt|e|] eqn:Ecnt; try discriminate.
  unfold St.bind, St.modify, St.ret. intros [= _ <-].
  apply str_to_Word_range in Ecnt. destruct s4; exact Ecnt.
Qed.

Lemma sorted_keys_spec (d : gmap Z Z) :
  StronglySorted Z.lt (merge_sort Z.le (map_to_list d).*1)
  /\ (forall o, o ∈ merge_sort Z.le (map_to_list d).*1 <-> is_Some (d !! o))
  /\ length (merge_sort Z.le (map_to_list d).*1) = size d.
Proof.
  split; [|split].
  - apply strictly_ascending; [apply Sorted_merge_sort; apply _|].
    rewrite merge_sort_Permutation. apply NoDup_fst_map_to_list.
  - intros o. rewrite merge_sort_Permutation, list_elem_of_fmap. split.
    + intros ([o' c] & -> & Hin). apply elem_of_map_to_list in Hin. eauto.
    + intros [c Hc]. exists (o, c). split; [reflexivity|].
      now apply elem_of_map_to_list.
  - rewrite merge_sort_Permutation, length_fmap. apply length_map_to_list.
Qed.

Lemma init_images_index_ok (s s' : EyeModule) :
  0 <= record_cnt s < 2 ^ 16 ->
  init_images s = (Ok tt, s') -> index_ok s'.
Proof.
  intros Hcnt. unfold init_images.
  unfold St.bind at 1. unfold St.modify at 1.
  unfold St.bind at 1. unfold St.gets at 1.
  set (s0 := with_rec_data_offset_dict ∅ s).
  assert (Hc0 : record_cnt s0 = record_cnt s) by (destruct s; reflexivity).
  rewrite Hc0. unfold St.bind at 1.
  destruct (St.for_ _ _ s0) as [[[]|e|] s1] eqn:Efor; try discriminate.
  unfold St.modify. intros [= <-].
  pose proof (for_invariant
                (fun j t => categories_ok j t /\ record_cnt t = record_cnt s)
                (fun _ : Z => read_image_record)) as Hinv.
  destruct (Hinv) with (l := range (record_cnt s)) (j := 0%nat) (s := s0) (s' := s1)
    as [[Hsize Hval] Hc1].
  - intros j a t t' [Hcat Hc] Hread. split.
    + now apply (read_image_record_categories j a t t').
    + destruct (read_image_record_inserts t t' Hread) as (_ & _ & _ & _ & Hc').
      congruence.
  - split; [|exact Hc0]. split.
    + destruct s; simpl. rewrite map_size_empty. lia.
    + intros o c. destruct s; simpl. rewrite lookup_empty. discriminate.
  - exact Efor.
  - rewrite length_range in Hsize. simpl in Hsize.
    destruct (sorted_keys_spec (rec_data_offset_dict s1)) as (Hsorted & Hmem & Hlen).
    destruct s1; cbn in *. unfold index_ok; cbn.
    split; [lia|]. split; [unfold len; lia|]. split; [exact Hsorted|].
    split; [exact Hmem|exact Hval].
Qed.

Lemma keeps_cur_modify (f : EyeModule -> EyeModule) :
  (forall s, cur_image (f s) = cur_image s) -> keeps_cur (St.modify f).
Proof. intros Hf s. apply Hf. Qed.

Lemma keeps_cur_for {A} (l : list A) (body : A -> M unit) :
  (forall a, keeps_cur (body a)) -> keeps_cur (St.for_ l body).
Proof.
  intros Hb. induction l as [|x l IH]; simpl.
  - apply keeps_cur_ret.
  - apply keeps_cur_bind; [apply Hb|intros _; exact IH].
Qed.

Lemma keeps_cur_init_index : keeps_cur init_index.
Proof.
  unfold init_index, init_record_cnt, init_images.
  repeat (apply keeps_cur_bind; [|intros]);
    auto using keeps_cur_gets, keeps_cur_lift, keeps_cur_fd_seek,
      keeps_cur_fd_read, keeps_cur_ret;
    try (apply keeps_cur_modify; intros []; reflexivity).
  apply keeps_cur_for. intros _. unfold read_image_record.
  apply keeps_cur_bind; [apply keeps_cur_fd_read|intros bytes].
  apply keeps_cur_bind; [apply keeps_cur_lift|intros [[offset attr] uid]].
  apply keeps_cur_modify; intros []; reflexivity.
Qed.

(** Every instance the constructor returns has an image list that is
    strictly ascending, holds the keys of the category dictionary and is no
    longer than the record count; its categories lie in [0, 15] and its
    current image number is 0. *)
Lemma init_index_ok (emDB emVGADB emNoteDB : pystr) (self : EyeModule) :
  __init__ emDB emVGADB emNoteDB = Ok self ->
  index_ok self /\ cur_image self = 0.
Proof.
  intros Hinit.
  destruct (init_index (fresh emDB emVGADB emNoteDB)) as [r s] eqn:Eindex.
  assert (Hr : exists appinfo_start, r = Ok appinfo_start).
  { unfold __init__ in Hinit. rewrite init_body_index in Hinit.
    unfold St.bind at 1 in Hinit. rewrite Eindex in Hinit.
    destruct r as [a|e|]; [eauto|discriminate..]. }
  destruct Hr as [appinfo_start ->].
  pose proof (init_keeps_index _ _ _ _ _ _ Eindex Hinit) as Hidx.
  unfold index_of in Hidx. injection Hidx as Hi Hr Hd Hc.
  pose proof (keeps_cur_init_index (fresh emDB emVGADB emNoteDB)) as Hcur.
  rewrite Eindex in Hcur. cbn [snd fresh cur_image] in Hcur.
  unfold init_index in Eindex. unfold St.bind at 1 in Eindex.
  destruct (init_record_cnt _) as [[a|e|] s1] eqn:E1; try discriminate.
  unfold St.bind at 1 in Eindex.
  destruct (init_images s1) as [[[]|e|] s2] eqn:E2; try discriminate.
  unfold St.ret in Eindex. injection Eindex as -> ->.
  pose proof (init_record_cnt_range _ _ _ E1) as Hrange.
  pose proof (init_images_index_ok s1 s Hrange E2) as Hok.
  unfold index_ok in *. rewrite Hi, Hr, Hd, Hc. split; [exact Hok|exact Hcur].
Qed.

(** ** The category of an image *)

Lemma keeps_tables_ret {A} (a : A) : keeps_tables (St.ret a).
Proof. intros s. reflexivity. Qed.

Lemma keeps_tables_lift {A} (r : result A) : keeps_tables (St.lift r).
Proof. intros s. reflexivity. Qed.

Lemma keeps_tables_gets {A} (f : EyeModule -> A) : keeps_tables (St.gets f).
Proof. intros s. reflexivity. Qed.

Lemma keeps_tables_bind {A B} (c : M A) (k : A -> M B) :
  keeps_tables c -> (forall a, keeps_tables (k a)) -> keeps_tables (St.bind c k).
Proof.
  intros Hc Hk s. unfold St.bind. specialize (Hc s).
  destruct (c s) as [[a| e |] s']; simpl in *; try assumption.
  now rewrite Hk.
Qed.

Lemma tables_of_with_fd (h : handle) (fd : file) (s : EyeModule) :
  tables_of (with_fd h fd s) = tables_of s.
Proof. destruct s, h; reflexivity. Qed.

Lemma tables_of_with_cur_image (n : Z) (s : EyeModule) :
  tables_of (with_cur_image n s) = tables_of s.
Proof. destruct s; reflexivity. Qed.

Lemma keeps_tables_fd_seek (h : handle) (offset : Z) : keeps_tables (fd_seek h offset).
Proof.
  intros s. unfold fd_seek. destruct (f_seek _ _); simpl; try reflexivity.
  apply tables_of_with_fd.
Qed.

Lemma keeps_tables_fd_read (h : handle) (n : Z) : keeps_tables (fd_read h n).
Proof. intros s. unfold fd_read. simpl. apply tables_of_with_fd. Qed.

Lemma keeps_tables_resolve (n : Z) : keeps_tables (resolve_image_nr n).
Proof.
  intros s. unfold resolve_image_nr, St.bind, St.gets, St.modify, St.ret.
  destruct (n =? -1); [reflexivity|].
  destruct (n <? record_cnt s); [|reflexivity].
  apply tables_of_with_cur_image.
Qed.

Lemma keeps_tables_get_header {host : Host} (n : Z) : keeps_tables (get_header n).
Proof.
  unfold get_header.
  apply keeps_tables_bind; [apply keeps_tables_resolve|intros [k|]];
    [|apply keeps_tables_ret].
  unfold get_header_body.
  repeat (apply keeps_tables_bind; [|intros]);
    auto using keeps_tables_gets, keeps_tables_lift, keeps_tables_fd_seek,
      keeps_tables_fd_read, keeps_tables_ret.
Qed.

Lemma getitem_in_fuel {A} (l : list A) (i : Z) : getitem l i <> OutOfFuel.
Proof.
  unfold getitem. destruct (_ && _); [|discriminate].
  destruct (l !! _); discriminate.
Qed.

Lemma index_nul_in_fuel (s : pystr) : index_nul s <> OutOfFuel.
Proof.
  induction s as [|c s IH]; simpl; [discriminate|].
  destruct (ord c =? 0); [discriminate|].
  destruct (index_nul s); [discriminate..|contradiction].
Qed.

Lemma str_to_Word_in_fuel (s : pystr) : __str_to_Word s <> OutOfFuel.
Proof. destruct s as [|a [|b [|c s]]]; discriminate. Qed.

Lemma bind_in_fuel {A B} (r : result A) (k : A -> result B) :
  r <> OutOfFuel -> (forall a, k a <> OutOfFuel) -> Res.bind r k <> OutOfFuel.
Proof. intros Hr Hk. destruct r; simpl; [apply Hk|discriminate|contradiction]. Qed.

Lemma header_of_in_fuel {host : Host} (header : pystr) :
  header_of header <> OutOfFuel.
Proof.
  unfold header_of, unpack_header.
  destruct (len header =? 58); [|discriminate]. cbn [Res.bind].
  repeat (apply bind_in_fuel;
          [first [apply index_nul_in_fuel|apply str_to_Word_in_fuel]|intros]).
  discriminate.
Qed.

Lemma in_fuel_ret {A} (a : A) : in_fuel (St.ret a).
Proof. intros s. discriminate. Qed.

Lemma in_fuel_gets {A} (f : EyeModule -> A) : in_fuel (St.gets f).
Proof. intros s. discriminate. Qed.

Lemma in_fuel_modify (f : EyeModule -> EyeModule) : in_fuel (St.modify f).
Proof. intros s. discriminate. Qed.

Lemma in_fuel_lift {A} (r : result A) : r <> OutOfFuel -> in_fuel (St.lift r).
Proof. intros Hr s. exact Hr. Qed.

Lemma in_fuel_bind {A B} (c : M A) (k : A -> M B) :
  in_fuel c -> (forall a, in_fuel (k a)) -> in_fuel (St.bind c k).
Proof.
  intros Hc Hk s. unfold St.bind. specialize (Hc s).
  destruct (c s) as [[a| e |] s']; simpl in *;
    [apply Hk|discriminate|contradiction].
Qed.

Lemma in_fuel_fd_seek (h : handle) (offset : Z) : in_fuel (fd_seek h offset).
Proof.
  intros s. unfold fd_seek, f_seek. destruct (offset <? 0); discriminate.
Qed.

Lemma in_fuel_fd_read (h : handle) (n : Z) : in_fuel (fd_read h n).
Proof. intros s. unfold fd_read. simpl. discriminate. Qed.

Lemma in_fuel_resolve (n : Z) : in_fuel (resolve_image_nr n).
Proof.
  unfold resolve_image_nr.
  apply in_fuel_bind; [apply in_fuel_gets|intros cur].
  apply in_fuel_bind; [apply in_fuel_gets|intros cnt].
  destruct (n =? -1); [apply in_fuel_ret|].
  destruct (n <? cnt); [|apply in_fuel_ret].
  apply in_fuel_bind; [apply in_fuel_modify|intros _; apply in_fuel_ret].
Qed.

Lemma in_fuel_get_header {host : Host} (n : Z) : in_fuel (get_header n).
Proof.
  unfold get_header.
  apply in_fuel_bind; [apply in_fuel_resolve|intros [k|]]; [|apply in_fuel_ret].
  unfold get_header_body.
  apply in_fuel_bind; [apply in_fuel_gets|intros im].
  apply in_fuel_bind; [apply in_fuel_lift, getitem_in_fuel|intros offset].
  apply in_fuel_bind; [apply in_fuel_fd_seek|intros _].
  apply in_fuel_bind; [apply in_fuel_fd_read|intros header].
  apply in_fuel_bind; [apply in_fuel_lift, header_of_in_fuel|intros h].
  apply in_fuel_ret.
Qed.

(** The category lookup with a category beyond the name table. *)
Lemma category_of_beyond_names (s : EyeModule) (im : list Z) (d : gmap Z Z)
    (names : list pystr) (n offset c : Z) :
  tables_of s = (im, d, names) ->
  getitem im n = Ok offset ->
  d !! offset = Some c ->
  0 <= c -> len names <= c ->
  category_of n s = (Raise IndexError, s).
Proof.
  intros Ht Him Hd Hc Hnames. unfold tables_of in Ht. injection Ht as Hi Hdd Hn.
  unfold category_of, St.bind, St.gets, St.lift.
  rewrite Hi, Him, Hdd. unfold dict_getitem. rewrite Hd, Hn.
  unfold getitem. replace (c <? 0) with false by lia.
  now replace ((0 <=? c) && (c <? len names)) with false by lia.
Qed.

(** C8. The category derived from an attribute byte lies in [0, 15], and so
    does every category an instance built by the constructor holds.  When
    the category of an image is not below the number of category names, the
    lookup of its name raises IndexError, and [extract_image] and
    [get_image], which both look the name up, end in an exception: no name
    is substituted. *)
Theorem category_beyond_names_raises {host : Host} {pil : PIL} :
  (forall attr, 0 <= attr <= 255 -> 0 <= Z.land attr 0x0F <= 15)
  /\ (forall emDB emVGADB emNoteDB self offset c,
        __init__ emDB emVGADB emNoteDB = Ok self ->
        rec_data_offset_dict self !! offset = Some c -> 0 <= c <= 15)
  /\ (forall self n offset c,
        getitem (images self) n = Ok offset ->
        rec_data_offset_dict self !! offset = Some c ->
        0 <= c -> len (category_names self) <= c ->
        category_of n self = (Raise IndexError, self)
        /\ (n <> -1 -> n < record_cnt self ->
            (forall fuel, exists e, fst (extract_image fuel n self) = Raise e)
            /\ exists e, fst (get_image n self) = Raise e)).
Proof.
  split; [intros attr _; apply land_15_range|]. split.
  - intros emDB emVGADB emNoteDB self offset c Hinit Hc.
    destruct (init_index_ok _ _ _ _ Hinit) as [(_ & _ & _ & _ & Hval) _].
    now apply (Hval offset c).
  - intros self n offset c Him Hd Hc Hnames.
    assert (Hraise : forall s, tables_of s = tables_of self ->
                               category_of n s = (Raise IndexError, s)).
    { intros s Hs.
      now apply (category_of_beyond_names s (images self)
                   (rec_data_offset_dict self) (category_names self) n offset c). }
    split; [now apply Hraise|]. intros Hn Hlt. split.
    + intros fuel. unfold extract_image. unfold St.bind at 1.
      rewrite resolve_explicit by assumption. unfold St.bind at 1.
      pose proof (keeps_tables_get_header n (with_cur_image n self)) as Ht.
      pose proof (in_fuel_get_header n (with_cur_image n self)) as Hf.
      rewrite tables_of_with_cur_image in Ht.
      destruct (get_header n (with_cur_image n self)) as [[h|e|] s1];
        cbn [fst snd] in *; [|eauto|contradiction].
      unfold St.bind at 1. rewrite (Hraise s1 Ht). eauto.
    + unfold get_image. unfold St.bind at 1.
      rewrite resolve_explicit by assumption. unfold get_image_body.
      unfold St.bind at 1. unfold St.gets at 1. cbn [fst snd].
      rewrite cur_image_with_cur_image. unfold St.bind at 1.
      pose proof (keeps_tables_get_header n (with_cur_image n self)) as Ht.
      pose proof (in_fuel_get_header n (with_cur_image n self)) as Hf.
      rewrite tables_of_with_cur_image in Ht.
      destruct (get_header n (with_cur_image n self)) as [[[h|]|e|] s1];
        cbn [fst snd] in *; [|eauto|eauto|contradiction].
      unfold St.bind at 1. rewrite (Hraise s1 Ht). eauto.
Qed.

Lemma category_beyond_names_raises_witness :
  (getitem (images Example.em_cat) 2 = Ok 272
   /\ rec_data_offset_dict Example.em_cat !! 272 = Some 5
   /\ len (category_names Example.em_cat) <= 5)
  /\ category_of 2 Example.em_cat = (Raise IndexError, Example.em_cat)
  /\ exists e, fst (get_image (host := Example.utc) (pil := Example.raw_pil)
                      2 Example.em_cat) = Raise e.
Proof.
  assert (H1 : getitem (images Example.em_cat) 2 = Ok 272) by (vm_compute; reflexivity).
  assert (H2 : rec_data_offset_dict Example.em_cat !! 272 = Some 5)
    by (vm_compute; reflexivity).
  assert (H3 : len (category_names Example.em_cat) <= 5) by (vm_compute; discriminate).
  destruct (category_beyond_names_raises (host := Example.utc) (pil := Example.raw_pil))
    as (_ & _ & Hraise).
  destruct (Hraise Example.em_cat 2 272 5 H1 H2 ltac:(lia) H3) as (Hcat & Hmethods).
  split; [split; [exact H1|split; [exact H2|exact H3]]|].
  split; [exact Hcat|].
  apply Hmethods; [lia|vm_compute; reflexivity].
Defined.

(** ** The color index *)

(** One turn of the loop over the color records: the entry is read, its
    offset is filed under its unique id, and the position moves 184 bytes
    past the entry. *)
Lemma read_vga_record_step (pre post : pystr) (e : Z * Z * Z) (self : EyeModule) :
  entry_ok e ->
  emVGADB_fd self = mkfile (pre ++ record_entry e ++ post) (len pre) ->
  exists self',
    read_vga_record self = (Ok tt, self')
    /\ emVGADB_fd self' = mkfile (pre ++ record_entry e ++ post) (len pre + 8 + 184)
    /\ rec_data_offset_vga_dict self'
       = <[entry_uid e := entry_offset e]> (rec_data_offset_vga_dict self)
    /\ vga_record_cnt self' = vga_record_cnt self.
Proof.
  intros Hok Hfd. pose proof (len_nonneg pre) as Hpre.
  assert (Hlen : len (record_entry e) = 8)
    by (unfold len; now rewrite length_record_entry).
  destruct self as [fa fb fc cur cnt d im cat vc vd nc nd].
  cbn [emVGADB_fd] in Hfd. subst fb.
  unfold read_vga_record. unfold St.bind at 1.
  unfold fd_read. cbn [fd_of emVGADB_fd].
  rewrite <- Hlen. rewrite f_read_app. rewrite Hlen.
  cbn [with_fd]. unfold St.bind at 1. unfold St.lift at 1.
  destruct e as [[o a] u]. rewrite (unpack_record_entry o a u Hok).
  destruct Hok as (_ & _ & Hu).
  unfold St.bind at 1. unfold St.lift at 1. rewrite (str_to_Long_be_bytes u Hu).
  unfold St.bind at 1. unfold St.modify at 1.
  cbn [with_rec_data_offset_vga_dict rec_data_offset_vga_dict].
  unfold St.bind at 1. unfold fd_tell, St.gets, f_tell.
  cbn [fd_of emVGADB_fd f_pos]. unfold fd_seek, f_seek.
  cbn [fd_of emVGADB_fd f_data with_fd].
  replace (len pre + 8 + 184 <? 0) with false by lia.
  eexists. split; [reflexivity|]. repeat split.
Qed.

Lemma len_flat_map_entries (entries : list (Z * Z * Z)) :
  len (flat_map record_entry entries) = 8 * len entries.
Proof.
  unfold len. induction entries as [|e entries IH]; simpl; [reflexivity|].
  rewrite length_app, length_record_entry. lia.
Qed.

(** The place of the entry number [i] in a database file. *)
Lemma pdb_file_entry (appinfo_start : Z) (entries : list (Z * Z * Z)) (rest : pystr)
    (i : nat) (e : Z * Z * Z) :
  entries !! i = Some e ->
  exists pre post,
    pdb_file appinfo_start entries rest = pre ++ record_entry e ++ post
    /\ len pre = 78 + 8 * Z.of_nat i.
Proof.
  intros Hi.
  exists (pdb_preamble appinfo_start (len entries)
          ++ flat_map record_entry (take i entries)),
         (flat_map record_entry (drop (S i) entries) ++ rest).
  split.
  - unfold pdb_file. rewrite <- (take_drop_middle entries i e Hi) at 2.
    rewrite flat_map_app. simpl. now rewrite <- !app_assoc.
  - rewrite len_app, len_pdb_preamble, len_flat_map_entries. unfold len.
    rewrite length_take. apply lookup_lt_Some in Hi. lia.
Qed.

Lemma vga_groups_lt (n : nat) (k : nat) :
  (k < vga_groups (Z.of_nat n))%nat -> (24 * k < n)%nat.
Proof.
  unfold vga_groups. intros Hk.
  pose proof (Z.mul_div_le (Z.of_nat n + 23) 24 ltac:(lia)).
  assert (0 <= (Z.of_nat n + 23) / 24) by (apply Z.div_pos; lia). lia.
Qed.

Lemma length_xrange_24 (cnt : Z) :
  0 <= cnt -> length (xrange 0 cnt 24) = vga_groups cnt.
Proof.
  intros Hcnt. unfold xrange, vga_groups. rewrite length_xrange_from.
  destruct (Z.ltb_spec 0 cnt) as [Hpos|Hzero].
  - f_equal. f_equal. lia.
  - replace cnt with 0 by lia. reflexivity.
Qed.

Lemma omap_seq_S {A} (f : nat -> option A) (k m : nat) :
  omap f (seq k (S m))
  = match f k with
    | Some x => x :: omap f (seq (S k) m)
    | None => omap f (seq (S k) m)
    end.
Proof. reflexivity. Qed.

(** The loop over the color records, from the group [k0] on. *)
Lemma read_vga_records (appinfo_start : Z) (entries : list (Z * Z * Z)) (rest : pystr) :
  Forall entry_ok entries ->
  forall (m k0 : nat) (l : list Z) (self : EyeModule),
  length l = m ->
  (k0 + m)%nat = vga_groups (len entries) ->
  emVGADB_fd self
  = mkfile (pdb_file appinfo_start entries rest) (78 + 192 * Z.of_nat k0) ->
  exists self',
    St.for_ l (fun _ => read_vga_record) self = (Ok tt, self')
    /\ emVGADB_fd self'
       = mkfile (pdb_file appinfo_start entries rest)
           (78 + 192 * Z.of_nat (k0 + m))
    /\ rec_data_offset_vga_dict self'
       = uid_index (omap (fun k => entries !! (24 * k)%nat) (seq k0 m))
           (rec_data_offset_vga_dict self)
    /\ vga_record_cnt self' = vga_record_cnt self.
Proof.
  intros Hok. induction m as [|m IH]; intros k0 l self Hl Hk Hfd.
  - destruct l; [|discriminate]. exists self. simpl.
    split; [reflexivity|]. split; [|split; reflexivity].
    rewrite Hfd. f_equal. lia.
  - destruct l as [|i l]; [discriminate|]. injection Hl as Hl.
    assert (Hlt : (24 * k0 < length entries)%nat)
      by (apply vga_groups_lt; unfold len in Hk; lia).
    destruct (lookup_lt_is_Some_2 entries (24 * k0) Hlt) as [e He].
    destruct (pdb_file_entry appinfo_start entries rest _ e He)
      as (pre & post & Hdata & Hpre).
    assert (He_ok : entry_ok e).
    { eapply Forall_lookup_1; [exact Hok|exact He]. }
    destruct (read_vga_record_step pre post e self He_ok)
      as (s1 & E1 & Hfd1 & Hd1 & Hc1).
    { rewrite Hfd, Hdata. f_equal. lia. }
    cbn [St.for_]. unfold St.bind at 1. rewrite E1.
    destruct (IH (S k0) l s1 Hl ltac:(lia)) as (s2 & E2 & Hfd2 & Hd2 & Hc2).
    { rewrite Hfd1, Hdata. f_equal. lia. }
    exists s2. split; [exact E2|]. split; [|split].
    + rewrite Hfd2. f_equal. f_equal. lia.
    + rewrite Hd2, Hd1, omap_seq_S, He. reflexivity.
    + congruence.
Qed.

(** The color index built from a database file. *)
Lemma init_vga_pdb_file (appinfo_start : Z) (entries : list (Z * Z * Z))
    (rest emDB emNoteDB : pystr) :
  len entries < 2 ^ 16 ->
  Forall entry_ok entries ->
  exists self,
    init_vga (fresh emDB (pdb_file appinfo_start entries rest) emNoteDB)
    = (Ok tt, self)
    /\ vga_record_cnt self = len entries
    /\ rec_data_offset_vga_dict self = uid_index (indexed_entries entries) ∅
    /\ emVGADB_fd self
       = mkfile (pdb_file appinfo_start entries rest)
           (78 + (8 + 184) * Z.of_nat (vga_groups (len entries))).
Proof.
  intros Hn Hok. pose proof (len_nonneg entries) as Hn0.
  set (data := pdb_file appinfo_start entries rest).
  unfold init_vga, fresh, f_open.
  unfold St.bind at 1. unfold fd_seek at 1.
  cbn [fd_of f_seek f_data f_pos emVGADB_fd Z.ltb Z.compare with_fd].
  unfold St.bind at 1. unfold fd_read at 1.
  cbn [fd_of f_data f_pos emVGADB_fd with_fd].
  rewrite (f_read_at data (zeros 52 ++ be_bytes 4 appinfo_start ++ zeros 20)
             (be_bytes 2 (len entries))
             (flat_map record_entry entries ++ rest) 76 2);
    [|unfold data, pdb_file, pdb_preamble; now rewrite <- !app_assoc
     |reflexivity|reflexivity].
  cbn [with_fd]. unfold St.bind at 1. unfold St.lift at 1.
  replace (unpack_2s (be_bytes 2 (len entries))) with (Ok (be_bytes 2 (len entries)))
    by reflexivity.
  unfold St.bind at 1. unfold St.lift at 1.
  rewrite str_to_Word_be_bytes by lia.
  unfold St.bind at 1. unfold St.modify at 1. cbn [with_vga_record_cnt].
  unfold St.bind at 1. unfold St.modify at 1. cbn [with_rec_data_offset_vga_dict].
  match goal with
  | |- context [St.for_ _ _ ?s] =>
      destruct (read_vga_records appinfo_start entries rest Hok
                  (vga_groups (len entries)) 0%nat
                  (xrange 0 (len entries) 24) s)
        as (s2 & E & Hfd & Hd & Hc)
  end.
  { now apply length_xrange_24. }
  { reflexivity. }
  { reflexivity. }
  exists s2. split; [exact E|]. cbn in Hd, Hc.
  split; [exact Hc|]. split; [exact Hd|].
  rewrite Hfd. f_equal.
Qed.

Lemma omap_seq_total {A} (f : nat -> option A) (m k0 : nat) :
  (forall k, (k0 <= k < k0 + m)%nat -> is_Some (f k)) ->
  length (omap f (seq k0 m)) = m
  /\ forall j, (j < m)%nat -> omap f (seq k0 m) !! j = f (k0 + j)%nat.
Proof.
  revert k0. induction m as [|m IH]; intros k0 Hf.
  - split; [reflexivity|]. intros j Hj. lia.
  - rewrite omap_seq_S. destruct (Hf k0 ltac:(lia)) as [x Hx]. rewrite Hx.
    destruct (IH (S k0)) as [Hlen Hlook]; [intros k Hk; apply Hf; lia|].
    split; [simpl; now rewrite Hlen|].
    intros [|j] Hj; simpl.
    + now rewrite Nat.add_0_r.
    + rewrite Hlook by lia. f_equal. lia.
Qed.

Lemma indexed_entries_spec (entries : list (Z * Z * Z)) :
  length (indexed_entries entries) = vga_groups (len entries)
  /\ forall k, (k < vga_groups (len entries))%nat ->
       indexed_entries entries !! k = entries !! (24 * k)%nat.
Proof.
  unfold indexed_entries.
  destruct (omap_seq_total (fun k => entries !! (24 * k)%nat)
              (vga_groups (len entries)) 0) as [Hlen Hlook].
  - intros k Hk. apply lookup_lt_is_Some_2. apply vga_groups_lt.
    unfold len in Hk. lia.
  - split; [exact Hlen|]. intros k Hk. now rewrite Hlook.
Qed.

Lemma uid_index_other (entries : list (Z * Z * Z)) (d : gmap Z Z) (k : Z) :
  k ∉ map entry_uid entries -> uid_index entries d !! k = d !! k.
Proof.
  revert d. induction entries as [|e entries IH]; intros d Hk; [reflexivity|].
  simpl in Hk. apply not_elem_of_cons in Hk as [Hne Hk].
  unfold uid_index in *. simpl. rewrite IH by assumption.
  now rewrite lookup_insert_ne by congruence.
Qed.

Lemma uid_index_lookup (entries : list (Z * Z * Z)) (d : gmap Z Z) (e : Z * Z * Z) :
  NoDup (map entry_uid entries) -> e ∈ entries ->
  uid_index entries d !! entry_uid e = Some (entry_offset e).
Proof.
  revert d. induction entries as [|x entries IH]; intros d Hnd He.
  - now apply elem_of_nil in He.
  - simpl in Hnd. apply NoDup_cons in Hnd as [Hx Hnd].
    apply elem_of_cons in He as [->|He].
    + change (uid_index (x :: entries) d)
        with (uid_index entries (<[entry_uid x := entry_offset x]> d)).
      rewrite uid_index_other by assumption. apply lookup_insert_eq.
    + change (uid_index (x :: entries) d)
        with (uid_index entries (<[entry_uid x := entry_offset x]> d)).
      now apply IH.
Qed.

(** The claim C6 as it is worded fails: the constructor accepts a color
    database whose record count is not a multiple of 24.  The database
    [Example.emVGADB] has 25 records; its first and its last record are
    read and the constructor returns the instance. *)
Lemma color_index_accepts_25_records :
  len Example.vga_entries = 25
  /\ 25 mod 24 <> 0
  /\ __init__ Example.emDB Example.emVGADB Example.emNoteDB = Ok Example.em
  /\ vga_record_cnt Example.em = 25
  /\ map_to_list (rec_data_offset_vga_dict Example.em) = [(7, 300); (9, 400)]
  /\ ~ (forall appinfo_start entries rest emDB emNoteDB,
          len entries mod 24 <> 0 ->
          exists e,
            fst (init_vga (fresh emDB (pdb_file appinfo_start entries rest) emNoteDB))
            = Raise e).
Proof.
  split; [reflexivity|]. split; [discriminate|].
  split; [vm_compute; reflexivity|]. split; [vm_compute; reflexivity|].
  split; [vm_compute; reflexivity|].
  intros Hclaim.
  destruct (Hclaim 0 Example.vga_entries [] [] []) as [e He];
    [vm_compute; discriminate|].
  vm_compute in He. discriminate.
Qed.

(** C6, amended. Building the color index does not test whether the record
    count is a multiple of 24: for a color database with the record list
    [entries] it succeeds, reading the first entry of every group of 24
    records that the list starts (one entry per 24 records when the count is
    a multiple of 24) and moving 184 bytes on after each 8-byte entry, and it
    files the data offset of each entry read under the unique id of the
    entry. *)
Theorem color_index_of_pdb_file (appinfo_start : Z) (entries : list (Z * Z * Z))
    (rest emDB emNoteDB : pystr) :
  len entries < 2 ^ 16 ->
  Forall entry_ok entries ->
  exists self,
    init_vga (fresh emDB (pdb_file appinfo_start entries rest) emNoteDB)
    = (Ok tt, self)
    /\ vga_record_cnt self = len entries
    /\ rec_data_offset_vga_dict self = uid_index (indexed_entries entries) ∅
    /\ length (indexed_entries entries) = vga_groups (len entries)
    /\ (forall k, (k < vga_groups (len entries))%nat ->
          indexed_entries entries !! k = entries !! (24 * k)%nat)
    /\ (len entries mod 24 = 0 ->
        Z.of_nat (vga_groups (len entries)) = len entries / 24)
    /\ emVGADB_fd self
       = mkfile (pdb_file appinfo_start entries rest)
           (78 + (8 + 184) * Z.of_nat (vga_groups (len entries)))
    /\ (NoDup (map entry_uid (indexed_entries entries)) ->
        forall e, e ∈ indexed_entries entries ->
          rec_data_offset_vga_dict self !! entry_uid e = Some (entry_offset e)).
Proof.
  intros Hn Hok.
  destruct (init_vga_pdb_file appinfo_start entries rest emDB emNoteDB Hn Hok)
    as (self & E & Hcnt & Hd & Hfd).
  destruct (indexed_entries_spec entries) as [Hlen Hlook].
  exists self. split; [exact E|]. split; [exact Hcnt|]. split; [exact Hd|].
  split; [exact Hlen|]. split; [exact Hlook|]. split.
  { intros Hmod. pose proof (len_nonneg entries). unfold vga_groups.
    rewrite Z2Nat.id by (apply Z.div_pos; lia).
    pose proof (Z.div_mod (len entries) 24 ltac:(lia)) as Hdm.
    rewrite Hmod in Hdm.
    replace (len entries + 23) with (23 + (len entries / 24) * 24) by lia.
    rewrite Z.div_add by lia. reflexivity. }
  split; [exact Hfd|].
  intros Hnd e He. rewrite Hd. now apply uid_index_lookup.
Qed.

Lemma color_index_of_pdb_file_witness :
  (len Example.vga_entries < 2 ^ 16 /\ Forall entry_ok Example.vga_entries)
  /\ exists self,
       init_vga (fresh Example.emDB Example.emVGADB Example.emNoteDB) = (Ok tt, self)
       /\ vga_record_cnt self = 25
       /\ f_pos (emVGADB_fd self) = 78 + 192 * 2.
Proof.
  assert (H1 : len Example.vga_entries < 2 ^ 16) by (vm_compute; reflexivity).
  assert (H2 : Forall entry_ok Example.vga_entries)
    by (repeat constructor; vm_compute; discriminate).
  split; [split; assumption|].
  destruct (color_index_of_pdb_file 0 Example.vga_entries [] Example.emDB
              Example.emNoteDB H1 H2)
    as (self & E & Hcnt & _ & _ & _ & _ & Hfd & _).
  exists self. split; [exact E|]. split; [exact Hcnt|]. now rewrite Hfd.
Defined.

(** ** The constructor ends *)

Lemma in_fuel_for {A} (l : list A) (body : A -> M unit) :
  (forall a, in_fuel (body a)) -> in_fuel (St.for_ l body).
Proof.
  intros Hb. induction l as [|x l IH]; simpl.
  - apply in_fuel_ret.
  - apply in_fuel_bind; [apply Hb|intros _; exact IH].
Qed.

Lemma unpack_L_in_fuel (s : pystr) : unpack_L s <> OutOfFuel.
Proof. unfold unpack_L. destruct (_ =? _); discriminate. Qed.

Lemma unpack_2s_in_fuel (s : pystr) : unpack_2s s <> OutOfFuel.
Proof. unfold unpack_2s. destruct (_ =? _); discriminate. Qed.

Lemma unpack_L_B_3s_in_fuel (s : pystr) : unpack_L_B_3s s <> OutOfFuel.
Proof. unfold unpack_L_B_3s. destruct (_ =? _); discriminate. Qed.

Lemma str_to_Long_in_fuel (s : pystr) : __str_to_Long s <> OutOfFuel.
Proof. destruct s as [|a [|b [|c [|d [|e s]]]]]; discriminate. Qed.

Lemma in_fuel_fd_tell (h : handle) : in_fuel (fd_tell h).
Proof. intros s. discriminate. Qed.

Lemma in_fuel_init_record_cnt : in_fuel init_record_cnt.
Proof.
  unfold init_record_cnt.
  apply in_fuel_bind; [apply in_fuel_fd_seek|intros _].
  apply in_fuel_bind; [apply in_fuel_fd_read|intros b4].
  apply in_fuel_bind; [apply in_fuel_lift, unpack_L_in_fuel|intros a].
  apply in_fuel_bind; [apply in_fuel_fd_seek|intros _].
  apply in_fuel_bind; [apply in_fuel_fd_read|intros b2].
  apply in_fuel_bind; [apply in_fuel_lift, unpack_2s_in_fuel|intros w].
  apply in_fuel_bind; [apply in_fuel_lift, str_to_Word_in_fuel|intros cnt].
  apply in_fuel_bind; [apply in_fuel_modify|intros _]. apply in_fuel_ret.
Qed.

Lemma in_fuel_init_images : in_fuel init_images.
Proof.
  unfold init_images.
  apply in_fuel_bind; [apply in_fuel_modify|intros _].
  apply in_fuel_bind; [apply in_fuel_gets|intros cnt].
  apply in_fuel_bind; [|intros _; apply in_fuel_modify].
  apply in_fuel_for. intros _. unfold read_image_record.
  apply in_fuel_bind; [apply in_fuel_fd_read|intros bytes].
  apply in_fuel_bind; [apply in_fuel_lift, unpack_L_B_3s_in_fuel|].
  intros [[offset attr] uid]. apply in_fuel_modify.
Qed.

Lemma in_fuel_init_vga : in_fuel init_vga.
Proof.
  unfold init_vga.
  apply in_fuel_bind; [apply in_fuel_fd_seek|intros _].
  apply in_fuel_bind; [apply in_fuel_fd_read|intros b2].
  apply in_fuel_bind; [apply in_fuel_lift, unpack_2s_in_fuel|intros w].
  apply in_fuel_bind; [apply in_fuel_lift, str_to_Word_in_fuel|intros cnt].
  apply in_fuel_bind; [apply in_fuel_modify|intros _].
  apply in_fuel_bind; [apply in_fuel_modify|intros _].
  apply in_fuel_for. intros _. unfold read_vga_record.
  apply in_fuel_bind; [apply in_fuel_fd_read|intros bytes].
  apply in_fuel_bind; [apply in_fuel_lift, unpack_L_B_3s_in_fuel|].
  intros [[offset attr] uid].
  apply in_fuel_bind; [apply in_fuel_lift, str_to_Long_in_fuel|intros key].
  apply in_fuel_bind; [apply in_fuel_modify|intros _].
  apply in_fuel_bind; [apply in_fuel_fd_tell|intros pos]. apply in_fuel_fd_seek.
Qed.

Lemma in_fuel_init_note : in_fuel init_note.
Proof.
  unfold init_note.
  apply in_fuel_bind; [apply in_fuel_fd_seek|intros _].
  apply in_fuel_bind; [apply in_fuel_fd_read|intros b2].
  apply in_fuel_bind; [apply in_fuel_lift, unpack_2s_in_fuel|intros w].
  apply in_fuel_bind; [apply in_fuel_lift, str_to_Word_in_fuel|intros cnt].
  apply in_fuel_bind; [apply in_fuel_modify|intros _].
  apply in_fuel_bind; [apply in_fuel_modify|intros _].
  apply in_fuel_for. intros _. unfold read_note_record.
  apply in_fuel_bind; [apply in_fuel_fd_read|intros bytes].
  apply in_fuel_bind; [apply in_fuel_lift, unpack_L_B_3s_in_fuel|].
  intros [[offset attr] uid].
  apply in_fuel_bind; [apply in_fuel_lift, str_to_Long_in_fuel|intros key].
  apply in_fuel_modify.
Qed.

(** The condition of the category loop reads the instance only. *)
Lemma category_cond_pure (category : pystr) (s : EyeModule) :
  exists r, category_cond category s = (r, s) /\ r <> OutOfFuel.
Proof.
  unfold category_cond. unfold St.bind at 1. unfold St.lift at 1.
  pose proof (getitem_in_fuel category 0) as Hc.
  destruct (getitem category 0) as [c|e|]; [|eexists; split; [reflexivity|discriminate]
                                            |contradiction].
  destruct (ord c =? 0); [eexists; split; [reflexivity|discriminate]|].
  unfold St.bind, fd_tell, St.gets, St.lift, St.ret.
  pose proof (getitem_in_fuel (images s) 0) as Hi.
  destruct (getitem (images s) 0) as [first|e|];
    [|eexists; split; [reflexivity|discriminate]|contradiction].
  eexists; split; [reflexivity|discriminate].
Qed.

(** The body of the category loop reads the next 16 bytes. *)
Lemma category_body_reads (category : pystr) (s : EyeModule) :
  0 <= f_pos (emDB_fd s) ->
  (exists e, category_body category s = (Raise e, s))
  \/ exists category' s',
       category_body category s = (Ok category', s')
       /\ 0 <= f_pos (emDB_fd s')
       /\ (category' = [] \/ (emDB_left s' < emDB_left s)%nat)
       /\ (emDB_left s' <= emDB_left s)%nat.
Proof.
  intros Hpos. unfold category_body. unfold St.bind at 1. unfold St.lift at 1.
  pose proof (index_nul_in_fuel category) as Hi.
  destruct (index_nul category) as [i|e|]; [|left; eauto|contradiction].
  right. unfold St.bind, St.modify, fd_read, f_read, emDB_left.
  destruct s as [[data pos] b c cur cnt d im cat vc vd nc nd].
  cbv beta iota zeta delta
    [fd_of with_category_names with_fd emDB_fd f_data f_pos category_names] in *.
  eexists _, _. split; [reflexivity|].
  set (rest := drop (Z.to_nat pos) data).
  assert (Hlen : len (take (Z.to_nat 16) rest)
                 = Z.of_nat (Nat.min (Z.to_nat 16) (length rest))).
  { unfold len. now rewrite length_take. }
  split; [lia|].
  replace (Z.to_nat (pos + len (take (Z.to_nat 16) rest)))
    with (Z.to_nat pos + Nat.min (Z.to_nat 16) (length rest))%nat by lia.
  rewrite <- drop_drop. fold rest. rewrite length_drop.
  destruct rest as [|x rest'].
  - split; [left; reflexivity|simpl; lia].
  - split; [right|]; simpl length; lia.
Qed.

Lemma category_loop_in_fuel (fuel : nat) :
  forall (category : pystr) (s : EyeModule),
  0 <= f_pos (emDB_fd s) ->
  (emDB_left s + 2 <= fuel)%nat ->
  fst (St.while_ fuel category_cond category_body category s) <> OutOfFuel.
Proof.
  induction fuel as [|fuel IH]; intros category s Hpos Hfuel; [lia|].
  cbn [St.while_]. unfold St.bind at 1.
  destruct (category_cond_pure category s) as (r & -> & Hr).
  destruct r as [[|]|e|]; [|discriminate|discriminate|contradiction].
  unfold St.bind at 1.
  destruct (category_body_reads category s Hpos)
    as [[e ->]|(category' & s' & -> & Hpos' & Hstep & Hle)]; [discriminate|].
  destruct Hstep as [->|Hlt].
  - destruct fuel as [|fuel']; [lia|].
    cbn [St.while_]. unfold St.bind at 1.
    unfold category_cond at 1. unfold St.bind at 1. unfold St.lift at 1.
    discriminate.
  - apply IH; [exact Hpos'|lia].
Qed.

Lemma keeps_data_ret {A} (a : A) : keeps_data (St.ret a).
Proof. intros s. reflexivity. Qed.

Lemma keeps_data_lift {A} (r : result A) : keeps_data (St.lift r).
Proof. intros s. reflexivity. Qed.

Lemma keeps_data_gets {A} (f : EyeModule -> A) : keeps_data (St.gets f).
Proof. intros s. reflexivity. Qed.

Lemma keeps_data_modify (f : EyeModule -> EyeModule) :
  (forall s, emDB_fd (f s) = emDB_fd s) -> keeps_data (St.modify f).
Proof. intros Hf s. simpl. now rewrite Hf. Qed.

Lemma keeps_data_bind {A B} (c : M A) (k : A -> M B) :
  keeps_data c -> (forall a, keeps_data (k a)) -> keeps_data (St.bind c k).
Proof.
  intros Hc Hk s. unfold St.bind. specialize (Hc s).
  destruct (c s) as [[a| e |] s']; simpl in *; try assumption.
  now rewrite Hk.
Qed.

Lemma keeps_data_for {A} (l : list A) (body : A -> M unit) :
  (forall a, keeps_data (body a)) -> keeps_data (St.for_ l body).
Proof.
  intros Hb. induction l as [|x l IH]; simpl.
  - apply keeps_data_ret.
  - apply keeps_data_bind; [apply Hb|intros _; exact IH].
Qed.

Lemma keeps_data_fd_seek (h : handle) (offset : Z) : keeps_data (fd_seek h offset).
Proof.
  intros s. unfold fd_seek, f_seek. destruct (offset <? 0); [reflexivity|].
  destruct s, h; reflexivity.
Qed.

Lemma keeps_data_fd_read (h : handle) (n : Z) : keeps_data (fd_read h n).
Proof. intros s. unfold fd_read, f_read. destruct s, h; reflexivity. Qed.

Lemma keeps_data_init_index : keeps_data init_index.
Proof.
  unfold init_index, init_record_cnt, init_images.
  repeat (apply keeps_data_bind; [|intros]);
    auto using keeps_data_gets, keeps_data_lift, keeps_data_fd_seek,
      keeps_data_fd_read, keeps_data_ret;
    try (apply keeps_data_modify; intros []; reflexivity).
  apply keeps_data_for. intros _. unfold read_image_record.
  apply keeps_data_bind; [apply keeps_data_fd_read|intros bytes].
  apply keeps_data_bind; [apply keeps_data_lift|intros [[offset attr] uid]].
  apply keeps_data_modify; intros []; reflexivity.
Qed.

Lemma init_category_names_in_fuel (fuel : nat) (appinfo_start : Z) (s : EyeModule) :
  (length (f_data (emDB_fd s)) + 2 <= fuel)%nat ->
  fst (init_category_names fuel appinfo_start s) <> OutOfFuel.
Proof.
  intros Hfuel. unfold init_category_names.
  unfold St.bind at 1. unfold St.modify at 1.
  set (s1 := with_category_names [] s).
  assert (Hfd1 : emDB_fd s1 = emDB_fd s) by (destruct s; reflexivity).
  unfold St.bind at 1. unfold fd_seek, f_seek. cbn [fd_of]. rewrite Hfd1.
  destruct (Z.ltb_spec (appinfo_start + 2) 0) as [Hneg|Hpos]; [discriminate|].
  unfold St.bind at 1. unfold fd_read, f_read.
  set (s2 := with_fd DB _ s1).
  assert (Hfd2 : fd_of DB s2 = mkfile (f_data (emDB_fd s)) (appinfo_start + 2))
    by apply fd_of_with_fd.
  rewrite Hfd2. cbn [f_data f_pos].
  set (category := take (Z.to_nat 16) _).
  set (s3 := with_fd DB _ s2).
  assert (Hfd3 : emDB_fd s3
                 = mkfile (f_data (emDB_fd s)) (appinfo_start + 2 + len category))
    by apply (fd_of_with_fd DB).
  unfold St.bind at 1.
  pose proof (category_loop_in_fuel fuel category s3) as Hloop.
  destruct (St.while_ fuel category_cond category_body category s3)
    as [[x|e|] s4]; cbn [fst] in *; [discriminate|discriminate|].
  exfalso. apply Hloop; [| |reflexivity].
  - rewrite Hfd3. cbn [f_pos]. pose proof (len_nonneg category). lia.
  - unfold emDB_left. rewrite Hfd3. cbn [f_data f_pos].
    rewrite length_drop. lia.
Qed.

(** The fuel the constructor gives the category loop is enough: the
    constructor returns an instance or raises an exception. *)
Lemma init_ends (emDB emVGADB emNoteDB : pystr) :
  __init__ emDB emVGADB emNoteDB <> OutOfFuel.
Proof.
  unfold __init__. rewrite init_body_index. unfold St.bind at 1.
  pose proof (keeps_data_init_index (fresh emDB emVGADB emNoteDB)) as Hdata.
  assert (Hindex : in_fuel init_index).
  { unfold init_index.
    apply in_fuel_bind; [apply in_fuel_init_record_cnt|intros a].
    apply in_fuel_bind; [apply in_fuel_init_images|intros _]. apply in_fuel_ret. }
  specialize (Hindex (fresh emDB emVGADB emNoteDB)).
  destruct (init_index _) as [[a|e|] s]; cbn [fst snd] in *;
    [|discriminate|contradiction].
  cbn [fresh emDB_fd f_open f_data] in Hdata.
  unfold St.bind at 1.
  pose proof (init_category_names_in_fuel (category_fuel emDB) a s) as Hcat.
  destruct (init_category_names _ a s) as [[[]|e|] s1]; cbn [fst] in *;
    [|discriminate|].
  - pose proof (in_fuel_bind init_vga (fun _ => init_note) in_fuel_init_vga
                  (fun _ => in_fuel_init_note) s1) as Hrest.
    destruct (St.bind init_vga _ s1) as [[[]|e|] s2]; cbn [fst] in *;
      [discriminate|discriminate|contradiction].
  - exfalso. apply Hcat; [|reflexivity]. rewrite Hdata. unfold category_fuel. lia.
Qed.

(** ** The helpers that turn bytes into numbers *)

Lemma ord_inj (a b : byte) : ord a = ord b -> a = b.
Proof.
  unfold ord. intros H. apply N2Z.inj in H.
  pose proof (Byte.of_to_N a) as Ha. rewrite H, Byte.of_to_N in Ha. congruence.
Qed.

(** X1. [__str_to_Word] and [__str_to_Long] give the big-endian value of
    the string: a string of two bytes a number below 2^16, one of three bytes
    a number below 2^24 and one of four bytes a number below 2^32; a string
    of any other length fails the assertion.  Different strings of the same
    length give different numbers. *)
Theorem str_to_int_big_endian (s : pystr) :
  (len s = 2 -> __str_to_Word s = Ok (be_uint s) /\ 0 <= be_uint s < 2 ^ 16)
  /\ (len s <> 2 -> __str_to_Word s = Raise AssertionError)
  /\ (len s = 3 -> __str_to_Long s = Ok (be_uint s) /\ 0 <= be_uint s < 2 ^ 24)
  /\ (len s = 4 -> __str_to_Long s = Ok (be_uint s) /\ 0 <= be_uint s < 2 ^ 32)
  /\ (len s <> 3 -> len s <> 4 -> __str_to_Long s = Raise AssertionError)
  /\ (forall s' v, __str_to_Word s = Ok v -> __str_to_Word s' = Ok v -> s = s')
  /\ (forall s' v, len s = len s' ->
        __str_to_Long s = Ok v -> __str_to_Long s' = Ok v -> s = s').
Proof.
  assert (Hshift : forall c k, 0 <= k -> Z.shiftl (ord c) k = ord c * 2 ^ k)
    by (intros; apply Z.shiftl_mul_pow2; assumption).
  split; [|split; [|split; [|split; [|split; [|split]]]]].
  - destruct s as [|a [|b [|c s]]]; unfold len; simpl length; try lia.
    intros _. pose proof (ord_range a). pose proof (ord_range b).
    unfold __str_to_Word, be_uint. simpl. rewrite Hshift by lia.
    split; [f_equal|]; lia.
  - destruct s as [|a [|b [|c s]]]; unfold len; simpl length; try lia;
      reflexivity.
  - destruct s as [|a [|b [|c [|d s]]]]; unfold len; simpl length; try lia.
    intros _. pose proof (ord_range a). pose proof (ord_range b).
    pose proof (ord_range c).
    unfold __str_to_Long, be_uint. simpl. rewrite !Hshift by lia.
    split; [f_equal|]; lia.
  - destruct s as [|a [|b [|c [|d [|e s]]]]]; unfold len; simpl length; try lia.
    intros _. pose proof (ord_range a). pose proof (ord_range b).
    pose proof (ord_range c). pose proof (ord_range d).
    unfold __str_to_Long, be_uint. simpl. rewrite !Hshift by lia.
    split; [f_equal|]; lia.
  - destruct s as [|a [|b [|c [|d [|e s]]]]]; unfold len; simpl length; try lia;
      reflexivity.
  - intros s' v. destruct s as [|a [|b [|c s]]]; try discriminate.
    destruct s' as [|a' [|b' [|c' s']]]; try discriminate.
    unfold __str_to_Word. rewrite !Hshift by lia. intros [= <-] [= E].
    pose proof (ord_range a). pose proof (ord_range b).
    pose proof (ord_range a'). pose proof (ord_range b').
    assert (ord a = ord a') by lia. assert (ord b = ord b') by lia.
    f_equal; [|f_equal]; now apply ord_inj.
  - intros s' v Hlen.
    destruct s as [|a [|b [|c [|d [|e s]]]]]; try discriminate;
      destruct s' as [|a' [|b' [|c' [|d' [|e' s']]]]]; try discriminate;
      unfold len in Hlen; simpl length in Hlen; try lia;
      unfold __str_to_Long; rewrite !Hshift by lia; intros [= <-] [= E];
      pose proof (ord_range a); pose proof (ord_range b);
      pose proof (ord_range c); pose proof (ord_range a');
      pose proof (ord_range b'); pose proof (ord_range c').
    + assert (ord a = ord a') by lia. assert (ord b = ord b') by lia.
      assert (ord c = ord c') by lia.
      f_equal; [|f_equal; [|f_equal]]; now apply ord_inj.
    + pose proof (ord_range d). pose proof (ord_range d').
      assert (ord a = ord a') by lia. assert (ord b = ord b') by lia.
      assert (ord c = ord c') by lia. assert (ord d = ord d') by lia.
      f_equal; [|f_equal; [|f_equal; [|f_equal]]]; now apply ord_inj.
Qed.

(** ** The grayscale samples *)

Lemma gray_bytes_pixels (b : byte) (l : list Z) :
  gray_bytes (gray_pixels b ++ l) = b :: gray_bytes l.
Proof. destruct b; reflexivity. Qed.

Lemma gray_pixels_levels (b : byte) :
  Forall (fun v => 15 <= v <= 255 /\ v mod 16 = 15) (gray_pixels b).
Proof.
  destruct b; repeat constructor; vm_compute; congruence.
Qed.

(** X2. The grayscale decoder loses nothing: the samples it produces are
    among the 16 levels 15, 31, ..., 255, and the data is read back from
    them pair by pair, so that different data give different samples. *)
Theorem grayscale_samples_keep_the_data (img_data : pystr) :
  exists img_array,
    grayscale_scan img_data = Ok img_array
    /\ Forall (fun v => 15 <= v <= 255 /\ v mod 16 = 15) img_array
    /\ gray_bytes img_array = img_data
    /\ forall img_data', grayscale_scan img_data' = Ok img_array ->
         img_data' = img_data.
Proof.
  assert (Hscan : forall d, grayscale_scan d = Ok (flat_map gray_pixels d)).
  { intros d. unfold grayscale_scan. now rewrite grayscale_fold. }
  assert (Hback : forall d, gray_bytes (flat_map gray_pixels d) = d).
  { induction d as [|b d IH]; [reflexivity|].
    change (flat_map gray_pixels (b :: d))
      with (gray_pixels b ++ flat_map gray_pixels d).
    rewrite gray_bytes_pixels. now rewrite IH. }
  exists (flat_map gray_pixels img_data).
  split; [apply Hscan|]. split; [|split].
  - induction img_data as [|b d IH]; [constructor|].
    change (flat_map gray_pixels (b :: d))
      with (gray_pixels b ++ flat_map gray_pixels d).
    apply Forall_app. split; [apply gray_pixels_levels|exact IH].
  - apply Hback.
  - intros d'. rewrite Hscan. intros [= E].
    rewrite <- (Hback d'), E. apply Hback.
Qed.

(** ** Color payloads of any length *)

Lemma fold_app {A B} (body : A -> B -> result A) (acc : A) (l1 l2 : list B) :
  Res.fold body acc (l1 ++ l2)
  = let! acc' := Res.fold body acc l1 in Res.fold body acc' l2.
Proof.
  revert acc. induction l1 as [|x l1 IH]; intros acc; simpl; [reflexivity|].
  destruct (body acc x); simpl; [apply IH|reflexivity..].
Qed.

Lemma xrange_from_snoc (k : nat) (start step : Z) :
  xrange_from (S k) start step
  = xrange_from k start step ++ [start + step * Z.of_nat k].
Proof.
  revert start. induction k as [|k IH]; intros start.
  - simpl. f_equal. lia.
  - change (xrange_from (S (S k)) start step)
      with (start :: xrange_from (S k) (start + step) step).
    rewrite IH. simpl. do 3 f_equal. lia.
Qed.

Lemma getitem_beyond {A} (l : list A) (i : Z) :
  len l <= i -> getitem l i = Raise IndexError.
Proof.
  intros Hi. unfold getitem. pose proof (len_nonneg l).
  replace (i <? 0) with false by lia.
  now replace ((0 <=? i) && (i <? len l)) with false by lia.
Qed.

Lemma color_fold_skipping (payload : pystr) (ps : list Z) (acc : list Z) :
  (forall p, In p ps -> 0 <= p /\ (p mod 6404 = 0 \/ p + 3 < len payload)) ->
  Res.fold (color_body payload) acc ps
  = Ok (acc ++ flat_map (quad_samples payload)
                  (List.filter (fun p => negb (p mod 6404 =? 0)) ps)).
Proof.
  revert acc. induction ps as [|p ps IH]; intros acc Hps; simpl.
  - now rewrite app_nil_r.
  - destruct (Hps p (or_introl eq_refl)) as [Hlo Hhi].
    destruct (Z.eqb_spec (p mod 6404) 0) as [Hz|Hnz]; simpl.
    + rewrite color_body_skip by assumption. simpl.
      apply IH. intros q Hq. apply Hps. now right.
    + rewrite color_body_emit by (assumption || lia). simpl.
      rewrite IH by (intros q Hq; apply Hps; now right).
      now rewrite <- app_assoc.
Qed.

Lemma color_body_short (payload : pystr) (arr : list Z) (p : Z) :
  0 <= p -> len payload <= p + 3 -> p mod 6404 <> 0 ->
  color_body payload arr p = Raise IndexError.
Proof.
  intros Hlo Hhi Hp. unfold color_body.
  replace (p mod 6404 =? 0) with false by lia.
  destruct (Z_lt_le_dec p (len payload)) as [H0|H0];
    [rewrite (getitem_byte_at payload p) by lia
    |now rewrite (getitem_beyond payload p) by lia].
  cbn [Res.bind].
  destruct (Z_lt_le_dec (p + 1) (len payload)) as [H1|H1];
    [rewrite (getitem_byte_at payload (p + 1)) by lia
    |now rewrite (getitem_beyond payload (p + 1)) by lia].
  cbn [Res.bind].
  destruct (Z_lt_le_dec (p + 2) (len payload)) as [H2|H2];
    [rewrite (getitem_byte_at payload (p + 2)) by lia
    |now rewrite (getitem_beyond payload (p + 2)) by lia].
  cbn [Res.bind].
  now rewrite (getitem_beyond payload (p + 3)) by lia.
Qed.

(** The positions of a payload of more than four bytes: those before the
    last one, and the last one. *)
Lemma xrange_4_last (n : Z) :
  4 < n ->
  xrange 4 n 4 = xrange 4 (last_position n) 4 ++ [last_position n]
  /\ 4 <= last_position n < n
  /\ (n mod 4 = 0 -> last_position n = n - 4)
  /\ (n mod 4 <> 0 -> n <= last_position n + 3).
Proof.
  intros Hn. unfold last_position.
  pose proof (Z.div_mod (n - 1) 4 ltac:(lia)) as Hdm.
  pose proof (Z.mod_pos_bound (n - 1) 4 ltac:(lia)) as Hr.
  set (m := (n - 1) / 4) in *.
  assert (Hm : 1 <= m) by lia.
  split; [|split; [lia|split]].
  - unfold xrange.
    replace (4 <? n) with true by lia.
    replace ((n - 4 + 4 - 1) / 4) with m by (unfold m; f_equal; lia).
    destruct (Z.ltb_spec 4 (4 * m)) as [Hlt|Hge].
    + replace ((4 * m - 4 + 4 - 1) / 4) with (m - 1).
      2:{ replace (4 * m - 4 + 4 - 1) with (3 + (m - 1) * 4) by lia.
          rewrite Z.div_add by lia. reflexivity. }
      replace (Z.to_nat m) with (S (Z.to_nat (m - 1))) by lia.
      rewrite xrange_from_snoc. do 2 f_equal. lia.
    + replace m with 1 by lia. reflexivity.
  - intros Hmod.
    pose proof (Z.div_mod n 4 ltac:(lia)) as Hn4. rewrite Hmod in Hn4. lia.
  - intros Hmod.
    pose proof (Z.div_mod n 4 ltac:(lia)) as Hn4.
    pose proof (Z.mod_pos_bound n 4 ltac:(lia)) as Hr4.
    assert (m = n / 4); [|lia].
    unfold m. replace (n - 1) with (n mod 4 - 1 + (n / 4) * 4) by lia.
    rewrite Z.div_add by lia. rewrite Z.div_small by lia. lia.
Qed.

(** X3. The color scan of a payload of any length.  It succeeds, with the
    samples of every position 4, 8, ... that is not a multiple of 6404, when
    the payload has at most four bytes, when its length is a multiple of
    four, or when the last position is a multiple of 6404.  In every other
    case, a payload cut off inside its last group of four bytes, the scan
    raises IndexError. *)
Theorem color_scan_by_length (payload : pystr) :
  (len payload <= 4 \/ len payload mod 4 = 0
   \/ last_position (len payload) mod 6404 = 0 ->
   color_scan payload
   = Ok (flat_map (quad_samples payload) (pixel_positions (len payload))))
  /\ (4 < len payload -> len payload mod 4 <> 0 ->
      last_position (len payload) mod 6404 <> 0 ->
      color_scan payload = Raise IndexError).
Proof.
  set (n := len payload). split.
  - intros Hcase. unfold color_scan, pixel_positions. fold n.
    apply (color_fold_skipping payload (xrange 4 n 4) []).
    intros p Hp. apply xrange_spec in Hp; [|lia]. destruct Hp as [[Hlo Hhi] Hmod].
    split; [lia|].
    destruct (Z_le_gt_dec n 4) as [Hsmall|Hbig]; [lia|].
    destruct (xrange_4_last n ltac:(lia)) as (_ & Hlast & Hmul & Hcut).
    assert (Hp4 : p mod 4 = 0).
    { replace p with (p - 4 + 1 * 4) by lia. now rewrite Z.mod_add by lia. }
    pose proof (Z.div_mod p 4 ltac:(lia)) as Hdp.
    assert (Hl4 : last_position n = 4 * ((n - 1) / 4)) by reflexivity.
    assert (Hple : p <= last_position n).
    { rewrite Hl4. assert (p / 4 <= (n - 1) / 4); [|lia].
      apply Z.div_le_mono; lia. }
    destruct (Z.eq_dec (n mod 4) 0) as [H4|H4].
    + right. specialize (Hmul H4). fold n. lia.
    + destruct Hcase as [Hc|[Hc|Hc]]; [lia|contradiction|].
      destruct (Z.eq_dec p (last_position n)) as [->|Hne]; [now left|].
      right. fold n. lia.
  - intros Hbig H4 Hlast. unfold color_scan. fold n.
    destruct (xrange_4_last n Hbig) as (Hsplit & Hrange & _ & Hcut).
    specialize (Hcut H4). rewrite Hsplit, fold_app.
    rewrite (color_fold_skipping payload (xrange 4 (last_position n) 4) []).
    + cbn [Res.bind Res.fold].
      rewrite color_body_short; [reflexivity|lia|fold n; lia|exact Hlast].
    + intros p Hp. apply xrange_spec in Hp; [|lia].
      destruct Hp as [[Hlo Hhi] Hmod]. split; [lia|]. right. fold n.
      assert (Hp4 : p mod 4 = 0).
      { replace p with (p - 4 + 1 * 4) by lia. now rewrite Z.mod_add by lia. }
      pose proof (Z.div_mod p 4 ltac:(lia)) as Hdp.
      unfold last_position in *. lia.
Qed.

Lemma color_scan_by_length_witness :
  color_scan (zeros 8) = Ok [0; 0; 0; 0; 0; 0]
  /\ color_scan (zeros 10) = Raise IndexError.
Proof.
  destruct (color_scan_by_length (zeros 8)) as [Hok _].
  destruct (color_scan_by_length (zeros 10)) as [_ Hcut].
  split.
  - rewrite Hok; [reflexivity|]. right. left. reflexivity.
  - apply Hcut; [reflexivity|discriminate|discriminate].
Defined.

(** ** The outcomes of decoding a header *)

Lemma str_to_Word_value (s : pystr) :
  len s = 2 -> __str_to_Word s = Ok (be_uint s) /\ 0 <= be_uint s < 2 ^ 16.
Proof.
  destruct s as [|a [|b [|c s]]]; unfold len; simpl length; try lia.
  intros _. pose proof (ord_range a). pose proof (ord_range b).
  unfold __str_to_Word, be_uint. simpl. rewrite Z.shiftl_mul_pow2 by lia.
  split; [f_equal|]; lia.
Qed.

Lemma index_nul_none (s : pystr) :
  Forall (fun c => ord c <> 0) s -> index_nul s = Raise ValueError.
Proof.
  induction 1 as [|c s Hc _ IH]; simpl; [reflexivity|].
  replace (ord c =? 0) with false by lia. now rewrite IH.
Qed.

Lemma index_nul_first (name rest : pystr) :
  Forall (fun c => ord c <> 0) name ->
  index_nul (name ++ x00 :: rest) = Ok (len name).
Proof.
  induction 1 as [|c s Hc _ IH]; simpl; [reflexivity|].
  replace (ord c =? 0) with false by lia. rewrite IH. simpl.
  f_equal. unfold len. simpl length. lia.
Qed.

Lemma len_sub (s : pystr) (off n : nat) :
  (off + n <= length s)%nat -> len (sub s off n) = Z.of_nat n.
Proof.
  intros H. unfold len, sub. rewrite length_take, length_drop. lia.
Qed.

Lemma be_uint_1 (s : pystr) (off : nat) :
  (off < length s)%nat -> be_uint (sub s off 1) = byte_at s (Z.of_nat off).
Proof.
  intros H. unfold sub, byte_at. rewrite Nat2Z.id.
  destruct (drop off s) as [|c t] eqn:E.
  - apply (f_equal length) in E. rewrite length_drop in E. simpl in E. lia.
  - replace (nth off s x00) with c; [reflexivity|].
    rewrite <- (take_drop off s) at 1. rewrite E.
    rewrite app_nth2 by (rewrite length_take; lia).
    rewrite length_take. now replace (off - off `min` length s)%nat with 0%nat by lia.
Qed.

(** X4. What decoding the bytes read for a header can do.  When fewer than
    58 bytes were read (the file ends before), [struct.unpack] raises its
    error.  When there are 58 bytes and none of the first 32 is NUL, the
    search for the end of the name raises ValueError.  Otherwise the header
    is returned: the name is what precedes the first NUL, and the numbers
    are the big-endian values of their fields, width and height below
    2^16. *)
Theorem header_of_outcomes {host : Host} (header : pystr) :
  (len header <> 58 -> header_of header = Raise StructError)
  /\ (len header = 58 -> Forall (fun c => ord c <> 0) (take 32 header) ->
      header_of header = Raise ValueError)
  /\ (forall name rest,
        len header = 58 -> header = name ++ x00 :: rest ->
        Forall (fun c => ord c <> 0) name -> len name < 32 ->
        exists h,
          header_of header = Ok h
          /\ h_Name h = name
          /\ h_version h = byte_at header 32
          /\ h_Type h = byte_at header 33
          /\ h_firstVGARecUID h = be_uint (sub header 34 4)
          /\ h_noteUID h = be_uint (sub header 38 4)
          /\ h_Width h = be_uint (sub header 54 2)
          /\ h_Height h = be_uint (sub header 56 2)
          /\ 0 <= h_Width h < 2 ^ 16 /\ 0 <= h_Height h < 2 ^ 16).
Proof.
  split; [|split].
  - intros Hlen. unfold header_of, unpack_header.
    now replace (len header =? 58) with false by lia.
  - intros Hlen Hname. unfold header_of, unpack_header.
    replace (len header =? 58) with true by lia. cbn [Res.bind].
    unfold sub at 1. rewrite drop_0. now rewrite index_nul_none.
  - intros name rest Hlen Hheader Hname Hshort.
    assert (Hlength : length header = 58%nat) by (unfold len in Hlen; lia).
    unfold header_of, unpack_header.
    replace (len header =? 58) with true by lia. cbn [Res.bind].
    assert (Hsub : sub header 0 32
                   = name ++ x00 :: take (32 - S (length name)) rest).
    { unfold sub. rewrite drop_0, Hheader. unfold len in Hshort.
      rewrite take_app, take_ge by lia. f_equal.
      replace (32 - length name)%nat with (S (32 - S (length name))) by lia.
      reflexivity. }
    rewrite Hsub, index_nul_first by assumption. cbn [Res.bind].
    destruct (str_to_Word_value (sub header 42 2)) as [-> _];
      [apply len_sub; lia|].
    destruct (str_to_Word_value (sub header 44 2)) as [-> _];
      [apply len_sub; lia|].
    destruct (str_to_Word_value (sub header 50 2)) as [-> _];
      [apply len_sub; lia|].
    destruct (str_to_Word_value (sub header 52 2)) as [-> _];
      [apply len_sub; lia|].
    destruct (str_to_Word_value (sub header 54 2)) as [-> Hw];
      [apply len_sub; lia|].
    destruct (str_to_Word_value (sub header 56 2)) as [-> Hh];
      [apply len_sub; lia|].
    cbn [Res.bind]. eexists. split; [reflexivity|]. cbn.
    split.
    { unfold slice_to, len. rewrite Nat2Z.id. now rewrite take_app_length. }
    split; [apply (be_uint_1 header 32); lia|].
    split; [apply (be_uint_1 header 33); lia|].
    repeat split; lia.
Qed.

Lemma header_of_outcomes_witness :
  header_of (host := Example.utc) (zeros 57) = Raise StructError
  /\ header_of (host := Example.utc) (repeat x01 58) = Raise ValueError
  /\ exists h,
       header_of (host := Example.utc) (image_header "first" 0 5 0 320 240) = Ok h
       /\ h_Name h = list_byte_of_string "first"
       /\ h_Width h = 320 /\ h_Height h = 240 /\ h_noteUID h = 5.
Proof.
  split; [|split].
  - apply (header_of_outcomes (host := Example.utc) (zeros 57)). discriminate.
  - apply (header_of_outcomes (host := Example.utc) (repeat x01 58));
      [reflexivity|]. vm_compute. repeat constructor; discriminate.
  - destruct (header_of_outcomes (host := Example.utc)
                (image_header "first" 0 5 0 320 240)) as (_ & _ & Hok).
    destruct (Hok (list_byte_of_string "first")
                (drop 6 (image_header "first" 0 5 0 320 240)))
      as (h & E & Hn & _ & _ & _ & Hnote & Hw & Hh & _).
    + reflexivity.
    + reflexivity.
    + vm_compute. repeat constructor; discriminate.
    + reflexivity.
    + exists h. split; [exact E|]. split; [exact Hn|].
      rewrite Hw, Hh, Hnote. repeat split.
Defined.

(** ** What the methods leave alone *)

Lemma keeps_built_ret {A} (a : A) : keeps_built (St.ret a).
Proof. intros s. reflexivity. Qed.

Lemma keeps_built_lift {A} (r : result A) : keeps_built (St.lift r).
Proof. intros s. reflexivity. Qed.

Lemma keeps_built_gets {A} (f : EyeModule -> A) : keeps_built (St.gets f).
Proof. intros s. reflexivity. Qed.

Lemma keeps_built_bind {A B} (c : M A) (k : A -> M B) :
  keeps_built c -> (forall a, keeps_built (k a)) -> keeps_built (St.bind c k).
Proof.
  intros Hc Hk s. unfold St.bind. specialize (Hc s).
  destruct (c s) as [[a| e |] s']; simpl in *; try assumption.
  now rewrite Hk.
Qed.

Lemma built_with_fd (h : handle) (fd : file) (s : EyeModule) :
  f_data fd = f_data (fd_of h s) -> built (with_fd h fd s) = built s.
Proof. destruct s, h; unfold built; cbn; intros E; now rewrite E. Qed.

Lemma built_with_cur_image (n : Z) (s : EyeModule) :
  built (with_cur_image n s) = built s.
Proof. destruct s; reflexivity. Qed.

Lemma keeps_built_fd_seek (h : handle) (offset : Z) : keeps_built (fd_seek h offset).
Proof.
  intros s. unfold fd_seek, f_seek. destruct (offset <? 0); [reflexivity|].
  now apply built_with_fd.
Qed.

Lemma keeps_built_fd_read (h : handle) (n : Z) : keeps_built (fd_read h n).
Proof. intros s. unfold fd_read, f_read. now apply built_with_fd. Qed.

Lemma keeps_built_set_cur (n : Z) : keeps_built (St.modify (with_cur_image n)).
Proof. intros s. apply built_with_cur_image. Qed.

Lemma keeps_built_while {S} (fuel : nat) (cond : S -> M bool) (body : S -> M S) :
  (forall s, keeps_built (cond s)) -> (forall s, keeps_built (body s)) ->
  forall s, keeps_built (St.while_ fuel cond body s).
Proof.
  intros Hcond Hbody. induction fuel as [|fuel IH]; intros s.
  - intros self. reflexivity.
  - cbn [St.while_]. apply keeps_built_bind; [apply Hcond|intros [|]].
    + apply keeps_built_bind; [apply Hbody|apply IH].
    + apply keeps_built_ret.
Qed.

Lemma keeps_built_reraise {A} (c : M A) : keeps_built c -> keeps_built (St.reraise c).
Proof.
  intros Hc s. unfold St.reraise. specialize (Hc s).
  now destruct (c s) as [[a| e |] s'].
Qed.

Lemma keeps_built_for_each {A B} (l : list A) (body : A -> M B) :
  (forall a, keeps_built (body a)) -> keeps_built (for_each l body).
Proof.
  intros Hbody. induction l as [|x l IH]; [apply keeps_built_ret|].
  cbn [for_each]. apply keeps_built_bind; [apply Hbody|intros b].
  apply keeps_built_bind; [exact IH|intros bs]. apply keeps_built_ret.
Qed.

Ltac keeps_built_steps :=
  repeat first
    [ apply keeps_built_ret | apply keeps_built_lift | apply keeps_built_gets
    | apply keeps_built_fd_seek | apply keeps_built_fd_read
    | apply keeps_built_set_cur
    | apply keeps_built_bind; [|intros]
    | match goal with
      | |- keeps_built (match ?x with _ => _ end) => destruct x
      | |- keeps_built (if ?b then _ else _) => destruct b
      end ].

Lemma keeps_built_resolve (n : Z) : keeps_built (resolve_image_nr n).
Proof. unfold resolve_image_nr. keeps_built_steps. Qed.

Lemma keeps_built_get_header {host : Host} (n : Z) : keeps_built (get_header n).
Proof.
  unfold get_header. apply keeps_built_bind; [apply keeps_built_resolve|intros r].
  unfold get_header_body. keeps_built_steps.
Qed.

Lemma keeps_built_category_of (n : Z) : keeps_built (category_of n).
Proof. unfold category_of. keeps_built_steps. Qed.

Lemma keeps_built_get_image {host : Host} {pil : PIL} (n : Z) :
  keeps_built (get_image n).
Proof.
  unfold get_image. apply keeps_built_bind; [apply keeps_built_resolve|intros r].
  destruct r as [k|]; [|apply keeps_built_ret]. unfold get_image_body.
  apply keeps_built_bind; [apply keeps_built_gets|intros cur].
  apply keeps_built_bind; [apply keeps_built_get_header|intros header].
  destruct header as [header|]; [|apply keeps_built_lift].
  apply keeps_built_bind; [apply keeps_built_category_of|intros _].
  keeps_built_steps.
Qed.

Lemma keeps_built_get_next_image {host : Host} {pil : PIL} :
  keeps_built get_next_image.
Proof.
  unfold get_next_image.
  apply keeps_built_bind; [apply keeps_built_gets|intros cur].
  apply keeps_built_bind; [apply keeps_built_gets|intros cnt].
  destruct (_ <? _); [|apply keeps_built_ret].
  apply keeps_built_bind; [apply keeps_built_set_cur|intros _].
  apply keeps_built_bind; [apply keeps_built_gets|intros cur'].
  apply keeps_built_get_image.
Qed.

Lemma keeps_built_get_previous_image {host : Host} {pil : PIL} :
  keeps_built get_previous_image.
Proof.
  unfold get_previous_image.
  apply keeps_built_bind; [apply keeps_built_gets|intros cur].
  destruct (_ >? _); [|apply keeps_built_ret].
  apply keeps_built_bind; [apply keeps_built_set_cur|intros _].
  apply keeps_built_bind; [apply keeps_built_gets|intros cur'].
  apply keeps_built_get_image.
Qed.

Lemma keeps_built_read_note_text (fuel : nat) : keeps_built (read_note_text fuel).
Proof.
  unfold read_note_text.
  apply keeps_built_bind; [apply keeps_built_fd_read|intros c].
  apply keeps_built_bind; [|intros [c' text]; apply keeps_built_ret].
  apply keeps_built_while.
  - intros [c' text]. apply keeps_built_ret.
  - intros [c' text]. unfold note_body. keeps_built_steps.
Qed.

Lemma keeps_built_extract_image {host : Host} {pil : PIL} (fuel : nat) (n : Z) :
  keeps_built (extract_image fuel n).
Proof.
  unfold extract_image.
  apply keeps_built_bind; [apply keeps_built_resolve|intros r].
  destruct r as [k|]; [|apply keeps_built_ret].
  apply keeps_built_bind; [apply keeps_built_get_header|intros header].
  apply keeps_built_bind; [apply keeps_built_category_of|intros category].
  destruct header as [header|]; [|apply keeps_built_lift].
  apply keeps_built_reraise.
  apply keeps_built_bind.
  - destruct (negb _); [|apply keeps_built_ret].
    apply keeps_built_bind; [apply keeps_built_gets|intros d].
    apply keeps_built_bind; [apply keeps_built_lift|intros offset].
    apply keeps_built_bind; [apply keeps_built_fd_seek|intros _].
    apply keeps_built_bind; [apply keeps_built_read_note_text|intros text].
    apply keeps_built_ret.
  - intros note.
    apply keeps_built_bind; [apply keeps_built_get_image|intros img].
    destruct img; [apply keeps_built_ret|apply keeps_built_lift].
Qed.

Lemma keeps_built_list_images_line {host : Host} (n : Z) :
  keeps_built (list_images_line n).
Proof.
  unfold list_images_line.
  apply keeps_built_bind; [apply keeps_built_get_header|intros header].
  destruct header as [header|]; [|apply keeps_built_lift].
  apply keeps_built_bind; [apply keeps_built_category_of|intros category].
  apply keeps_built_ret.
Qed.

Lemma keeps_built_list_images {host : Host} : keeps_built list_images.
Proof.
  unfold list_images.
  apply keeps_built_bind; [apply keeps_built_gets|intros cnt].
  apply keeps_built_for_each. apply keeps_built_list_images_line.
Qed.

Lemma keeps_built_extract_all_images {host : Host} {pil : PIL} (fuel : nat) :
  keeps_built (extract_all_images fuel).
Proof.
  unfold extract_all_images.
  apply keeps_built_bind; [apply keeps_built_gets|intros cnt].
  apply keeps_built_for_each. intros n. apply keeps_built_extract_image.
Qed.

(** X5. No method changes what the constructor has built.  Whatever the
    image number, and whether the method returns or raises, the content of
    the three databases, the record counts, the image list, the categories,
    the category names and the two indices of unique ids are afterwards what
    they were before; all that a method changes is the current image number
    and the positions in the three files. *)
Theorem methods_only_read {host : Host} {pil : PIL} (fuel : nat) (n : Z)
    (self : EyeModule) :
  built (snd (get_header n self)) = built self
  /\ built (snd (get_image n self)) = built self
  /\ built (snd (get_next_image self)) = built self
  /\ built (snd (get_previous_image self)) = built self
  /\ built (snd (extract_image fuel n self)) = built self
  /\ built (snd (list_images self)) = built self
  /\ built (snd (extract_all_images fuel self)) = built self.
Proof.
  split; [apply keeps_built_get_header|].
  split; [apply keeps_built_get_image|].
  split; [apply keeps_built_get_next_image|].
  split; [apply keeps_built_get_previous_image|].
  split; [apply keeps_built_extract_image|].
  split; [apply keeps_built_list_images|].
  apply keeps_built_extract_all_images.
Qed.

(** ** Going back and forth *)

Lemma built_record_cnt (s s' : EyeModule) :
  built s' = built s -> record_cnt s' = record_cnt s.
Proof. unfold built. intros H. inversion H. reflexivity. Qed.

Lemma built_images (s s' : EyeModule) :
  built s' = built s -> images s' = images s.
Proof. unfold built. intros H. inversion H. reflexivity. Qed.

Lemma get_previous_image_stays {host : Host} {pil : PIL} (self : EyeModule) :
  cur_image self <= 1 -> get_previous_image self = (Ok None, self).
Proof.
  intros Hcur. unfold get_previous_image, St.bind, St.gets, St.ret.
  now replace (cur_image self - 1 >? 0) with false by lia.
Qed.



(** ** Going through all images *)







(** ** The image of a record *)

Lemma get_header_body_run {host : Host} (self : EyeModule) (k off : Z) :
  getitem (images self) k = Ok off -> 0 <= off ->
  get_header_body k self
  = (returned (header_of (header_bytes self off)),
     with_fd DB (mkfile (f_data (emDB_fd self)) (off + len (header_bytes self off)))
       self).
Proof.
  intros Hoff Hpos. unfold get_header_body.
  unfold St.bind at 1. unfold St.gets at 1.
  unfold St.bind at 1. unfold St.lift at 1. rewrite Hoff.
  unfold St.bind at 1. unfold fd_seek, f_seek.
  replace (off <? 0) with false by lia.
  unfold St.bind at 1. unfold fd_read, f_read. cbn [fst snd].
  unfold St.bind, St.lift, St.ret, returned, header_bytes, HEADER_LENGTH.
  destruct self as [[d p] b c cur cnt dd im cat vc vd nc nd]. cbn.
  destruct (header_of _); reflexivity.
Qed.

Lemma get_header_run {host : Host} (self : EyeModule) (n off : Z) :
  n <> -1 -> n < record_cnt self ->
  getitem (images self) n = Ok off -> 0 <= off ->
  get_header n self
  = (returned (header_of (header_bytes self off)),
     with_fd DB (mkfile (f_data (emDB_fd self)) (off + len (header_bytes self off)))
       (with_cur_image n self)).
Proof.
  intros Hn Hlt Hoff Hpos. unfold get_header. unfold St.bind at 1.
  rewrite resolve_explicit by assumption.
  rewrite (get_header_body_run (with_cur_image n self) n off)
    by (rewrite ?images_with_cur_image; assumption).
  unfold header_bytes. now rewrite emDB_fd_with_cur_image.
Qed.

Lemma category_of_run (self : EyeModule) (n off : Z) :
  getitem (images self) n = Ok off ->
  category_of n self = (category_at self off, self).
Proof.
  intros Hoff. unfold category_of, category_at, St.bind, St.gets, St.lift.
  rewrite Hoff. destruct (dict_getitem _ off); reflexivity.
Qed.

Lemma image_at_moved {host : Host} {pil : PIL} (self : EyeModule) (off pos : Z) :
  image_at (with_fd DB (mkfile (f_data (emDB_fd self)) pos) self) off
  = image_at self off.
Proof. destruct self as [[d p] b c cur cnt dd im cat vc vd nc nd]. reflexivity. Qed.

Lemma image_at_with_cur_image {host : Host} {pil : PIL} (self : EyeModule) (off k : Z) :
  image_at (with_cur_image k self) off = image_at self off.
Proof. destruct self as [[d p] b c cur cnt dd im cat vc vd nc nd]. reflexivity. Qed.

Lemma get_image_body_run {host : Host} {pil : PIL} (self : EyeModule) (n off : Z) :
  cur_image self = n -> n <> -1 -> n < record_cnt self ->
  getitem (images self) n = Ok off -> 0 <= off ->
  fst (get_image_body n self) = returned (image_at self off).
Proof.
  intros Hcur Hn Hlt Hoff Hpos. unfold get_image_body.
  unfold St.bind at 1. unfold St.gets at 1. rewrite Hcur.
  unfold St.bind at 1. rewrite (get_header_run self n off) by assumption.
  replace (with_cur_image n self) with self
    by (rewrite <- Hcur; symmetry; apply with_cur_image_same).
  set (s1 := with_fd DB _ self).
  assert (Hs1 : image_at s1 off = image_at self off) by apply image_at_moved.
  rewrite <- Hs1. unfold image_at.
  assert (Hbytes : header_bytes s1 off = header_bytes self off).
  { unfold header_bytes, s1. now rewrite (fd_of_with_fd DB). }
  rewrite Hbytes.
  destruct (header_of (header_bytes self off)) as [header|e|]; try reflexivity.
  cbn [returned Res.bind].
  assert (Him : images s1 = images self) by apply images_with_fd.
  unfold St.bind at 1. rewrite (category_of_run s1 n off) by now rewrite Him.
  destruct (category_at s1 off) as [category|e|]; try reflexivity.
  cbn [Res.bind].
  destruct (negb (h_firstVGARecUID header =? 0)).
  - unfold St.bind at 1. unfold St.gets at 1.
    unfold St.bind at 1. unfold St.lift at 1.
    destruct (dict_getitem _ _) as [vga_off|e|]; try reflexivity.
    cbn [Res.bind]. unfold St.bind at 1. unfold fd_seek, f_seek.
    destruct (vga_off <? 0); [reflexivity|].
    unfold St.bind at 1. unfold fd_read, f_read. cbn [fst snd].
    rewrite !(fd_of_with_fd VGADB). cbn [f_data f_pos fd_of].
    unfold St.bind, St.lift, St.ret.
    destruct (_decode_image_Color _ _ _); reflexivity.
  - unfold St.bind at 1. unfold St.gets at 1.
    unfold St.bind at 1. unfold St.lift at 1. rewrite Him, Hoff.
    unfold St.bind at 1. unfold fd_seek, f_seek, HEADER_LENGTH.
    replace (off + 58 <? 0) with false by lia.
    unfold St.bind at 1. unfold fd_read, f_read. cbn [fst snd].
    rewrite !(fd_of_with_fd DB). cbn [f_data f_pos].
    unfold St.bind, St.lift, St.ret.
    destruct (_decode_image_Grayscale _ _ _); reflexivity.
Qed.

Lemma get_image_run {host : Host} {pil : PIL} (self : EyeModule) (n off : Z) :
  n <> -1 -> n < record_cnt self ->
  getitem (images self) n = Ok off -> 0 <= off ->
  fst (get_image n self) = returned (image_at self off).
Proof.
  intros Hn Hlt Hoff Hpos. unfold get_image. unfold St.bind at 1.
  rewrite resolve_explicit by assumption.
  rewrite (get_image_body_run (with_cur_image n self) n off).
  - f_equal. apply image_at_with_cur_image.
  - apply cur_image_with_cur_image.
  - exact Hn.
  - now rewrite record_cnt_with_cur_image.
  - now rewrite images_with_cur_image.
  - exact Hpos.
Qed.

(** X8. The image that [get_image] returns for an image number below the
    record count is read off the databases alone, wherever the three files
    were positioned before: the header comes from the 58 bytes at the data
    offset of the image, the category is looked up, and the image is decoded
    from the 153696 bytes of the color database at the offset filed under
    [firstVGARecUID] when that is not zero, and otherwise from the
    [Width * Height / 2] bytes that follow the header.  The image becomes
    the current one. *)
Theorem get_image_reads_the_databases {host : Host} {pil : PIL}
    (self : EyeModule) (n off : Z) :
  n <> -1 -> n < record_cnt self ->
  getitem (images self) n = Ok off -> 0 <= off ->
  fst (get_image n self) = returned (image_at self off)
  /\ cur_image (snd (get_image n self)) = n
  /\ forall self', built self' = built self ->
       fst (get_image n self') = fst (get_image n self).
Proof.
  intros Hn Hlt Hoff Hpos.
  split; [now apply get_image_run|]. split.
  - rewrite get_image_cur. unfold resolved_cur.
    replace (n =? -1) with false by lia.
    now replace (n <? record_cnt self) with true by lia.
  - intros self' Hbuilt.
    rewrite (get_image_run self n off) by assumption.
    rewrite (get_image_run self' n off);
      [|exact Hn
       |now rewrite (built_record_cnt _ _ Hbuilt)
       |now rewrite (built_images _ _ Hbuilt)
       |exact Hpos].
    f_equal. unfold image_at, header_bytes, category_at.
    unfold built in Hbuilt. inversion Hbuilt. reflexivity.
Qed.

Lemma get_image_reads_the_databases_witness :
  fst (get_image (host := Example.utc) (pil := Example.raw_pil) 2 Example.em)
  = Ok (Some (L, (2, 2), [chr 15; chr 15; chr 255; chr 15])).
Proof.
  destruct (get_image_reads_the_databases (host := Example.utc)
              (pil := Example.raw_pil) Example.em 2 272) as [Hrun _].
  - discriminate.
  - vm_compute; reflexivity.
  - vm_compute; reflexivity.
  - lia.
  - rewrite Hrun. vm_compute. reflexivity.
Defined.

(** ** What holds of every instance *)

Lemma leaves_ret {X} (f : EyeModule -> X) {A} (a : A) : leaves f (St.ret a).
Proof. intros s. reflexivity. Qed.

Lemma leaves_lift {X} (f : EyeModule -> X) {A} (r : result A) : leaves f (St.lift r).
Proof. intros s. reflexivity. Qed.

Lemma leaves_gets {X} (f : EyeModule -> X) {A} (g : EyeModule -> A) :
  leaves f (St.gets g).
Proof. intros s. reflexivity. Qed.

Lemma leaves_modify {X} (f : EyeModule -> X) (g : EyeModule -> EyeModule) :
  (forall s, f (g s) = f s) -> leaves f (St.modify g).
Proof. intros Hg s. apply Hg. Qed.

Lemma leaves_bind {X} (f : EyeModule -> X) {A B} (c : M A) (k : A -> M B) :
  leaves f c -> (forall a, leaves f (k a)) -> leaves f (St.bind c k).
Proof.
  intros Hc Hk s. unfold St.bind. specialize (Hc s).
  destruct (c s) as [[a| e |] s']; simpl in *; try assumption.
  now rewrite Hk.
Qed.

Lemma leaves_for {X} (f : EyeModule -> X) {A} (l : list A) (body : A -> M unit) :
  (forall a, leaves f (body a)) -> leaves f (St.for_ l body).
Proof.
  intros Hb. induction l as [|x l IH]; simpl.
  - apply leaves_ret.
  - apply leaves_bind; [apply Hb|intros _; exact IH].
Qed.

Lemma leaves_while {X} (f : EyeModule -> X) {S} (fuel : nat)
    (cond : S -> M bool) (body : S -> M S) :
  (forall s, leaves f (cond s)) -> (forall s, leaves f (body s)) ->
  forall s, leaves f (St.while_ fuel cond body s).
Proof.
  intros Hcond Hbody. induction fuel as [|fuel IH]; intros s.
  - intros self. reflexivity.
  - cbn [St.while_]. apply leaves_bind; [apply Hcond|intros [|]].
    + apply leaves_bind; [apply Hbody|apply IH].
    + apply leaves_ret.
Qed.

Lemma leaves_fd_seek {X} (f : EyeModule -> X) (h : handle) (offset : Z) :
  (forall fd s, f_data fd = f_data (fd_of h s) -> f (with_fd h fd s) = f s) ->
  leaves f (fd_seek h offset).
Proof.
  intros Hf s. unfold fd_seek, f_seek. destruct (offset <? 0); [reflexivity|].
  now apply Hf.
Qed.

Lemma leaves_fd_read {X} (f : EyeModule -> X) (h : handle) (n : Z) :
  (forall fd s, f_data fd = f_data (fd_of h s) -> f (with_fd h fd s) = f s) ->
  leaves f (fd_read h n).
Proof. intros Hf s. unfold fd_read, f_read. now apply Hf. Qed.

Lemma leaves_fd_tell {X} (f : EyeModule -> X) (h : handle) : leaves f (fd_tell h).
Proof. intros s. reflexivity. Qed.

Lemma contents_with_fd (h : handle) (fd : file) (s : EyeModule) :
  f_data fd = f_data (fd_of h s) -> contents (with_fd h fd s) = contents s.
Proof. destruct s, h; unfold contents; cbn; intros E; now rewrite E. Qed.

Ltac leaves_steps :=
  repeat first
    [ apply leaves_ret | apply leaves_lift | apply leaves_gets
    | apply leaves_fd_tell
    | apply leaves_fd_seek;
      first [apply contents_with_fd | intros ? [] _; reflexivity]
    | apply leaves_fd_read;
      first [apply contents_with_fd | intros ? [] _; reflexivity]
    | apply leaves_modify; intros []; reflexivity
    | apply leaves_bind; [|intros]
    | apply leaves_for; intros
    | match goal with
      | |- leaves _ (match ?x with _ => _ end) => destruct x
      | |- leaves _ (if ?b then _ else _) => destruct b
      end ].

Lemma leaves_contents_init_body (fuel : nat) : leaves contents (init_body fuel).
Proof.
  unfold init_body, init_record_cnt, init_images, init_category_names, init_vga,
    init_note, read_image_record, read_vga_record, read_note_record.
  leaves_steps.
  apply leaves_while; intros c.
  - unfold category_cond. leaves_steps.
  - unfold category_body. leaves_steps.
Qed.

Lemma be_uint_range (s : pystr) : 0 <= be_uint s < 256 ^ len s.
Proof.
  unfold be_uint.
  assert (H : forall acc k, 0 <= k -> 0 <= acc < 256 ^ k ->
    0 <= fold_left (fun acc c => acc * 256 + ord c) s acc < 256 ^ (k + len s)).
  { induction s as [|c s IH]; intros acc k Hk Hacc.
    - unfold len. simpl. now rewrite Z.add_0_r.
    - simpl fold_left.
      replace (k + len (c :: s)) with ((k + 1) + len s)
        by (unfold len; simpl length; lia).
      apply IH; [lia|]. pose proof (ord_range c).
      rewrite Z.pow_add_r by lia. change (256 ^ 1) with 256. lia. }
  apply (H 0 0); [lia|]. simpl. lia.
Qed.

Lemma unpack_entry_range (bytes : pystr) (offset attr : Z) (uid : pystr) :
  unpack_L_B_3s bytes = Ok (offset, attr, uid) ->
  0 <= offset < 2 ^ 32 /\ len uid = 3.
Proof.
  unfold unpack_L_B_3s. destruct (Z.eqb_spec (len bytes) 8) as [Hlen|]; [|discriminate].
  intros [= <- _ <-]. unfold len in Hlen. split.
  - pose proof (be_uint_range (take 4 bytes)) as H.
    replace (len (take 4 bytes)) with 4 in H
      by (unfold len; rewrite length_take; lia).
    exact H.
  - unfold len. rewrite length_drop. lia.
Qed.

Lemma str_to_Long_range_3 (s : pystr) (v : Z) :
  len s = 3 -> __str_to_Long s = Ok v -> 0 <= v < 2 ^ 24.
Proof.
  destruct s as [|a [|b [|c [|d s]]]]; unfold len; simpl length; try lia.
  intros _ [= <-]. pose proof (ord_range a). pose proof (ord_range b).
  pose proof (ord_range c). rewrite !Z.shiftl_mul_pow2 by lia. lia.
Qed.

Lemma uids_ok_empty : uids_ok 0 ∅.
Proof.
  split; [rewrite map_size_empty; lia|].
  intros uid offset. rewrite lookup_empty. discriminate.
Qed.

Lemma uids_ok_insert (j : nat) (d : gmap Z Z) (uid offset : Z) :
  0 <= uid < 2 ^ 24 -> 0 <= offset < 2 ^ 32 ->
  uids_ok (Z.of_nat j) d -> uids_ok (Z.of_nat (S j)) (<[uid := offset]> d).
Proof.
  intros Hu Ho [Hsize Hval]. split.
  - rewrite map_size_insert. destruct (_ !! uid); unfold id; lia.
  - intros uid' offset'. destruct (decide (uid = uid')) as [<-|Hne].
    + rewrite lookup_insert_eq. intros [= <-]. split; assumption.
    + rewrite lookup_insert_ne by assumption. apply Hval.
Qed.

Lemma read_vga_record_inserts (s s' : EyeModule) :
  read_vga_record s = (Ok tt, s') ->
  exists uid offset,
    0 <= uid < 2 ^ 24 /\ 0 <= offset < 2 ^ 32
    /\ rec_data_offset_vga_dict s' = <[uid := offset]> (rec_data_offset_vga_dict s)
    /\ vga_record_cnt s' = vga_record_cnt s.
Proof.
  unfold read_vga_record. unfold St.bind at 1. unfold fd_read.
  destruct (f_read (fd_of VGADB s) 8) as [bytes fd]. unfold St.bind at 1.
  unfold St.lift at 1.
  destruct (unpack_L_B_3s bytes) as [[[offset attr] uid]|e|] eqn:E; try discriminate.
  destruct (unpack_entry_range _ _ _ _ E) as [Ho Hu].
  unfold St.bind at 1. unfold St.lift at 1.
  destruct (__str_to_Long uid) as [key|e|] eqn:Ekey; try discriminate.
  pose proof (str_to_Long_range_3 uid key Hu Ekey) as Hkey.
  unfold St.bind at 1. unfold St.modify at 1.
  unfold St.bind at 1. unfold fd_tell, St.gets at 1.
  unfold fd_seek. destruct (f_seek _ _) as [fd'|e|]; try discriminate.
  intros [= <-]. exists key, offset.
  split; [exact Hkey|]. split; [exact Ho|].
  destruct s; split; reflexivity.
Qed.

Lemma read_note_record_inserts (s s' : EyeModule) :
  read_note_record s = (Ok tt, s') ->
  exists uid offset,
    0 <= uid < 2 ^ 24 /\ 0 <= offset < 2 ^ 32
    /\ rec_data_offset_note_dict s' = <[uid := offset]> (rec_data_offset_note_dict s)
    /\ note_record_cnt s' = note_record_cnt s.
Proof.
  unfold read_note_record. unfold St.bind at 1. unfold fd_read.
  destruct (f_read (fd_of NoteDB s) 8) as [bytes fd]. unfold St.bind at 1.
  unfold St.lift at 1.
  destruct (unpack_L_B_3s bytes) as [[[offset attr] uid]|e|] eqn:E; try discriminate.
  destruct (unpack_entry_range _ _ _ _ E) as [Ho Hu].
  unfold St.bind at 1. unfold St.lift at 1.
  destruct (__str_to_Long uid) as [key|e|] eqn:Ekey; try discriminate.
  pose proof (str_to_Long_range_3 uid key Hu Ekey) as Hkey.
  unfold St.modify. intros [= <-]. exists key, offset.
  split; [exact Hkey|]. split; [exact Ho|].
  destruct s; split; reflexivity.
Qed.

(** The record count read at byte 76 of a database, and the instance after
    the two assignments that follow. *)
Lemma read_count (h : handle) (set_cnt : Z -> EyeModule -> EyeModule)
    (set_dict : gmap Z Z -> EyeModule -> EyeModule) {A} (k : Z -> M A)
    (s s' : EyeModule) (a : A) :
  (do! _ := fd_seek h 76 in
   do! bytes := fd_read h 2 in
   do! w := St.lift (unpack_2s bytes) in
   do! cnt := St.lift (__str_to_Word w) in
   do! _ := St.modify (set_cnt cnt) in
   do! _ := St.modify (set_dict ∅) in
   k cnt) s = (Ok a, s') ->
  exists cnt s0, 0 <= cnt < 2 ^ 16 /\ k cnt (set_dict ∅ (set_cnt cnt s0)) = (Ok a, s').
Proof.
  unfold St.bind at 1. destruct (fd_seek h 76 s) as [[[]|e|] s1]; try discriminate.
  unfold St.bind at 1. destruct (fd_read h 2 s1) as [[bytes|e|] s2]; try discriminate.
  unfold St.bind at 1. unfold St.lift at 1.
  destruct (unpack_2s bytes) as [w|e|]; try discriminate.
  unfold St.bind at 1. unfold St.lift at 1.
  destruct (__str_to_Word w) as [cnt|e|] eqn:Ecnt; try discriminate.
  unfold St.bind at 1. unfold St.modify at 1.
  unfold St.bind at 1. unfold St.modify at 1.
  intros Hk. exists cnt, s2. split; [now apply str_to_Word_range in Ecnt|exact Hk].
Qed.

Lemma init_vga_uids (s s' : EyeModule) :
  init_vga s = (Ok tt, s') ->
  0 <= vga_record_cnt s' < 2 ^ 16
  /\ uids_ok ((vga_record_cnt s' + 23) / 24) (rec_data_offset_vga_dict s').
Proof.
  unfold init_vga. intros Hrun.
  apply (read_count VGADB with_vga_record_cnt with_rec_data_offset_vga_dict) in Hrun.
  destruct Hrun as (cnt & s0 & Hcnt & Hfor).
  set (s1 := with_rec_data_offset_vga_dict ∅ (with_vga_record_cnt cnt s0)) in *.
  pose proof (for_invariant
                (fun j t => uids_ok (Z.of_nat j) (rec_data_offset_vga_dict t)
                            /\ vga_record_cnt t = cnt)
                (fun _ : Z => read_vga_record)) as Hinv.
  destruct (Hinv) with (l := xrange 0 cnt 24) (j := 0%nat) (s := s1) (s' := s')
    as [Hok Hc].
  - intros j a t t' [Hok Hc] Hread.
    destruct (read_vga_record_inserts t t' Hread) as (uid & offset & Hu & Ho & Hd & Hc').
    split; [|congruence]. rewrite Hd. now apply uids_ok_insert.
  - split; [|destruct s0; reflexivity].
    replace (rec_data_offset_vga_dict s1) with (∅ : gmap Z Z)
      by (destruct s0; reflexivity).
    apply uids_ok_empty.
  - exact Hfor.
  - rewrite Hc. split; [exact Hcnt|].
    rewrite length_xrange_24 in Hok by lia. simpl in Hok.
    unfold vga_groups in Hok. rewrite Z2Nat.id in Hok by (apply Z.div_pos; lia).
    exact Hok.
Qed.

Lemma init_note_uids (s s' : EyeModule) :
  init_note s = (Ok tt, s') ->
  0 <= note_record_cnt s' < 2 ^ 16
  /\ uids_ok (note_record_cnt s') (rec_data_offset_note_dict s').
Proof.
  unfold init_note. intros Hrun.
  apply (read_count NoteDB with_note_record_cnt with_rec_data_offset_note_dict) in Hrun.
  destruct Hrun as (cnt & s0 & Hcnt & Hfor).
  set (s1 := with_rec_data_offset_note_dict ∅ (with_note_record_cnt cnt s0)) in *.
  pose proof (for_invariant
                (fun j t => uids_ok (Z.of_nat j) (rec_data_offset_note_dict t)
                            /\ note_record_cnt t = cnt)
                (fun _ : Z => read_note_record)) as Hinv.
  destruct (Hinv) with (l := range cnt) (j := 0%nat) (s := s1) (s' := s')
    as [Hok Hc].
  - intros j a t t' [Hok Hc] Hread.
    destruct (read_note_record_inserts t t' Hread) as (uid & offset & Hu & Ho & Hd & Hc').
    split; [|congruence]. rewrite Hd. now apply uids_ok_insert.
  - split; [|destruct s0; reflexivity].
    replace (rec_data_offset_note_dict s1) with (∅ : gmap Z Z)
      by (destruct s0; reflexivity).
    apply uids_ok_empty.
  - exact Hfor.
  - rewrite Hc. split; [exact Hcnt|].
    rewrite length_range in Hok. simpl in Hok.
    rewrite Z2Nat.id in Hok by lia. exact Hok.
Qed.

Lemma index_nul_spec (s : pystr) (i : Z) :
  index_nul s = Ok i ->
  0 <= i < len s /\ Forall (fun c => ord c <> 0) (take (Z.to_nat i) s).
Proof.
  revert i. induction s as [|c s IH]; intros i; simpl; [discriminate|].
  destruct (Z.eqb_spec (ord c) 0) as [Hz|Hnz].
  - intros [= <-]. unfold len. simpl. split; [lia|constructor].
  - destruct (index_nul s) as [j|e|]; try discriminate. simpl.
    intros [= <-]. destruct (IH j eq_refl) as [Hj Hall].
    unfold len in *. simpl length. split; [lia|].
    replace (Z.to_nat (j + 1)) with (S (Z.to_nat j)) by lia.
    simpl. constructor; assumption.
Qed.

Lemma while_invariant {S} (I : S -> EyeModule -> Prop)
    (cond : S -> M bool) (body : S -> M S) :
  (forall s self b self', I s self -> cond s self = (Ok b, self') ->
     I s self'
     /\ (b = true -> forall s' self'', body s self' = (Ok s', self'') -> I s' self'')) ->
  forall (fuel : nat) (s : S) (self : EyeModule) (s' : S) (self' : EyeModule),
    I s self -> St.while_ fuel cond body s self = (Ok s', self') -> I s' self'.
Proof.
  intros Hstep. induction fuel as [|fuel IH]; intros s self s' self' HI;
    [discriminate|].
  cbn [St.while_]. unfold St.bind at 1.
  destruct (cond s self) as [[b|e|] self1] eqn:Econd; try discriminate.
  destruct (Hstep s self b self1 HI Econd) as [HI1 Hbody].
  destruct b.
  - unfold St.bind at 1.
    destruct (body s self1) as [[s1|e|] self2] eqn:Ebody; try discriminate.
    apply IH. now apply Hbody.
  - unfold St.ret. intros [= <- <-]. exact HI1.
Qed.

Lemma init_category_names_ok (fuel : nat) (appinfo_start : Z) (s s' : EyeModule) :
  init_category_names fuel appinfo_start s = (Ok tt, s') ->
  Forall name_ok (category_names s').
Proof.
  unfold init_category_names.
  unfold St.bind at 1. unfold St.modify at 1.
  unfold St.bind at 1.
  destruct (fd_seek DB _ _) as [[[]|e|] s1] eqn:Eseek; try discriminate.
  unfold St.bind at 1. unfold fd_read.
  destruct (f_read (fd_of DB s1) 16) as [category fd] eqn:Eread.
  unfold St.bind at 1.
  destruct (St.while_ _ _ _ _ _) as [[category'|e|] s2] eqn:Eloop; try discriminate.
  unfold St.ret. intros [= <-].
  pose proof (while_invariant
                (fun c t => len c <= 16 /\ Forall name_ok (category_names t))
                category_cond category_body) as Hinv.
  apply (Hinv) with (fuel := fuel) (s := category) (self := with_fd DB fd s1)
                    (s' := category') (self' := s2); [| |exact Eloop].
  - clear. intros c t b t' [Hlen Hnames] Hcond.
    destruct (category_cond_pure c t) as (r & Er & _).
    rewrite Er in Hcond. injection Hcond as -> <-.
    split; [split; assumption|]. intros -> c' t'.
    assert (Hfirst : exists c0 rest, c = c0 :: rest /\ ord c0 <> 0).
    { unfold category_cond in Er. unfold St.bind at 1 in Er.
      unfold St.lift at 1 in Er. destruct c as [|c0 rest]; [discriminate|].
      exists c0, rest. split; [reflexivity|].
      change (getitem (c0 :: rest) 0) with (Ok (A := byte) c0) in Er.
      cbn beta iota in Er.
      destruct (Z.eqb_spec (ord c0) 0); [|assumption].
      unfold St.ret in Er. discriminate Er. }
    destruct Hfirst as (c0 & rest & -> & Hc0).
    unfold category_body. unfold St.bind at 1. unfold St.lift at 1.
    destruct (index_nul (c0 :: rest)) as [i|e|] eqn:Ei; try discriminate.
    destruct (index_nul_spec _ _ Ei) as [Hi Hall].
    assert (Hi1 : 1 <= i).
    { simpl in Ei. replace (ord c0 =? 0) with false in Ei by lia.
      destruct (index_nul rest) as [j|e|] eqn:Ej; try discriminate.
      simpl in Ei. injection Ei as <-.
      apply index_nul_spec in Ej. lia. }
    unfold St.bind at 1. unfold St.modify at 1. unfold fd_read.
    destruct (f_read _ 16) as [c'' fd'] eqn:Eread.
    intros [= <- <-]. split.
    + unfold f_read in Eread. injection Eread as <- _.
      unfold len. rewrite length_take. lia.
    + replace (category_names (with_fd DB fd' _))
        with (category_names t ++ [slice_to (c0 :: rest) i])
        by (destruct t; reflexivity).
      apply Forall_app. split; [exact Hnames|]. constructor; [|constructor].
      unfold name_ok, slice_to. split; [|exact Hall].
      unfold len in *. rewrite length_take. lia.
  - split.
    + unfold f_read in Eread. injection Eread as <- _.
      unfold len. rewrite length_take. lia.
    + unfold fd_seek in Eseek. destruct (f_seek _ _); try discriminate.
      injection Eseek as <-.
      replace (category_names _) with (@nil pystr) by (destruct s; reflexivity).
      constructor.
Qed.

Lemma leaves_names_init_vga : leaves category_names init_vga.
Proof. unfold init_vga, read_vga_record. leaves_steps. Qed.

Lemma leaves_names_init_note : leaves category_names init_note.
Proof. unfold init_note, read_note_record. leaves_steps. Qed.

Lemma leaves_vga_init_note :
  leaves (fun s => (vga_record_cnt s, rec_data_offset_vga_dict s)) init_note.
Proof. unfold init_note, read_note_record. leaves_steps. Qed.

Lemma init_names_uids (emDB emVGADB emNoteDB : pystr) (self : EyeModule) :
  __init__ emDB emVGADB emNoteDB = Ok self ->
  Forall name_ok (category_names self)
  /\ 0 <= vga_record_cnt self < 2 ^ 16
  /\ uids_ok ((vga_record_cnt self + 23) / 24) (rec_data_offset_vga_dict self)
  /\ 0 <= note_record_cnt self < 2 ^ 16
  /\ uids_ok (note_record_cnt self) (rec_data_offset_note_dict self).
Proof.
  intros Hinit. unfold __init__ in Hinit.
  destruct (init_body _ _) as [[[]|e|] s] eqn:Ebody; try discriminate.
  injection Hinit as ->.
  unfold init_body in Ebody. unfold St.bind at 1 in Ebody.
  destruct (init_record_cnt _) as [[a|e|] s1]; try discriminate.
  unfold St.bind at 1 in Ebody.
  destruct (init_images s1) as [[[]|e|] s2]; try discriminate.
  unfold St.bind at 1 in Ebody.
  destruct (init_category_names _ a s2) as [[[]|e|] s3] eqn:Enames; try discriminate.
  unfold St.bind at 1 in Ebody.
  destruct (init_vga s3) as [[[]|e|] s4] eqn:Evga; try discriminate.
  pose proof (init_category_names_ok _ _ _ _ Enames) as Hnames.
  pose proof (leaves_names_init_vga s3) as Hn4. rewrite Evga in Hn4.
  pose proof (leaves_names_init_note s4) as Hn5. rewrite Ebody in Hn5.
  pose proof (leaves_vga_init_note s4) as Hv5. rewrite Ebody in Hv5.
  cbn [snd] in *. injection Hv5 as Hvc Hvd.
  destruct (init_vga_uids s3 s4 Evga) as [Hvcnt Hvga].
  destruct (init_note_uids s4 self Ebody) as [Hncnt Hnote].
  split; [now rewrite Hn5, Hn4|].
  split; [now rewrite Hvc|]. split; [now rewrite Hvc, Hvd|].
  split; [exact Hncnt|exact Hnote].
Qed.

Lemma init_vga_note_uids (emDB emVGADB emNoteDB : pystr) (self : EyeModule) :
  __init__ emDB emVGADB emNoteDB = Ok self ->
  uids_ok ((vga_record_cnt self + 23) / 24) (rec_data_offset_vga_dict self)
  /\ uids_ok (note_record_cnt self) (rec_data_offset_note_dict self).
Proof.
  intros Hinit.
  destruct (init_names_uids _ _ _ _ Hinit) as (_ & _ & Hv & _ & Hn). now split.
Qed.

(** X9. What holds of every instance the constructor returns.  The three
    files hold what they held when they were opened; the current image
    number is 0; the record count is below 2^16 and the image list is
    strictly ascending, lists the keys of the category dictionary and is no
    longer than the record count; the categories lie between 0 and 15; every
    category name is non-empty, at most 15 bytes long and free of NULs; the
    keys of the color index and of the note index are below 2^24, their
    offsets below 2^32, and the color index has at most one entry for every
    24 color records started, the note index at most one per note record. *)
Theorem constructed_instance (emDB emVGADB emNoteDB : pystr) (self : EyeModule) :
  __init__ emDB emVGADB emNoteDB = Ok self ->
  contents self = (emDB, emVGADB, emNoteDB)
  /\ cur_image self = 0
  /\ index_ok self
  /\ Forall name_ok (category_names self)
  /\ 0 <= vga_record_cnt self < 2 ^ 16
  /\ uids_ok ((vga_record_cnt self + 23) / 24) (rec_data_offset_vga_dict self)
  /\ 0 <= note_record_cnt self < 2 ^ 16
  /\ uids_ok (note_record_cnt self) (rec_data_offset_note_dict self).
Proof.
  intros Hinit. destruct (init_index_ok _ _ _ _ Hinit) as [Hindex Hcur].
  pose proof (init_names_uids _ _ _ _ Hinit) as Hrest.
  unfold __init__ in Hinit.
  pose proof (leaves_contents_init_body (category_fuel emDB)
                (fresh emDB emVGADB emNoteDB)) as Hdata.
  destruct (init_body _ _) as [[[]|e|] s] eqn:Ebody; try discriminate.
  injection Hinit as ->. cbn [snd] in Hdata.
  split; [exact Hdata|]. split; [exact Hcur|]. split; [exact Hindex|exact Hrest].
Qed.

Lemma constructed_instance_witness :
  cur_image Example.em = 0
  /\ Forall name_ok (category_names Example.em)
  /\ uids_ok 2 (rec_data_offset_vga_dict Example.em).
Proof.
  destruct (constructed_instance Example.emDB Example.emVGADB Example.emNoteDB
              Example.em ltac:(vm_compute; reflexivity))
    as (_ & Hcur & _ & Hnames & _ & Hvga & _).
  split; [exact Hcur|]. split; [exact Hnames|]. exact Hvga.
Defined.

(** ** Unique ids that the indices do not hold *)

Lemma extract_image_note_missing {host : Host} {pil : PIL} (fuel : nat)
    (self : EyeModule) (n off : Z) (header : header_dict) (category : pystr) :
  n <> -1 -> n < record_cnt self ->
  getitem (images self) n = Ok off -> 0 <= off ->
  header_of (header_bytes self off) = Ok header ->
  category_at self off = Ok category ->
  h_noteUID header <> 0 ->
  rec_data_offset_note_dict self !! h_noteUID header = None ->
  fst (extract_image fuel n self) = Raise (Exception KeyError).
Proof.
  intros Hn Hlt Hoff Hpos Hheader Hcat Hnote Hmissing.
  unfold extract_image. unfold St.bind at 1.
  rewrite resolve_explicit by assumption.
  unfold St.bind at 1.
  rewrite (get_header_run (with_cur_image n self) n off);
    [|exact Hn|now rewrite record_cnt_with_cur_image
     |now rewrite images_with_cur_image|exact Hpos].
  replace (header_bytes (with_cur_image n self) off) with (header_bytes self off)
    by (unfold header_bytes; now rewrite emDB_fd_with_cur_image).
  rewrite Hheader. cbn [returned Res.bind].
  set (s1 := with_fd DB _ _).
  unfold St.bind at 1.
  rewrite (category_of_run s1 n off)
    by (unfold s1; now rewrite images_with_fd, !images_with_cur_image).
  replace (category_at s1 off) with (category_at self off)
    by (destruct self; reflexivity).
  rewrite Hcat.
  replace (h_noteUID header =? 0) with false by lia. cbn [negb].
  unfold St.reraise. unfold St.bind at 1. unfold St.bind at 1.
  unfold St.gets at 1. unfold St.bind at 1. unfold St.lift at 1.
  unfold dict_getitem.
  replace (rec_data_offset_note_dict s1) with (rec_data_offset_note_dict self)
    by (destruct self; reflexivity).
  now rewrite Hmissing.
Qed.

(** X10. An image whose header names a color record or a note that the
    index does not hold cannot be fetched: when [firstVGARecUID] is not zero
    and not a key of the color index, [get_image] raises KeyError; when
    [noteUID] is not zero and not a key of the note index, [extract_image]
    raises the exception it wraps KeyError in.  The two fields of the header
    are four bytes wide, the keys of the indices three: on an instance built
    by the constructor no unique id from 2^24 on is a key. *)
Theorem missing_uid_raises {host : Host} {pil : PIL}
    (self : EyeModule) (n off : Z) (header : header_dict) (category : pystr) :
  n <> -1 -> n < record_cnt self ->
  getitem (images self) n = Ok off -> 0 <= off ->
  header_of (header_bytes self off) = Ok header ->
  category_at self off = Ok category ->
  (h_firstVGARecUID header <> 0 ->
   rec_data_offset_vga_dict self !! h_firstVGARecUID header = None ->
   fst (get_image n self) = Raise KeyError)
  /\ (h_noteUID header <> 0 ->
      rec_data_offset_note_dict self !! h_noteUID header = None ->
      forall fuel, fst (extract_image fuel n self) = Raise (Exception KeyError))
  /\ (forall emDB emVGADB emNoteDB uid,
        __init__ emDB emVGADB emNoteDB = Ok self -> 2 ^ 24 <= uid ->
        rec_data_offset_vga_dict self !! uid = None
        /\ rec_data_offset_note_dict self !! uid = None).
Proof.
  intros Hn Hlt Hoff Hpos Hheader Hcat. split; [|split].
  - intros Hvga Hmissing. rewrite (get_image_run self n off) by assumption.
    unfold image_at. rewrite Hheader, Hcat. cbn [Res.bind].
    replace (h_firstVGARecUID header =? 0) with false by lia. cbn [negb].
    unfold dict_getitem. now rewrite Hmissing.
  - intros Hnote Hmissing fuel.
    now apply (extract_image_note_missing fuel self n off header category).
  - intros emDB emVGADB emNoteDB uid Hinit Huid.
    destruct (init_vga_note_uids emDB emVGADB emNoteDB self Hinit) as [Hv Hnn].
    split.
    + destruct (rec_data_offset_vga_dict self !! uid) as [o|] eqn:E; [|reflexivity].
      destruct Hv as [_ Hv]. apply Hv in E. lia.
    + destruct (rec_data_offset_note_dict self !! uid) as [o|] eqn:E; [|reflexivity].
      destruct Hnn as [_ Hnn]. apply Hnn in E. lia.
Qed.

Lemma missing_uid_raises_witness :
  fst (get_image (host := Example.utc) (pil := Example.raw_pil) 0 Dangling.em)
  = Raise KeyError
  /\ fst (extract_image (host := Example.utc) (pil := Example.raw_pil) 9 1 Dangling.em)
     = Raise (Exception KeyError).
Proof.
  split.
  - destruct (header_of (host := Example.utc) (header_bytes Dangling.em 144))
      as [header| |] eqn:E; [|vm_compute in E; discriminate..].
    destruct (missing_uid_raises (host := Example.utc) (pil := Example.raw_pil)
                Dangling.em 0 144 header (list_byte_of_string "Unfiled"))
      as (Hvga & _).
    + discriminate.
    + vm_compute; reflexivity.
    + vm_compute; reflexivity.
    + lia.
    + exact E.
    + vm_compute; reflexivity.
    + apply Hvga.
      * vm_compute in E. injection E as <-. vm_compute. discriminate.
      * vm_compute in E. injection E as <-. vm_compute. reflexivity.
  - destruct (header_of (host := Example.utc) (header_bytes Dangling.em 204))
      as [header| |] eqn:E; [|vm_compute in E; discriminate..].
    destruct (missing_uid_raises (host := Example.utc) (pil := Example.raw_pil)
                Dangling.em 1 204 header (list_byte_of_string "Work"))
      as (_ & Hnote & _).
    + discriminate.
    + vm_compute; reflexivity.
    + vm_compute; reflexivity.
    + lia.
    + exact E.
    + vm_compute; reflexivity.
    + apply Hnote.
      * vm_compute in E. injection E as <-. vm_compute. discriminate.
      * vm_compute in E. injection E as <-. vm_compute. reflexivity.
Defined.

(** ** The note index *)

Lemma read_note_record_step (pre post : pystr) (e : Z * Z * Z) (self : EyeModule) :
  entry_ok e ->
  emNoteDB_fd self = mkfile (pre ++ record_entry e ++ post) (len pre) ->
  exists self',
    read_note_record self = (Ok tt, self')
    /\ emNoteDB_fd self' = mkfile (pre ++ record_entry e ++ post) (len pre + 8)
    /\ rec_data_offset_note_dict self'
       = <[entry_uid e := entry_offset e]> (rec_data_offset_note_dict self)
    /\ note_record_cnt self' = note_record_cnt self.
Proof.
  intros Hok Hfd.
  assert (Hlen : len (record_entry e) = 8)
    by (unfold len; now rewrite length_record_entry).
  destruct self as [fa fb fc cur cnt d im cat vc vd nc nd].
  cbn [emNoteDB_fd] in Hfd. subst fc.
  unfold read_note_record. unfold St.bind at 1.
  unfold fd_read. cbn [fd_of emNoteDB_fd].
  rewrite <- Hlen. rewrite f_read_app. rewrite Hlen.
  cbn [with_fd]. unfold St.bind at 1. unfold St.lift at 1.
  destruct e as [[o a] u]. rewrite (unpack_record_entry o a u Hok).
  destruct Hok as (_ & _ & Hu).
  unfold St.bind at 1. unfold St.lift at 1. rewrite (str_to_Long_be_bytes u Hu).
  unfold St.modify. eexists. split; [reflexivity|]. repeat split.
Qed.

(** The loop over the record list of the note database. *)
Lemma read_note_records (entries : list (Z * Z * Z)) (post : pystr) :
  forall (pre : pystr) (l : list Z) (self : EyeModule),
  length l = length entries ->
  Forall entry_ok entries ->
  emNoteDB_fd self = mkfile (pre ++ flat_map record_entry entries ++ post) (len pre) ->
  exists self',
    St.for_ l (fun _ => read_note_record) self = (Ok tt, self')
    /\ emNoteDB_fd self'
       = mkfile (pre ++ flat_map record_entry entries ++ post)
           (len pre + 8 * len entries)
    /\ rec_data_offset_note_dict self'
       = uid_index entries (rec_data_offset_note_dict self)
    /\ note_record_cnt self' = note_record_cnt self.
Proof.
  induction entries as [|e entries IH]; intros pre l self Hl Hok Hfd.
  - destruct l; [|discriminate]. exists self. simpl.
    repeat split. rewrite Hfd. f_equal. unfold len. simpl. lia.
  - destruct l as [|i l]; [discriminate|]. injection Hl as Hl.
    apply Forall_cons in Hok as [He Hok].
    simpl flat_map in *. rewrite <- app_assoc in Hfd.
    destruct (read_note_record_step pre _ e self He Hfd)
      as (s1 & E1 & Hfd1 & Hd1 & Hc1).
    cbn [St.for_]. unfold St.bind at 1. rewrite E1.
    destruct (IH (pre ++ record_entry e) l s1 Hl Hok) as (s2 & E2 & Hfd2 & Hd2 & Hc2).
    { rewrite Hfd1, <- !app_assoc. f_equal.
      rewrite len_app. unfold len. now rewrite length_record_entry. }
    exists s2. split; [exact E2|]. split; [|split].
    + rewrite Hfd2, <- !app_assoc. f_equal.
      rewrite len_app. unfold len. rewrite length_record_entry. simpl length. lia.
    + rewrite Hd2, Hd1. reflexivity.
    + congruence.
Qed.

Lemma init_note_pdb_file (appinfo_start : Z) (entries : list (Z * Z * Z))
    (rest : pystr) (s : EyeModule) :
  len entries < 2 ^ 16 ->
  Forall entry_ok entries ->
  f_data (emNoteDB_fd s) = pdb_file appinfo_start entries rest ->
  exists self,
    init_note s = (Ok tt, self)
    /\ note_record_cnt self = len entries
    /\ rec_data_offset_note_dict self = uid_index entries ∅
    /\ emNoteDB_fd self
       = mkfile (pdb_file appinfo_start entries rest) (78 + 8 * len entries).
Proof.
  intros Hn Hok Hdata. pose proof (len_nonneg entries) as Hn0.
  destruct s as [fa fb [data pos] cur cnt d im cat vc vd nc nd].
  cbn [emNoteDB_fd f_data] in Hdata. subst data.
  set (data := pdb_file appinfo_start entries rest).
  unfold init_note.
  unfold St.bind at 1. unfold fd_seek at 1.
  cbn [fd_of f_seek f_data f_pos emNoteDB_fd Z.ltb Z.compare with_fd].
  unfold St.bind at 1. unfold fd_read at 1.
  cbn [fd_of f_data f_pos emNoteDB_fd with_fd].
  rewrite (f_read_at data (zeros 52 ++ be_bytes 4 appinfo_start ++ zeros 20)
             (be_bytes 2 (len entries))
             (flat_map record_entry entries ++ rest) 76 2);
    [|unfold data, pdb_file, pdb_preamble; now rewrite <- !app_assoc
     |reflexivity|reflexivity].
  cbn [with_fd]. unfold St.bind at 1. unfold St.lift at 1.
  replace (unpack_2s (be_bytes 2 (len entries))) with (Ok (be_bytes 2 (len entries)))
    by reflexivity.
  unfold St.bind at 1. unfold St.lift at 1.
  rewrite str_to_Word_be_bytes by lia.
  unfold St.bind at 1. unfold St.modify at 1. cbn [with_note_record_cnt].
  unfold St.bind at 1. unfold St.modify at 1. cbn [with_rec_data_offset_note_dict].
  match goal with
  | |- context [St.for_ _ _ ?s] =>
      destruct (read_note_records entries rest
                  (pdb_preamble appinfo_start (len entries))
                  (range (len entries)) s)
        as (s2 & E & Hfd & Hd & Hc)
  end.
  { rewrite length_range. unfold len. lia. }
  { exact Hok. }
  { reflexivity. }
  exists s2. split; [exact E|]. cbn in Hd, Hc.
  split; [exact Hc|]. split; [exact Hd|].
  rewrite Hfd, len_pdb_preamble. reflexivity.
Qed.

(** Of the entries with one unique id the last one counts. *)
Lemma uid_index_last (before after : list (Z * Z * Z)) (e : Z * Z * Z) (d : gmap Z Z) :
  entry_uid e ∉ map entry_uid after ->
  uid_index (before ++ e :: after) d !! entry_uid e = Some (entry_offset e).
Proof.
  intros Hlast. unfold uid_index. rewrite fold_left_app. simpl.
  fold (uid_index after (<[entry_uid e:=entry_offset e]>
                           (fold_left (fun d e => <[entry_uid e := entry_offset e]> d)
                              before d))).
  rewrite uid_index_other by assumption. apply lookup_insert_eq.
Qed.

Lemma uid_index_keys (entries : list (Z * Z * Z)) (d : gmap Z Z) (k : Z) :
  is_Some (uid_index entries d !! k)
  <-> k ∈ map entry_uid entries \/ is_Some (d !! k).
Proof.
  revert d. induction entries as [|e entries IH]; intros d; simpl.
  - rewrite elem_of_nil. tauto.
  - unfold uid_index in *. simpl. rewrite IH. rewrite elem_of_cons.
    destruct (decide (entry_uid e = k)) as [->|Hne].
    + rewrite lookup_insert_eq. split; [intros _; left; now left|eauto].
    + rewrite lookup_insert_ne by assumption.
      split; [tauto|]. intros [[Heq|Hin]|Hd]; [congruence|tauto|tauto].
Qed.

(** X11. The note index built from a note database with the record list
    [entries]: every entry is read, eight bytes after eight bytes from byte
    78 on, and its data offset is filed under its unique id.  The unique ids
    of the entries are the keys of the index, no other number is; of several
    entries with one unique id the last one counts. *)
Theorem note_index_of_pdb_file (appinfo_start : Z) (entries : list (Z * Z * Z))
    (rest : pystr) (s : EyeModule) :
  len entries < 2 ^ 16 ->
  Forall entry_ok entries ->
  f_data (emNoteDB_fd s) = pdb_file appinfo_start entries rest ->
  exists self,
    init_note s = (Ok tt, self)
    /\ note_record_cnt self = len entries
    /\ f_pos (emNoteDB_fd self) = 78 + 8 * len entries
    /\ (forall uid, is_Some (rec_data_offset_note_dict self !! uid)
                    <-> uid ∈ map entry_uid entries)
    /\ (forall before e after,
          entries = before ++ e :: after ->
          entry_uid e ∉ map entry_uid after ->
          rec_data_offset_note_dict self !! entry_uid e = Some (entry_offset e)).
Proof.
  intros Hn Hok Hdata.
  destruct (init_note_pdb_file appinfo_start entries rest s Hn Hok Hdata)
    as (self & E & Hcnt & Hd & Hfd).
  exists self. split; [exact E|]. split; [exact Hcnt|].
  split; [now rewrite Hfd|]. split.
  - intros uid. rewrite Hd, uid_index_keys.
    split; [intros [H|H]; [exact H|]|tauto].
    rewrite lookup_empty in H. now destruct H.
  - intros before e after -> Hlast. rewrite Hd. now apply uid_index_last.
Qed.

Lemma note_index_of_pdb_file_witness :
  exists self,
    init_note (fresh Example.emDB Example.emVGADB Example.emNoteDB) = (Ok tt, self)
    /\ note_record_cnt self = 1
    /\ rec_data_offset_note_dict self !! 5 = Some 86.
Proof.
  destruct (note_index_of_pdb_file 0 [(86, 0, 5)]
              (list_byte_of_string "hello" ++ [x00])
              (fresh Example.emDB Example.emVGADB Example.emNoteDB))
    as (self & E & Hcnt & _ & _ & Hlook).
  - vm_compute; reflexivity.
  - repeat constructor; vm_compute; discriminate.
  - reflexivity.
  - exists self. split; [exact E|]. split; [exact Hcnt|].
    apply (Hlook [] (86, 0, 5) []); [reflexivity|]. apply not_elem_of_nil.
Defined.

(** ** The names of the categories *)

Lemma length_pad_to_16 (name : pystr) :
  name_ok name -> length (pad_to 16 name) = 16%nat.
Proof.
  intros [Hlen _]. unfold pad_to, zeros, len in *.
  rewrite length_app, repeat_length. lia.
Qed.

Lemma take_16_names (names : list pystr) (slot rest : pystr) :
  Forall name_ok names -> length slot = 16%nat ->
  take 16 (flat_map (pad_to 16) names ++ slot ++ rest)
  = take 16 (flat_map (pad_to 16) names ++ slot)
  /\ length (take 16 (flat_map (pad_to 16) names ++ slot)) = 16%nat.
Proof.
  intros Hnames Hslot. destruct Hnames as [|name names Hname _].
  - simpl flat_map. rewrite !app_nil_l.
    rewrite take_app_length' by (symmetry; assumption).
    rewrite take_ge by lia. split; [reflexivity|assumption].
  - simpl flat_map. rewrite <- !app_assoc.
    pose proof (length_pad_to_16 name Hname) as Hpad.
    rewrite !take_app_length' by (symmetry; assumption). split; [reflexivity|assumption].
Qed.

Lemma category_loop_names (slot rest : pystr) (first : Z) :
  length slot = 16%nat ->
  forall (names : list pystr) (pre : pystr) (fuel : nat) (s : EyeModule),
  Forall name_ok names ->
  emDB_fd s
  = mkfile (pre ++ flat_map (pad_to 16) names ++ slot ++ rest) (len pre + 16) ->
  getitem (images s) 0 = Ok first ->
  len pre + 16 * len names < first ->
  ord (nth 0 slot x00) = 0 \/ first <= len pre + 16 * (len names + 1) ->
  (length names < fuel)%nat ->
  exists s',
    St.while_ fuel category_cond category_body
      (take 16 (flat_map (pad_to 16) names ++ slot)) s = (Ok slot, s')
    /\ category_names s' = category_names s ++ names.
Proof.
  intros Hslot. induction names as [|name names IH];
    intros pre fuel s Hnames Hfd Hfirst Hbelow Hstop Hfuel.
  - simpl flat_map. rewrite app_nil_l. rewrite take_ge by lia.
    destruct fuel as [|fuel]; [simpl in Hfuel; lia|].
    exists s. split; [|now rewrite app_nil_r].
    cbn [St.while_]. unfold St.bind at 1. unfold category_cond.
    unfold St.bind at 1. unfold St.lift at 1.
    destruct slot as [|c slot']; [discriminate|].
    change (getitem (c :: slot') 0) with (Ok (A := byte) c).
    simpl nth in Hstop. cbn beta iota.
    destruct (Z.eqb_spec (ord c) 0) as [Hz|Hnz]; [reflexivity|].
    destruct Hstop as [Hz|Hpos]; [contradiction|].
    unfold St.bind, fd_tell, St.gets, St.lift, St.ret, f_tell. cbn [fd_of].
    rewrite Hfd, Hfirst. cbn [f_pos]. change (len (@nil pystr)) with 0 in Hpos.
    now replace (len pre + 16 <? first) with false by lia.
  - apply Forall_cons in Hnames as [Hname Hnames].
    pose proof (length_pad_to_16 name Hname) as Hpad.
    destruct Hname as [Hlen Hnonul].
    simpl flat_map in Hfd |- *. rewrite <- !app_assoc in Hfd |- *.
    rewrite take_app_length' by (symmetry; assumption).
    destruct fuel as [|fuel]; [simpl in Hfuel; lia|].
    assert (Hlen_names : len (name :: names) = len names + 1)
      by (unfold len; simpl length; lia).
    rewrite Hlen_names in *. pose proof (len_nonneg names) as Hn0.
    cbn [St.while_]. unfold St.bind at 1. unfold category_cond at 1.
    unfold St.bind at 1. unfold St.lift at 1.
    destruct name as [|c name']; [unfold len in Hlen; simpl in Hlen; lia|].
    change (getitem (pad_to 16 (c :: name')) 0) with (Ok (A := byte) c).
    cbn beta iota. apply Forall_cons in Hnonul as [Hc Hnonul'].
    replace (ord c =? 0) with false by lia.
    unfold St.bind at 1. unfold fd_tell at 1, St.gets at 1, f_tell. cbn [fd_of].
    unfold St.bind at 1. unfold St.gets at 1.
    unfold St.bind at 1. unfold St.lift at 1. rewrite Hfirst, Hfd. cbn [f_pos].
    unfold St.ret at 1.
    replace (len pre + 16 <? first) with true by lia.
    unfold St.bind at 1. unfold category_body at 1.
    unfold St.bind at 1. unfold St.lift at 1.
    assert (Hindex : index_nul (pad_to 16 (c :: name')) = Ok (len (c :: name'))).
    { unfold pad_to, zeros. unfold len in Hlen.
      replace (16 - length (c :: name'))%nat
        with (S (15 - length (c :: name'))) by lia.
      cbn [repeat]. apply index_nul_first. now constructor. }
    rewrite Hindex.
    unfold St.bind at 1. unfold St.modify at 1.
    assert (Hslice : slice_to (pad_to 16 (c :: name')) (len (c :: name')) = c :: name').
    { unfold slice_to, pad_to, len. rewrite Nat2Z.id. now rewrite take_app_length. }
    rewrite Hslice.
    destruct (take_16_names names slot rest Hnames Hslot) as [Htake Hlen16].
    set (data := pre ++ pad_to 16 (c :: name')
                 ++ flat_map (pad_to 16) names ++ slot ++ rest) in *.
    destruct s as [fa fb fc cur cnt d im cat vc vd nc nd].
    cbn [emDB_fd images category_names] in *. subst fa.
    unfold fd_read, f_read.
    cbn [with_category_names category_names fd_of f_data f_pos with_fd emDB_fd].
    assert (Hdrop : drop (Z.to_nat (len pre + 16)) data
                    = flat_map (pad_to 16) names ++ slot ++ rest).
    { unfold data. rewrite app_assoc. apply drop_app_length'.
      rewrite length_app, Hpad. unfold len. lia. }
    rewrite Hdrop. change (Z.to_nat 16) with 16%nat. rewrite Htake.
    assert (Hl16 : len (take 16 (flat_map (pad_to 16) names ++ slot)) = 16)
      by (unfold len; rewrite Hlen16; reflexivity).
    rewrite Hl16.
    assert (Hlp : len (pre ++ pad_to 16 (c :: name')) = len pre + 16)
      by (unfold len; rewrite length_app, Hpad; lia).
    destruct (IH (pre ++ pad_to 16 (c :: name')) fuel
                (mkEyeModule (mkfile data (len pre + 16 + 16)) fb fc cur cnt d im
                   (cat ++ [c :: name']) vc vd nc nd))
      as (s' & Hrun & Hcat).
    + exact Hnames.
    + cbn [emDB_fd]. unfold data. rewrite <- !app_assoc. f_equal.
      rewrite Hlp. lia.
    + exact Hfirst.
    + rewrite Hlp. lia.
    + rewrite Hlp. destruct Hstop as [Hz|Hpos]; [now left|right; lia].
    + simpl in Hfuel. lia.
    + exists s'. split; [exact Hrun|].
      rewrite Hcat. cbn [category_names]. now rewrite <- app_assoc.
Qed.

Lemma sorted_distinct_head (l : list Z) :
  l <> [] ->
  exists m, getitem (sorted_distinct l) 0 = Ok m
            /\ m ∈ l /\ forall x, x ∈ l -> m <= x.
Proof.
  intros Hne. destruct (sorted_distinct_spec l) as (Hsorted & Hmem & _).
  destruct (sorted_distinct l) as [|m tl] eqn:E.
  - destruct l as [|x l]; [contradiction|].
    assert (Hx : x ∈ @nil Z) by (apply Hmem; left).
    now apply elem_of_nil in Hx.
  - exists m. split; [reflexivity|]. split; [apply Hmem; left|].
    intros x Hx. apply Hmem in Hx. apply StronglySorted_inv in Hsorted as [_ Hall].
    apply elem_of_cons in Hx as [->|Hx]; [lia|].
    rewrite Forall_forall in Hall. specialize (Hall x Hx). lia.
Qed.

Lemma length_flat_map_pad (names : list pystr) :
  Forall name_ok names ->
  length (flat_map (pad_to 16) names) = (16 * length names)%nat.
Proof.
  induction 1 as [|name names Hname _ IH]; [reflexivity|].
  simpl. rewrite length_app, IH, (length_pad_to_16 name Hname). lia.
Qed.

(** The names read from a main database whose appinfo block lies after
    the record list. *)
Lemma init_category_names_pdb_file (appinfo_start : Z) (entries : list (Z * Z * Z))
    (gap : pystr) (names : list pystr) (slot rest : pystr) (fuel : nat)
    (s : EyeModule) (first : Z) :
  0 <= appinfo_start ->
  78 + 8 * len entries + len gap = appinfo_start + 2 ->
  Forall name_ok names -> length slot = 16%nat ->
  f_data (emDB_fd s)
  = pdb_file appinfo_start entries (gap ++ flat_map (pad_to 16) names ++ slot ++ rest) ->
  getitem (images s) 0 = Ok first ->
  appinfo_start + 2 + 16 * len names < first ->
  ord (nth 0 slot x00) = 0 \/ first <= appinfo_start + 2 + 16 * (len names + 1) ->
  (length names < fuel)%nat ->
  exists s',
    init_category_names fuel appinfo_start s = (Ok tt, s')
    /\ category_names s' = names.
Proof.
  intros Ha Hgap Hnames Hslot Hdata Hfirst Hbelow Hstop Hfuel.
  set (pre := pdb_preamble appinfo_start (len entries)
              ++ flat_map record_entry entries ++ gap).
  assert (Hpre : len pre = appinfo_start + 2).
  { unfold pre. rewrite !len_app, len_pdb_preamble, len_flat_map_entries. lia. }
  assert (Hfile : pdb_file appinfo_start entries
                    (gap ++ flat_map (pad_to 16) names ++ slot ++ rest)
                  = pre ++ flat_map (pad_to 16) names ++ slot ++ rest).
  { unfold pdb_file, pre. now rewrite <- !app_assoc. }
  rewrite Hfile in Hdata. clear Hfile.
  destruct (take_16_names names slot rest Hnames Hslot) as [Htake Hlen16].
  destruct s as [[data pos] fb fc cur cnt d im cat vc vd nc nd].
  cbn [emDB_fd f_data images] in *. subst data.
  unfold init_category_names.
  unfold St.bind at 1. unfold St.modify at 1. cbn [with_category_names].
  unfold St.bind at 1. unfold fd_seek, f_seek. cbn [fd_of emDB_fd f_data].
  replace (appinfo_start + 2 <? 0) with false by lia. cbn [with_fd].
  unfold St.bind at 1. unfold fd_read, f_read. cbn [fd_of emDB_fd f_data f_pos with_fd].
  rewrite <- Hpre.
  replace (drop (Z.to_nat (len pre)) (pre ++ flat_map (pad_to 16) names ++ slot ++ rest))
    with (flat_map (pad_to 16) names ++ slot ++ rest)
    by (unfold len; rewrite Nat2Z.id; now rewrite drop_app_length).
  change (Z.to_nat 16) with 16%nat. rewrite Htake.
  replace (len (take 16 (flat_map (pad_to 16) names ++ slot))) with 16
    by (unfold len; now rewrite Hlen16).
  unfold St.bind at 1.
  match goal with
  | |- context [St.while_ _ _ _ _ ?s] =>
      destruct (category_loop_names slot rest first Hslot names pre fuel s)
        as (s' & Hrun & Hcat)
  end.
  - exact Hnames.
  - reflexivity.
  - exact Hfirst.
  - lia.
  - destruct Hstop as [Hz|Hpos]; [now left|right; lia].
  - exact Hfuel.
  - rewrite Hrun. exists s'. split; [reflexivity|]. exact Hcat.
Qed.

(** X12. The category names of a main database.  Let the appinfo block
    lie behind the record list and hold, from its third byte on, the names
    of [names], each in a field of 16 bytes filled up with NULs, followed by
    16 more bytes; let the data of every record start behind the fields of
    the names.  When the first of the 16 bytes that follow is NUL, or when
    the data of a record starts no later than where these 16 bytes end, the
    instance that the constructor returns has exactly the names of [names],
    in their order. *)
Theorem category_names_of_pdb_file (appinfo_start : Z) (entries : list (Z * Z * Z))
    (gap : pystr) (names : list pystr) (slot rest emVGADB emNoteDB : pystr)
    (self : EyeModule) :
  0 <= appinfo_start < 2 ^ 32 ->
  len entries < 2 ^ 16 ->
  Forall entry_ok entries ->
  entries <> [] ->
  78 + 8 * len entries + len gap = appinfo_start + 2 ->
  Forall name_ok names ->
  length slot = 16%nat ->
  (forall e, e ∈ entries -> appinfo_start + 2 + 16 * len names < entry_offset e) ->
  (ord (nth 0 slot x00) = 0
   \/ exists e, e ∈ entries
                /\ entry_offset e <= appinfo_start + 2 + 16 * (len names + 1)) ->
  __init__ (pdb_file appinfo_start entries
              (gap ++ flat_map (pad_to 16) names ++ slot ++ rest))
    emVGADB emNoteDB = Ok self ->
  category_names self = names.
Proof.
  intros Ha Hn Hok Hne Hgap Hnames Hslot Hbelow Hstop.
  unfold __init__. rewrite init_body_index. unfold St.bind at 1.
  destruct (init_index_pdb_file appinfo_start entries
              (gap ++ flat_map (pad_to 16) names ++ slot ++ rest)
              emVGADB emNoteDB Ha Hn Hok)
    as (s & -> & Him & _ & _ & _ & Hfd & _).
  destruct (sorted_distinct_head (map entry_offset entries)) as (first & Hfirst & Hin & Hmin).
  { destruct entries; [contradiction|discriminate]. }
  set (data := pdb_file appinfo_start entries
                 (gap ++ flat_map (pad_to 16) names ++ slot ++ rest)) in *.
  assert (Hfuel : (length names < category_fuel data)%nat).
  { unfold category_fuel, data, pdb_file.
    rewrite !length_app, (length_flat_map_pad names Hnames). lia. }
  destruct (init_category_names_pdb_file appinfo_start entries gap names slot rest
              (category_fuel data) s first)
    as (s' & Hrun & Hcat); try assumption.
  - lia.
  - now rewrite Hfd.
  - now rewrite Him.
  - apply list_elem_of_fmap in Hin as (e & -> & He). now apply Hbelow.
  - destruct Hstop as [Hz|(e & He & Hle)]; [now left|right].
    assert (first <= entry_offset e); [|lia].
    apply Hmin. apply list_elem_of_fmap. now exists e.
  - unfold St.bind at 1. rewrite Hrun. unfold St.bind at 1.
    pose proof (leaves_names_init_vga s') as Hv.
    destruct (init_vga s') as [[[]|e|] s4]; try discriminate.
    pose proof (leaves_names_init_note s4) as Hnn.
    destruct (init_note s4) as [[[]|e|] s5]; try discriminate.
    intros [= <-]. cbn [snd] in *. congruence.
Qed.

Lemma category_names_of_pdb_file_witness :
  category_names Example.em
  = [list_byte_of_string "Unfiled"; list_byte_of_string "Work"].
Proof.
  apply (category_names_of_pdb_file 102 Example.entries (zeros 2)
           [list_byte_of_string "Unfiled"; list_byte_of_string "Work"]
           (zeros 16)
           (image_header "first" 0 0 0 2 2 ++ [xf0; x00]
            ++ image_header "second" 0 5 86400 2 2 ++ [x12; x34]
            ++ image_header "third" 0 0 3000000000 2 2 ++ [xff; x0f])
           Example.emVGADB Example.emNoteDB).
  - lia.
  - vm_compute; reflexivity.
  - repeat constructor; vm_compute; discriminate.
  - discriminate.
  - reflexivity.
  - repeat constructor; vm_compute; discriminate.
  - reflexivity.
  - intros e He. unfold Example.entries in He.
    repeat (apply elem_of_cons in He as [->|He]; [vm_compute; reflexivity|]).
    now apply elem_of_nil in He.
  - left. reflexivity.
  - vm_compute; reflexivity.
Defined.

(** ** Databases that are cut short *)

Ltac eqb_lengths :=
  repeat match goal with
         | |- context [Z.of_nat ?n =? ?m] => change (Z.of_nat n =? m) with true
         end;
  cbn beta iota.

Lemma f_read_sub (data : pystr) (pos n : Z) :
  0 <= pos -> 0 <= n -> pos + n <= len data ->
  f_read (mkfile data pos) n
  = (sub data (Z.to_nat pos) (Z.to_nat n), mkfile data (pos + n)).
Proof.
  intros Hpos Hn Hlen. unfold f_read, sub. cbn [f_data f_pos].
  f_equal. f_equal. unfold len in *. rewrite length_take, length_drop. lia.
Qed.

Lemma f_read_short (data : pystr) (pos n : Z) :
  0 <= pos -> 0 < n -> len data < pos + n ->
  len (fst (f_read (mkfile data pos) n)) < n.
Proof.
  intros Hpos Hn Hlen. unfold f_read. cbn [f_data f_pos fst]. unfold len in *.
  rewrite length_take, length_drop. lia.
Qed.

Lemma init_record_cnt_short (s : EyeModule) :
  len (f_data (emDB_fd s)) < 78 ->
  fst (init_record_cnt s) = Raise StructError.
Proof.
  intros Hlen. destruct s as [[data pos] fb fc cur cnt d im cat vc vd nc nd].
  cbn [emDB_fd f_data] in Hlen.
  unfold init_record_cnt.
  unfold St.bind at 1. unfold fd_seek at 1.
  cbn [fd_of f_seek f_data f_pos emDB_fd Z.ltb Z.compare with_fd].
  unfold St.bind at 1. unfold fd_read at 1.
  cbn [fd_of f_data f_pos emDB_fd with_fd].
  destruct (Z_lt_le_dec (len data) 56) as [H56|H56].
  - pose proof (f_read_short data 52 4 ltac:(lia) ltac:(lia) ltac:(lia)) as Hshort.
    destruct (f_read (mkfile data 52) 4) as [bytes fd]. cbn [fst] in Hshort.
    unfold St.bind at 1. unfold St.lift at 1. unfold unpack_L.
    now replace (len bytes =? 4) with false by lia.
  - rewrite (f_read_sub data 52 4) by lia. cbn [with_fd].
    change (Z.to_nat 52) with 52%nat. change (Z.to_nat 4) with 4%nat.
    unfold St.bind at 1. unfold St.lift at 1. unfold unpack_L.
    rewrite len_sub by (unfold len in *; lia). eqb_lengths.
    unfold St.bind at 1. unfold fd_seek at 1.
    cbn [fd_of f_seek f_data f_pos emDB_fd Z.ltb Z.compare with_fd].
    unfold St.bind at 1. unfold fd_read at 1.
    cbn [fd_of f_data f_pos emDB_fd with_fd].
    pose proof (f_read_short data 76 2 ltac:(lia) ltac:(lia) ltac:(lia)) as Hshort.
    destruct (f_read (mkfile data 76) 2) as [bytes fd]. cbn [fst] in Hshort.
    unfold St.bind at 1. unfold St.lift at 1. unfold unpack_2s.
    now replace (len bytes =? 2) with false by lia.
Qed.

Lemma init_record_cnt_run (s : EyeModule) :
  78 <= len (f_data (emDB_fd s)) ->
  init_record_cnt s
  = (Ok (be_uint (sub (f_data (emDB_fd s)) 52 4)),
     with_record_cnt (be_uint (sub (f_data (emDB_fd s)) 76 2))
       (with_fd DB (mkfile (f_data (emDB_fd s)) 78) s)).
Proof.
  intros Hlen. destruct s as [[data pos] fb fc cur cnt d im cat vc vd nc nd].
  cbn [emDB_fd f_data] in *.
  unfold init_record_cnt.
  unfold St.bind at 1. unfold fd_seek at 1.
  cbn [fd_of f_seek f_data f_pos emDB_fd Z.ltb Z.compare with_fd].
  unfold St.bind at 1. unfold fd_read at 1.
  cbn [fd_of f_data f_pos emDB_fd with_fd].
  rewrite (f_read_sub data 52 4) by lia. cbn [with_fd].
    change (Z.to_nat 52) with 52%nat. change (Z.to_nat 4) with 4%nat.
  unfold St.bind at 1. unfold St.lift at 1. unfold unpack_L.
  rewrite len_sub by (unfold len in *; lia).
  eqb_lengths.
  unfold St.bind at 1. unfold fd_seek at 1.
  cbn [fd_of f_seek f_data f_pos emDB_fd Z.ltb Z.compare with_fd].
  unfold St.bind at 1. unfold fd_read at 1.
  cbn [fd_of f_data f_pos emDB_fd with_fd].
  rewrite (f_read_sub data 76 2) by lia. cbn [with_fd].
  change (Z.to_nat 76) with 76%nat. change (Z.to_nat 2) with 2%nat.
  unfold St.bind at 1. unfold St.lift at 1. unfold unpack_2s.
  rewrite len_sub by (unfold len in *; lia).
  eqb_lengths.
  unfold St.bind at 1. unfold St.lift at 1.
  destruct (str_to_Word_value (sub data 76 2)) as [-> _];
    [apply len_sub; unfold len in *; lia|].
  reflexivity.
Qed.

(** The loop over a record list that the file does not hold in full. *)
Lemma read_image_records_short (k : nat) :
  forall (l : list Z) (s : EyeModule),
  length l = S k ->
  0 <= f_pos (emDB_fd s) ->
  len (f_data (emDB_fd s)) < f_pos (emDB_fd s) + 8 * Z.of_nat (S k) ->
  fst (St.for_ l (fun _ => read_image_record) s) = Raise StructError.
Proof.
  induction k as [|k IH]; intros l s Hl Hpos Hlen;
    (destruct l as [|i l]; [discriminate|]); injection Hl as Hl;
    cbn [St.for_]; unfold St.bind at 1; unfold read_image_record at 1;
    unfold St.bind at 1; unfold fd_read;
    destruct s as [[data pos] fb fc cur cnt d im cat vc vd nc nd];
    cbn [emDB_fd f_data f_pos fd_of] in *;
    (destruct (Z_lt_le_dec (len data) (pos + 8)) as [Hshort|Hfull];
     [pose proof (f_read_short data pos 8 Hpos ltac:(lia) Hshort) as Hs;
      destruct (f_read (mkfile data pos) 8) as [bytes fd]; cbn [fst] in Hs;
      unfold St.bind at 1; unfold St.lift at 1; unfold unpack_L_B_3s;
      now replace (len bytes =? 8) with false by lia|]).
  - lia.
  - rewrite (f_read_sub data pos 8) by lia. cbn [with_fd].
    change (Z.to_nat 8) with 8%nat.
    unfold St.bind at 1. unfold St.lift at 1. unfold unpack_L_B_3s.
    rewrite len_sub by (unfold len in *; lia). eqb_lengths.
    unfold St.modify. cbn [with_rec_data_offset_dict rec_data_offset_dict].
    apply IH; [exact Hl|cbn [emDB_fd f_pos]; lia|cbn [emDB_fd f_data f_pos]; lia].
Qed.

(** X13. The constructor on a main database that is cut short or empty.
    A file of fewer than 78 bytes, and a file that ends inside the record
    list its record count announces, make [struct.unpack] raise its error.
    A file without records whose first category field does not start with
    NUL makes the constructor raise IndexError: the loop over the category
    names asks for the first entry of the empty image list. *)
Theorem constructor_on_short_database (emDB emVGADB emNoteDB : pystr) :
  (len emDB < 78 -> __init__ emDB emVGADB emNoteDB = Raise StructError)
  /\ (78 <= len emDB -> len emDB < 78 + 8 * be_uint (sub emDB 76 2) ->
      __init__ emDB emVGADB emNoteDB = Raise StructError)
  /\ (78 <= len emDB -> be_uint (sub emDB 76 2) = 0 ->
      be_uint (sub emDB 52 4) + 2 < len emDB ->
      byte_at emDB (be_uint (sub emDB 52 4) + 2) <> 0 ->
      __init__ emDB emVGADB emNoteDB = Raise IndexError).
Proof.
  split; [|split].
  - intros Hlen. unfold __init__, init_body. unfold St.bind at 1.
    pose proof (init_record_cnt_short (fresh emDB emVGADB emNoteDB) Hlen) as Hcnt.
    destruct (init_record_cnt _) as [r s]. cbn [fst] in Hcnt. now rewrite Hcnt.
  - intros Hlen Hshort. unfold __init__, init_body. unfold St.bind at 1.
    rewrite init_record_cnt_run by exact Hlen.
    cbn [fresh f_open emDB_fd f_data with_fd with_record_cnt].
    set (cnt := be_uint (sub emDB 76 2)) in *.
    unfold St.bind at 1. unfold init_images.
    unfold St.bind at 1. unfold St.modify at 1. cbn [with_rec_data_offset_dict].
    unfold St.bind at 1. unfold St.gets at 1. cbn [record_cnt].
    unfold St.bind at 1.
    match goal with
    | |- context [St.for_ ?l _ ?s] =>
        pose proof (read_image_records_short (Z.to_nat cnt - 1) l s) as Hloop;
        destruct (St.for_ l _ s) as [r s']
    end.
    cbn [fst emDB_fd f_data f_pos] in Hloop. rewrite Hloop; [reflexivity| | |].
    + rewrite length_range. lia.
    + lia.
    + lia.
  - intros Hlen Hcnt Ha Hbyte. unfold __init__, init_body. unfold St.bind at 1.
    rewrite init_record_cnt_run by exact Hlen.
    cbn [fresh f_open emDB_fd f_data with_fd with_record_cnt].
    rewrite Hcnt. set (a := be_uint (sub emDB 52 4)) in *.
    assert (Ha0 : 0 <= a) by apply be_uint_nonneg.
    unfold St.bind at 1. unfold init_images.
    unfold St.bind at 1. unfold St.modify at 1. cbn [with_rec_data_offset_dict].
    unfold St.bind at 1. unfold St.gets at 1. cbn [record_cnt].
    change (range 0) with (@nil Z). cbn [St.for_].
    unfold St.bind at 1. unfold St.ret at 1.
    unfold St.modify at 1. cbn [with_images rec_data_offset_dict].
    rewrite map_to_list_empty. change (merge_sort Z.le ([] : list (Z * Z)).*1) with (@nil Z).
    unfold St.bind at 1. unfold init_category_names.
    unfold St.bind at 1. unfold St.modify at 1. cbn [with_category_names].
    unfold St.bind at 1. unfold fd_seek, f_seek. cbn [fd_of emDB_fd f_data].
    replace (a + 2 <? 0) with false by lia. cbn [with_fd].
    unfold St.bind at 1. unfold fd_read, f_read. cbn [fd_of emDB_fd f_data f_pos with_fd].
    unfold St.bind at 1. unfold category_fuel. cbn [St.while_].
    unfold St.bind at 1. unfold category_cond at 1.
    unfold St.bind at 1. unfold St.lift at 1.
    destruct (drop (Z.to_nat (a + 2)) emDB) as [|c rest] eqn:Edrop.
    { apply (f_equal length) in Edrop. rewrite length_drop in Edrop.
      unfold len in Ha. simpl in Edrop. lia. }
    assert (Hc : ord c <> 0).
    { unfold byte_at in Hbyte.
      replace (nth (Z.to_nat (a + 2)) emDB x00) with c in Hbyte; [exact Hbyte|].
      rewrite <- (take_drop (Z.to_nat (a + 2)) emDB) at 1. rewrite Edrop.
      rewrite app_nth2 by (rewrite length_take; lia).
      rewrite length_take.
      replace (Z.to_nat (a + 2) - Z.to_nat (a + 2) `min` length emDB)%nat
        with 0%nat by (unfold len in Ha; lia).
      reflexivity. }
    change (Z.to_nat 16) with 16%nat. cbn [take].
    change (getitem (c :: take 15 rest) 0) with (Ok (A := byte) c).
    cbn beta iota. replace (ord c =? 0) with false by lia.
    unfold St.bind at 1. unfold fd_tell at 1, St.gets at 1.
    unfold St.bind at 1. unfold St.gets at 1. cbn [images].
    unfold St.bind at 1. unfold St.lift at 1.
    reflexivity.
Qed.

Lemma constructor_on_short_database_witness :
  __init__ (zeros 77) [] [] = Raise StructError
  /\ __init__ (pdb_preamble 0 1) [] [] = Raise StructError
  /\ __init__ (pdb_file 78 [] (zeros 2 ++ list_byte_of_string "Unfiled")) [] []
     = Raise IndexError.
Proof.
  split; [|split].
  - destruct (constructor_on_short_database (zeros 77) [] []) as (H & _).
    apply H. reflexivity.
  - destruct (constructor_on_short_database (pdb_preamble 0 1) [] [])
      as (_ & H & _).
    apply H; [vm_compute; discriminate|vm_compute; reflexivity].
  - destruct (constructor_on_short_database
                (pdb_file 78 [] (zeros 2 ++ list_byte_of_string "Unfiled")) [] [])
      as (_ & _ & H).
    apply H.
    + vm_compute; discriminate.
    + vm_compute; reflexivity.
    + vm_compute; reflexivity.
    + vm_compute; discriminate.
Defined.

(** ** The positions in the files do not matter *)

Lemma agree_weaken (h : option handle) (s1 s2 : EyeModule) :
  agree h s1 s2 -> agree None s1 s2.
Proof. intros (Hb & Hc & _). repeat split; try assumption. discriminate. Qed.

Lemma related_ret (h : option handle) {A} (a : A) : related h h (St.ret a).
Proof. intros s1 s2 H. split; [reflexivity|]. intros _ _. exact H. Qed.

Lemma related_lift (h : option handle) {A} (r : result A) : related h h (St.lift r).
Proof. intros s1 s2 H. split; [reflexivity|]. intros _ _. exact H. Qed.

Lemma related_gets (h : option handle) {A} (f : EyeModule -> A) :
  (forall s1 s2, agree None s1 s2 -> f s1 = f s2) -> related h h (St.gets f).
Proof.
  intros Hf s1 s2 H. unfold St.gets. cbn [fst snd].
  split; [f_equal; apply Hf; now apply (agree_weaken h)|]. intros _ _. exact H.
Qed.

Lemma related_bind (h h' h'' : option handle) {A B} (c : M A) (k : A -> M B) :
  related h h' c -> (forall a, related h' h'' (k a)) ->
  related h h'' (St.bind c k).
Proof.
  intros Hc Hk s1 s2 H. unfold St.bind. destruct (Hc s1 s2 H) as [Hfst Hsnd].
  destruct (c s1) as [[a|e|] s1'], (c s2) as [[a'|e'|] s2'];
    cbn [fst snd] in *; try discriminate.
  - injection Hfst as <-. apply Hk. now apply (Hsnd a).
  - injection Hfst as <-. split; [reflexivity|discriminate].
  - split; [reflexivity|]. discriminate.
Qed.

Lemma related_post (h h' : option handle) {A} (c : M A) :
  related h h' c -> related h None c.
Proof.
  intros Hc s1 s2 H. destruct (Hc s1 s2 H) as [Hfst Hsnd].
  split; [exact Hfst|]. intros a Ha. apply (agree_weaken h'). now apply (Hsnd a).
Qed.

Lemma built_f_data (x : handle) (s1 s2 : EyeModule) :
  built s1 = built s2 -> f_data (fd_of x s1) = f_data (fd_of x s2).
Proof. unfold built. intros H. inversion H. now destruct x. Qed.

Lemma agree_with_fd (h : option handle) (x : handle) (fd : file) (s1 s2 : EyeModule) :
  agree h s1 s2 ->
  f_data fd = f_data (fd_of x s1) ->
  agree (Some x) (with_fd x fd s1) (with_fd x fd s2).
Proof.
  intros (Hb & Hc & _) Hfd. split; [|split].
  - rewrite !built_with_fd; [exact Hb| |exact Hfd].
    rewrite Hfd. now apply built_f_data.
  - now rewrite !cur_image_with_fd.
  - intros y [= <-]. now rewrite !fd_of_with_fd.
Qed.

Lemma related_fd_seek (h : option handle) (x : handle) (offset : Z) :
  related h (Some x) (fd_seek x offset).
Proof.
  intros s1 s2 H. unfold fd_seek, f_seek.
  destruct (offset <? 0); cbn [fst snd]; [split; [reflexivity|discriminate]|].
  split; [reflexivity|]. intros _ _.
  destruct H as (Hb & Hc & Hp).
  rewrite <- (built_f_data x s1 s2 Hb).
  now apply (agree_with_fd h); [repeat split|].
Qed.

Lemma related_fd_read (x : handle) (n : Z) :
  related (Some x) (Some x) (fd_read x n).
Proof.
  intros s1 s2 H. destruct H as (Hb & Hc & Hp).
  unfold fd_read, f_read. cbn [fst snd].
  rewrite <- (built_f_data x s1 s2 Hb), <- (Hp x eq_refl).
  split; [reflexivity|]. intros _ _.
  now apply (agree_with_fd (Some x)); [repeat split|].
Qed.

Lemma related_set_cur (h : option handle) (n : Z) :
  related h h (St.modify (with_cur_image n)).
Proof.
  intros s1 s2 (Hb & Hc & Hp). unfold St.modify. cbn [fst snd].
  split; [reflexivity|]. intros _ _. split; [|split].
  - now rewrite !built_with_cur_image.
  - now rewrite !cur_image_with_cur_image.
  - intros x Hx. rewrite !fd_of_with_cur_image. now apply Hp.
Qed.

Lemma related_while (h : option handle) {S} (fuel : nat)
    (cond : S -> M bool) (body : S -> M S) :
  (forall s, related h h (cond s)) -> (forall s, related h h (body s)) ->
  forall s, related h h (St.while_ fuel cond body s).
Proof.
  intros Hcond Hbody. induction fuel as [|fuel IH]; intros s.
  - intros s1 s2 H. split; [reflexivity|]. discriminate.
  - cbn [St.while_]. apply (related_bind h h h); [apply Hcond|intros [|]].
    + apply (related_bind h h h); [apply Hbody|apply IH].
    + apply related_ret.
Qed.

Lemma related_reraise (h h' : option handle) {A} (c : M A) :
  related h h' c -> related h h' (St.reraise c).
Proof.
  intros Hc s1 s2 H. unfold St.reraise. destruct (Hc s1 s2 H) as [Hfst Hsnd].
  destruct (c s1) as [[a|e|] s1'], (c s2) as [[a'|e'|] s2'];
    cbn [fst snd] in *; try discriminate.
  - split; [exact Hfst|]. intros b Hb. now apply (Hsnd a).
  - injection Hfst as <-. split; [reflexivity|]. discriminate.
  - split; [reflexivity|]. discriminate.
Qed.

Lemma related_for_each {A B} (l : list A) (body : A -> M B) :
  (forall a, related None None (body a)) -> related None None (for_each l body).
Proof.
  intros Hbody. induction l as [|x l IH]; [apply related_ret|].
  cbn [for_each]. apply (related_bind None None None); [apply Hbody|intros b].
  apply (related_bind None None None); [exact IH|intros bs]. apply related_ret.
Qed.

Lemma agree_built (s1 s2 : EyeModule) :
  agree None s1 s2 ->
  record_cnt s1 = record_cnt s2 /\ images s1 = images s2
  /\ rec_data_offset_dict s1 = rec_data_offset_dict s2
  /\ category_names s1 = category_names s2
  /\ rec_data_offset_vga_dict s1 = rec_data_offset_vga_dict s2
  /\ rec_data_offset_note_dict s1 = rec_data_offset_note_dict s2
  /\ cur_image s1 = cur_image s2.
Proof.
  intros (Hb & Hc & _). unfold built in Hb. inversion Hb. repeat split; assumption.
Qed.

Ltac related_gets_step :=
  apply related_gets; intros ? ? Hagree; apply agree_built in Hagree; tauto.

Lemma related_resolve (h : option handle) (n : Z) : related h h (resolve_image_nr n).
Proof.
  unfold resolve_image_nr.
  apply (related_bind h h h); [related_gets_step|intros cur].
  apply (related_bind h h h); [related_gets_step|intros cnt].
  destruct (n =? -1); [apply related_ret|].
  destruct (n <? cnt); [|apply related_ret].
  apply (related_bind h h h); [apply related_set_cur|intros _]. apply related_ret.
Qed.

Lemma related_get_header {host : Host} (n : Z) : related None None (get_header n).
Proof.
  unfold get_header.
  apply (related_bind None None None); [apply related_resolve|intros [k|]];
    [|apply related_ret].
  unfold get_header_body. apply (related_post None (Some DB)).
  apply (related_bind None None); [related_gets_step|intros im].
  apply (related_bind None None); [apply related_lift|intros offset].
  apply (related_bind None (Some DB)); [apply related_fd_seek|intros _].
  apply (related_bind (Some DB) (Some DB)); [apply related_fd_read|intros header].
  apply (related_bind (Some DB) (Some DB)); [apply related_lift|intros header_dict].
  apply related_ret.
Qed.

Lemma related_category_of (n : Z) : related None None (category_of n).
Proof.
  unfold category_of.
  apply (related_bind None None); [related_gets_step|intros im].
  apply (related_bind None None); [apply related_lift|intros offset].
  apply (related_bind None None); [related_gets_step|intros d].
  apply (related_bind None None); [apply related_lift|intros category].
  apply (related_bind None None); [related_gets_step|intros names].
  apply related_lift.
Qed.

Lemma related_get_image {host : Host} {pil : PIL} (n : Z) :
  related None None (get_image n).
Proof.
  unfold get_image.
  apply (related_bind None None None); [apply related_resolve|intros [k|]];
    [|apply related_ret].
  unfold get_image_body.
  apply (related_bind None None); [related_gets_step|intros cur].
  apply (related_bind None None); [apply related_get_header|intros [header|]];
    [|apply related_lift].
  apply (related_bind None None); [apply related_category_of|intros _].
  destruct (negb _).
  - apply (related_post None (Some VGADB)).
    apply (related_bind None None); [related_gets_step|intros d].
    apply (related_bind None None); [apply related_lift|intros offset].
    apply (related_bind None (Some VGADB)); [apply related_fd_seek|intros _].
    apply (related_bind (Some VGADB) (Some VGADB)); [apply related_fd_read|intros data].
    apply (related_bind (Some VGADB) (Some VGADB)); [apply related_lift|intros img].
    apply related_ret.
  - apply (related_post None (Some DB)).
    apply (related_bind None None); [related_gets_step|intros im].
    apply (related_bind None None); [apply related_lift|intros offset].
    apply (related_bind None (Some DB)); [apply related_fd_seek|intros _].
    apply (related_bind (Some DB) (Some DB)); [apply related_fd_read|intros data].
    apply (related_bind (Some DB) (Some DB)); [apply related_lift|intros img].
    apply related_ret.
Qed.

Lemma related_read_note_text (fuel : nat) :
  related (Some NoteDB) (Some NoteDB) (read_note_text fuel).
Proof.
  unfold read_note_text.
  apply (related_bind _ (Some NoteDB)); [apply related_fd_read|intros c].
  apply (related_bind _ (Some NoteDB)); [|intros [c' text]; apply related_ret].
  apply related_while.
  - intros [c' text]. apply related_ret.
  - intros [c' text]. unfold note_body.
    apply (related_bind _ (Some NoteDB)); [apply related_fd_read|intros c''].
    apply related_ret.
Qed.

Lemma related_extract_image {host : Host} {pil : PIL} (fuel : nat) (n : Z) :
  related None None (extract_image fuel n).
Proof.
  unfold extract_image.
  apply (related_bind None None None); [apply related_resolve|intros [k|]];
    [|apply related_ret].
  apply (related_bind None None); [apply related_get_header|intros header].
  apply (related_bind None None); [apply related_category_of|intros category].
  destruct header as [header|]; [|apply related_lift].
  apply related_reraise.
  apply (related_bind None None).
  - destruct (negb _); [|apply related_ret].
    apply (related_post None (Some NoteDB)).
    apply (related_bind None None); [related_gets_step|intros d].
    apply (related_bind None None); [apply related_lift|intros offset].
    apply (related_bind None (Some NoteDB)); [apply related_fd_seek|intros _].
    apply (related_bind _ (Some NoteDB)); [apply related_read_note_text|intros text].
    apply related_ret.
  - intros note.
    apply (related_bind None None); [apply related_get_image|intros [img|]];
      [apply related_ret|apply related_lift].
Qed.

Lemma related_get_next_image {host : Host} {pil : PIL} :
  related None None get_next_image.
Proof.
  unfold get_next_image.
  apply (related_bind None None); [related_gets_step|intros cur].
  apply (related_bind None None); [related_gets_step|intros cnt].
  destruct (_ <? _); [|apply related_ret].
  apply (related_bind None None); [apply related_set_cur|intros _].
  apply (related_bind None None); [related_gets_step|intros cur'].
  apply related_get_image.
Qed.

Lemma related_get_previous_image {host : Host} {pil : PIL} :
  related None None get_previous_image.
Proof.
  unfold get_previous_image.
  apply (related_bind None None); [related_gets_step|intros cur].
  destruct (_ >? _); [|apply related_ret].
  apply (related_bind None None); [apply related_set_cur|intros _].
  apply (related_bind None None); [related_gets_step|intros cur'].
  apply related_get_image.
Qed.

Lemma related_list_images {host : Host} : related None None list_images.
Proof.
  unfold list_images, max_image_nr.
  apply (related_bind None None); [related_gets_step|intros cnt].
  apply related_for_each. intros n. unfold list_images_line.
  apply (related_bind None None); [apply related_get_header|intros [header|]];
    [|apply related_lift].
  apply (related_bind None None); [apply related_category_of|intros category].
  apply related_ret.
Qed.

Lemma related_extract_all_images {host : Host} {pil : PIL} (fuel : nat) :
  related None None (extract_all_images fuel).
Proof.
  unfold extract_all_images, max_image_nr.
  apply (related_bind None None); [related_gets_step|intros cnt].
  apply related_for_each. intros n. apply related_extract_image.
Qed.

(** X14. What a method returns or raises depends on the databases, the
    indices and the current image number only, never on the positions that
    earlier calls have left in the three files: every read is preceded by a
    seek in the same file.  With a number other than -1, [get_header],
    [get_image] and [extract_image] do not depend on the current image
    number either. *)
Theorem outcome_independent_of_positions {host : Host} {pil : PIL}
    (fuel : nat) (n : Z) (s1 s2 : EyeModule) :
  built s1 = built s2 ->
  (cur_image s1 = cur_image s2 ->
   fst (get_header n s1) = fst (get_header n s2)
   /\ fst (get_image n s1) = fst (get_image n s2)
   /\ fst (extract_image fuel n s1) = fst (extract_image fuel n s2)
   /\ fst (get_next_image s1) = fst (get_next_image s2)
   /\ fst (get_previous_image s1) = fst (get_previous_image s2)
   /\ fst (list_images s1) = fst (list_images s2)
   /\ fst (extract_all_images fuel s1) = fst (extract_all_images fuel s2))
  /\ (n <> -1 ->
      fst (get_header n s1) = fst (get_header n s2)
      /\ fst (get_image n s1) = fst (get_image n s2)
      /\ fst (extract_image fuel n s1) = fst (extract_image fuel n s2)).
Proof.
  intros Hbuilt.
  assert (Hsame : forall t1 t2, built t1 = built t2 -> cur_image t1 = cur_image t2 ->
            fst (get_header n t1) = fst (get_header n t2)
            /\ fst (get_image n t1) = fst (get_image n t2)
            /\ fst (extract_image fuel n t1) = fst (extract_image fuel n t2)).
  { intros t1 t2 Hb Hc.
    assert (Hagree : agree None t1 t2) by (repeat split; try assumption; discriminate).
    split; [apply (related_get_header n t1 t2 Hagree)|].
    split; [apply (related_get_image n t1 t2 Hagree)|].
    apply (related_extract_image fuel n t1 t2 Hagree). }
  split.
  - intros Hcur.
    assert (Hagree : agree None s1 s2) by (repeat split; try assumption; discriminate).
    destruct (Hsame s1 s2 Hbuilt Hcur) as (H1 & H2 & H3).
    split; [exact H1|]. split; [exact H2|]. split; [exact H3|].
    split; [apply (related_get_next_image s1 s2 Hagree)|].
    split; [apply (related_get_previous_image s1 s2 Hagree)|].
    split; [apply (related_list_images s1 s2 Hagree)|].
    apply (related_extract_all_images fuel s1 s2 Hagree).
  - intros Hn.
    pose proof (built_record_cnt _ _ Hbuilt) as Hcnt.
    destruct (Z_lt_le_dec n (record_cnt s1)) as [Hlt|Hge].
    + destruct (Hsame (with_cur_image n s1) (with_cur_image n s2)) as (H1 & H2 & H3).
      { now rewrite !built_with_cur_image. }
      { now rewrite !cur_image_with_cur_image. }
      assert (Hh : forall t, n < record_cnt t ->
                get_header n t = get_header n (with_cur_image n t)).
      { intros t Ht. unfold get_header. unfold St.bind.
        rewrite !resolve_explicit
          by (rewrite ?record_cnt_with_cur_image; assumption).
        now rewrite with_cur_image_twice. }
      assert (Hi : forall t, n < record_cnt t ->
                get_image n t = get_image n (with_cur_image n t)).
      { intros t Ht. unfold get_image. unfold St.bind.
        rewrite !resolve_explicit
          by (rewrite ?record_cnt_with_cur_image; assumption).
        now rewrite with_cur_image_twice. }
      assert (He : forall t, n < record_cnt t ->
                extract_image fuel n t = extract_image fuel n (with_cur_image n t)).
      { intros t Ht. unfold extract_image. unfold St.bind.
        rewrite !resolve_explicit
          by (rewrite ?record_cnt_with_cur_image; assumption).
        now rewrite with_cur_image_twice. }
      rewrite (Hh s1), (Hh s2), (Hi s1), (Hi s2), (He s1), (He s2) by lia.
      split; [exact H1|]. split; [exact H2|exact H3].
    + unfold get_header, get_image, extract_image. unfold St.bind.
      rewrite !resolve_out_of_range by lia. repeat split.
Qed.

Lemma outcome_independent_of_positions_witness :
  let moved :=
    snd (get_image (host := Example.utc) (pil := Example.raw_pil) 2 Example.em) in
  f_pos (emDB_fd moved) <> f_pos (emDB_fd Example.em)
  /\ fst (get_image (host := Example.utc) (pil := Example.raw_pil) 1 Example.em)
     = fst (get_image (host := Example.utc) (pil := Example.raw_pil) 1 moved).
Proof.
  intros moved. split; [vm_compute; discriminate|].
  destruct (outcome_independent_of_positions (host := Example.utc)
              (pil := Example.raw_pil) 0 1 Example.em moved) as [_ Hn].
  - vm_compute. reflexivity.
  - apply Hn. discriminate.
Defined.

(** ** An instance without records *)

(** X15. On an instance without records (the record count and the current
    image number are 0 and the image list is empty) no method finds an
    image: with a number from 0 on, [get_header] and [get_image] return
    None; the navigation methods return None; [list_images] writes no line
    and [extract_all_images] extracts nothing.  Without a number the methods
    take the current image number 0 for an image and fail: [get_header] and
    [extract_image] raise IndexError at the empty image list, [get_image]
    raises TypeError because the header it asks for is None. *)
Theorem methods_without_records {host : Host} {pil : PIL} (self : EyeModule) :
  record_cnt self = 0 -> cur_image self = 0 -> images self = [] ->
  (forall n, 0 <= n ->
     get_header n self = (Ok None, self) /\ get_image n self = (Ok None, self))
  /\ get_next_image self = (Ok None, self)
  /\ get_previous_image self = (Ok None, self)
  /\ list_images self = (Ok [], self)
  /\ (forall fuel, extract_all_images fuel self = (Ok [], self))
  /\ get_header (-1) self = (Raise IndexError, self)
  /\ get_image (-1) self = (Raise TypeError, self)
  /\ (forall fuel, extract_image fuel (-1) self = (Raise IndexError, self)).
Proof.
  intros Hcnt Hcur Him.
  assert (Hnone : forall n, 0 <= n -> get_header n self = (Ok None, self)).
  { intros n Hn. apply get_header_out_of_range; lia. }
  split; [|split; [|split; [|split; [|split; [|split; [|split]]]]]].
  - intros n Hn. split; [now apply Hnone|].
    unfold get_image. unfold St.bind at 1.
    now rewrite resolve_out_of_range by lia.
  - apply get_next_image_at_end. lia.
  - apply get_previous_image_stays. lia.
  - unfold list_images, max_image_nr, St.bind, St.gets. now rewrite Hcnt.
  - intros fuel. unfold extract_all_images, max_image_nr, St.bind, St.gets.
    now rewrite Hcnt.
  - unfold get_header. unfold St.bind at 1. rewrite resolve_default.
    unfold get_header_body, St.bind, St.gets, St.lift. now rewrite Him, Hcur.
  - unfold get_image. unfold St.bind at 1. rewrite resolve_default.
    unfold get_image_body. unfold St.bind at 1. unfold St.gets at 1.
    unfold St.bind at 1. rewrite Hcur. now rewrite (Hnone 0) by lia.
  - intros fuel. unfold extract_image. unfold St.bind at 1. rewrite resolve_default.
    unfold St.bind at 1. rewrite Hcur. rewrite (Hnone 0) by lia.
    unfold St.bind at 1. unfold category_of, St.bind, St.gets, St.lift.
    now rewrite Him.
Qed.

Lemma methods_without_records_witness :
  let self :=
    Example.instance_of
      (__init__ (pdb_file 78 [] (zeros 18)) (pdb_file 0 [] []) (pdb_file 0 [] [])) in
  __init__ (pdb_file 78 [] (zeros 18)) (pdb_file 0 [] []) (pdb_file 0 [] []) = Ok self
  /\ get_image (host := Example.utc) (pil := Example.raw_pil) (-1) self
     = (Raise TypeError, self).
Proof.
  intros self. split; [vm_compute; reflexivity|].
  apply (methods_without_records (host := Example.utc) (pil := Example.raw_pil) self);
    vm_compute; reflexivity.
Defined.

(** ** What [extract_image] leaves *)







(** ** The constructor on well-formed databases *)

Lemma init_vga_pdb_file_at (appinfo_start : Z) (entries : list (Z * Z * Z))
    (rest : pystr) (s : EyeModule) :
  len entries < 2 ^ 16 ->
  Forall entry_ok entries ->
  f_data (emVGADB_fd s) = pdb_file appinfo_start entries rest ->
  exists self,
    init_vga s = (Ok tt, self)
    /\ vga_record_cnt self = len entries
    /\ rec_data_offset_vga_dict self = uid_index (indexed_entries entries) ∅.
Proof.
  intros Hn Hok Hdata. pose proof (len_nonneg entries) as Hn0.
  destruct s as [fa [data pos] fc cur cnt d im cat vc vd nc nd].
  cbn [emVGADB_fd f_data] in Hdata. subst data.
  set (data := pdb_file appinfo_start entries rest).
  unfold init_vga.
  unfold St.bind at 1. unfold fd_seek at 1.
  cbn [fd_of f_seek f_data f_pos emVGADB_fd Z.ltb Z.compare with_fd].
  unfold St.bind at 1. unfold fd_read at 1.
  cbn [fd_of f_data f_pos emVGADB_fd with_fd].
  rewrite (f_read_at data (zeros 52 ++ be_bytes 4 appinfo_start ++ zeros 20)
             (be_bytes 2 (len entries))
             (flat_map record_entry entries ++ rest) 76 2);
    [|unfold data, pdb_file, pdb_preamble; now rewrite <- !app_assoc
     |reflexivity|reflexivity].
  cbn [with_fd]. unfold St.bind at 1. unfold St.lift at 1.
  replace (unpack_2s (be_bytes 2 (len entries))) with (Ok (be_bytes 2 (len entries)))
    by reflexivity.
  unfold St.bind at 1. unfold St.lift at 1.
  rewrite str_to_Word_be_bytes by lia.
  unfold St.bind at 1. unfold St.modify at 1. cbn [with_vga_record_cnt].
  unfold St.bind at 1. unfold St.modify at 1. cbn [with_rec_data_offset_vga_dict].
  match goal with
  | |- context [St.for_ _ _ ?s] =>
      destruct (read_vga_records appinfo_start entries rest Hok
                  (vga_groups (len entries)) 0%nat
                  (xrange 0 (len entries) 24) s)
        as (s2 & E & Hfd & Hd & Hc)
  end.
  { now apply length_xrange_24. }
  { reflexivity. }
  { reflexivity. }
  exists s2. split; [exact E|]. cbn in Hd, Hc.
  split; [exact Hc|exact Hd].
Qed.

Lemma leaves_init_category_names (fuel : nat) (appinfo_start : Z) :
  leaves (fun s => (images s, rec_data_offset_dict s, record_cnt s, cur_image s,
                    f_data (emVGADB_fd s), f_data (emNoteDB_fd s)))
    (init_category_names fuel appinfo_start).
Proof.
  unfold init_category_names. leaves_steps.
  apply leaves_while; intros c.
  - unfold category_cond. leaves_steps.
  - unfold category_body. leaves_steps.
Qed.

Lemma leaves_init_vga :
  leaves (fun s => (images s, rec_data_offset_dict s, record_cnt s, cur_image s,
                    category_names s, f_data (emNoteDB_fd s)))
    init_vga.
Proof. unfold init_vga, read_vga_record. leaves_steps. Qed.

Lemma leaves_init_note :
  leaves (fun s => (images s, rec_data_offset_dict s, record_cnt s, cur_image s,
                    category_names s, vga_record_cnt s, rec_data_offset_vga_dict s))
    init_note.
Proof. unfold init_note, read_note_record. leaves_steps. Qed.

(** X17. The constructor on three well-formed databases.  Let the main
    database have the record list [entries], not empty, and behind it an
    appinfo block with the category names [names], each in its field of 16
    bytes, followed by a field that starts with NUL, all of it before the
    data of the first record; let the color database and the note database
    have the record lists [vga_entries] and [note_entries].  Then the
    constructor returns an instance, and this instance has: the current
    image number 0; the number of entries as its record count; the data
    offsets, sorted and without duplicates, as its image list; the category
    of every offset; the names of [names]; and in its two indices the data
    offset of every 24th color record and of every note record, filed under
    the unique id of the record. *)
Theorem constructor_on_pdb_files (appinfo_start : Z) (entries : list (Z * Z * Z))
    (gap : pystr) (names : list pystr) (slot rest : pystr)
    (vga_appinfo : Z) (vga_entries : list (Z * Z * Z)) (vga_rest : pystr)
    (note_appinfo : Z) (note_entries : list (Z * Z * Z)) (note_rest : pystr) :
  0 <= appinfo_start < 2 ^ 32 ->
  len entries < 2 ^ 16 -> Forall entry_ok entries -> entries <> [] ->
  78 + 8 * len entries + len gap = appinfo_start + 2 ->
  Forall name_ok names ->
  length slot = 16%nat -> ord (nth 0 slot x00) = 0 ->
  (forall e, e ∈ entries -> appinfo_start + 2 + 16 * len names < entry_offset e) ->
  len vga_entries < 2 ^ 16 -> Forall entry_ok vga_entries ->
  len note_entries < 2 ^ 16 -> Forall entry_ok note_entries ->
  exists self,
    __init__
      (pdb_file appinfo_start entries
         (gap ++ flat_map (pad_to 16) names ++ slot ++ rest))
      (pdb_file vga_appinfo vga_entries vga_rest)
      (pdb_file note_appinfo note_entries note_rest) = Ok self
    /\ cur_image self = 0
    /\ record_cnt self = len entries
    /\ images self = sorted_distinct (map entry_offset entries)
    /\ rec_data_offset_dict self = category_index entries ∅
    /\ category_names self = names
    /\ vga_record_cnt self = len vga_entries
    /\ rec_data_offset_vga_dict self = uid_index (indexed_entries vga_entries) ∅
    /\ note_record_cnt self = len note_entries
    /\ rec_data_offset_note_dict self = uid_index note_entries ∅.
Proof.
  intros Ha Hn Hok Hne Hgap Hnames Hslot Hnul Hbelow Hvn Hvok Hnn Hnok.
  unfold __init__. rewrite init_body_index. unfold St.bind at 1.
  destruct (init_index_pdb_file appinfo_start entries
              (gap ++ flat_map (pad_to 16) names ++ slot ++ rest)
              (pdb_file vga_appinfo vga_entries vga_rest)
              (pdb_file note_appinfo note_entries note_rest) Ha Hn Hok)
    as (s & -> & Him & Hd & Hcnt & Hcur & Hfd & Hvfd & Hnfd).
  destruct (sorted_distinct_head (map entry_offset entries))
    as (first & Hfirst & Hin & Hmin).
  { destruct entries; [contradiction|discriminate]. }
  set (data := pdb_file appinfo_start entries
                 (gap ++ flat_map (pad_to 16) names ++ slot ++ rest)) in *.
  assert (Hfuel : (length names < category_fuel data)%nat).
  { unfold category_fuel, data, pdb_file.
    rewrite !length_app, (length_flat_map_pad names Hnames). lia. }
  destruct (init_category_names_pdb_file appinfo_start entries gap names slot rest
              (category_fuel data) s first)
    as (s3 & Hrun & Hcat); try assumption.
  { lia. }
  { now rewrite Hfd. }
  { now rewrite Him. }
  { apply list_elem_of_fmap in Hin as (e & -> & He). now apply Hbelow. }
  { now left. }
  unfold St.bind at 1. rewrite Hrun.
  pose proof (leaves_init_category_names (category_fuel data) appinfo_start s) as H3.
  rewrite Hrun in H3. cbn [snd] in H3. injection H3 as Him3 Hd3 Hcnt3 Hcur3 Hv3 Hn3.
  destruct (init_vga_pdb_file_at vga_appinfo vga_entries vga_rest s3 Hvn Hvok)
    as (s4 & Evga & Hvcnt & Hvd).
  { now rewrite Hv3, Hvfd. }
  unfold St.bind at 1. rewrite Evga.
  pose proof (leaves_init_vga s3) as H4. rewrite Evga in H4. cbn [snd] in H4.
  injection H4 as Him4 Hd4 Hcnt4 Hcur4 Hcat4 Hn4.
  destruct (init_note_pdb_file note_appinfo note_entries note_rest s4 Hnn Hnok)
    as (s5 & Enote & Hncnt & Hnd & _).
  { now rewrite Hn4, Hn3, Hnfd. }
  rewrite Enote.
  pose proof (leaves_init_note s4) as H5. rewrite Enote in H5. cbn [snd] in H5.
  injection H5 as Him5 Hd5 Hcnt5 Hcur5 Hcat5 Hvc5 Hvd5.
  exists s5. split; [reflexivity|].
  split; [congruence|]. split; [congruence|]. split; [congruence|].
  split; [congruence|]. split; [congruence|]. split; [congruence|].
  split; [congruence|]. split; [exact Hncnt|exact Hnd].
Qed.

Lemma constructor_on_pdb_files_witness :
  exists self,
    __init__ Example.emDB Example.emVGADB Example.emNoteDB = Ok self
    /\ images self = [152; 212; 272]
    /\ category_names self
       = [list_byte_of_string "Unfiled"; list_byte_of_string "Work"]
    /\ rec_data_offset_note_dict self !! 5 = Some 86.
Proof.
  destruct (constructor_on_pdb_files 102 Example.entries (zeros 2)
              [list_byte_of_string "Unfiled"; list_byte_of_string "Work"]
              (zeros 16)
              (image_header "first" 0 0 0 2 2 ++ [xf0; x00]
               ++ image_header "second" 0 5 86400 2 2 ++ [x12; x34]
               ++ image_header "third" 0 0 3000000000 2 2 ++ [xff; x0f])
              0 Example.vga_entries []
              0 [(86, 0, 5)] (list_byte_of_string "hello" ++ [x00]))
    as (self & Hinit & _ & _ & Him & _ & Hnames & _ & _ & _ & Hnd).
  - lia.
  - vm_compute; reflexivity.
  - repeat constructor; vm_compute; discriminate.
  - discriminate.
  - reflexivity.
  - repeat constructor; vm_compute; discriminate.
  - reflexivity.
  - reflexivity.
  - intros e He. unfold Example.entries in He.
    repeat (apply elem_of_cons in He as [->|He]; [vm_compute; reflexivity|]).
    now apply elem_of_nil in He.
  - vm_compute; reflexivity.
  - repeat constructor; vm_compute; discriminate.
  - vm_compute; reflexivity.
  - repeat constructor; vm_compute; discriminate.
  - exists self. split; [exact Hinit|]. split; [rewrite Him; vm_compute; reflexivity|].
    split; [exact Hnames|]. rewrite Hnd. vm_compute. reflexivity.
Defined.

(** ** The constructor always ends *)

(** X18. The constructor ends on every three files: it returns an instance
    or raises an exception.  Its only loop without a bound, the one over the
    category names, stops after at most as many turns as the main database
    has bytes, and two more: every turn but the last reads at least one more
    byte, and at the end of the file the read returns the empty string, of
    which the loop test asks the first character. *)
Theorem constructor_ends (emDB emVGADB emNoteDB : pystr) :
  ((exists self, __init__ emDB emVGADB emNoteDB = Ok self)
   \/ (exists e, __init__ emDB emVGADB emNoteDB = Raise e))
  /\ (forall fuel appinfo_start s,
        (length (f_data (emDB_fd s)) + 2 <= fuel)%nat ->
        fst (init_category_names fuel appinfo_start s) <> OutOfFuel)
  /\ (forall fuel s,
        fst (St.while_ (S fuel) category_cond category_body [] s)
        = Raise IndexError).
Proof.
  split; [|split].
  - pose proof (init_ends emDB emVGADB emNoteDB) as Hends.
    destruct (__init__ emDB emVGADB emNoteDB) as [self|e|];
      [left; eauto|right; eauto|contradiction].
  - intros fuel appinfo_start s. apply init_category_names_in_fuel.
  - intros fuel s. reflexivity.
Qed.

Lemma constructor_ends_witness :
  fst (init_category_names 3 0 (fresh [x00] [] [])) <> OutOfFuel.
Proof.
  destruct (constructor_ends [] [] []) as (_ & Hloop & _).
  apply Hloop. vm_compute. lia.
Defined.

(** ** The outcomes of [get_header] on an instance of the constructor *)

Lemma index_nul_cases (s : pystr) :
  (exists i, index_nul s = Ok i) \/ index_nul s = Raise ValueError.
Proof.
  induction s as [|c s IH]; simpl; [now right|].
  destruct (ord c =? 0); [left; eauto|].
  destruct IH as [[i ->]| ->]; [left; simpl; eauto|now right].
Qed.

Lemma header_of_cases {host : Host} (header : pystr) :
  (exists h, header_of header = Ok h)
  \/ header_of header = Raise StructError
  \/ header_of header = Raise ValueError.
Proof.
  unfold header_of, unpack_header.
  destruct (Z.eqb_spec (len header) 58) as [Hlen|Hlen]; [|right; now left].
  cbn [Res.bind].
  destruct (index_nul_cases (sub header 0 32)) as [[i ->]| ->];
    [|right; now right].
  cbn [Res.bind]. unfold len in Hlen.
  destruct (str_to_Word_value (sub header 42 2)) as [-> _]; [apply len_sub; lia|].
  destruct (str_to_Word_value (sub header 44 2)) as [-> _]; [apply len_sub; lia|].
  destruct (str_to_Word_value (sub header 50 2)) as [-> _]; [apply len_sub; lia|].
  destruct (str_to_Word_value (sub header 52 2)) as [-> _]; [apply len_sub; lia|].
  destruct (str_to_Word_value (sub header 54 2)) as [-> _]; [apply len_sub; lia|].
  destruct (str_to_Word_value (sub header 56 2)) as [-> _]; [apply len_sub; lia|].
  cbn [Res.bind]. left. eauto.
Qed.

Lemma built_index_ok (s s' : EyeModule) :
  built s' = built s -> index_ok s -> index_ok s'.
Proof.
  intros Hb. unfold index_ok. unfold built in Hb. inversion Hb as [[H1 H2 H3 H4 H5 H6]].
  now rewrite H4, H5, H6.
Qed.

Lemma index_ok_offset (s : EyeModule) (n : nat) (off : Z) :
  index_ok s -> images s !! n = Some off ->
  0 <= off /\ exists c, rec_data_offset_dict s !! off = Some c /\ 0 <= c <= 15.
Proof.
  intros (_ & _ & _ & Hkeys & Hval) Hlook.
  assert (Hin : off ∈ images s) by (eapply list_elem_of_lookup_2; exact Hlook).
  apply Hkeys in Hin as [c Hc]. destruct (Hval off c Hc) as [Hoff Hcat].
  split; [exact Hoff|]. now exists c.
Qed.

(** X19. [get_header] on an instance of the constructor, at any later
    time, with a number from 0 on.  At or above the record count it returns
    None.  From the length of the image list up to the record count (there
    are such numbers when two records share a data offset) it raises
    IndexError.  Below the length of the image list it returns a header, or
    raises the error of [struct.unpack] when the file ends within 58 bytes
    of the data offset, or ValueError when the name field holds no NUL;
    the seek never fails, since no data offset is negative. *)
Theorem get_header_on_constructed_instance {host : Host}
    (emDB emVGADB emNoteDB : pystr) (self0 self : EyeModule) (n : Z) :
  __init__ emDB emVGADB emNoteDB = Ok self0 ->
  built self = built self0 ->
  0 <= n ->
  len (images self) <= record_cnt self
  /\ (record_cnt self <= n -> get_header n self = (Ok None, self))
  /\ (len (images self) <= n < record_cnt self ->
      fst (get_header n self) = Raise IndexError)
  /\ (n < len (images self) ->
      (exists h, fst (get_header n self) = Ok (Some h))
      \/ fst (get_header n self) = Raise StructError
      \/ fst (get_header n self) = Raise ValueError).
Proof.
  intros Hinit Hbuilt Hn.
  destruct (init_index_ok _ _ _ _ Hinit) as [Hok0 _].
  pose proof (built_index_ok self0 self Hbuilt Hok0) as Hok.
  pose proof Hok as (Hcnt & Hlen & _).
  split; [exact Hlen|]. split; [|split].
  - intros Hge. apply get_header_out_of_range; lia.
  - intros Hmid.
    rewrite (get_header_getitem_raises self n IndexError); [reflexivity|lia|lia|].
    apply getitem_beyond. lia.
  - intros Hlt.
    destruct (lookup_lt_is_Some_2 (images self) (Z.to_nat n)) as [off Hoff];
      [unfold len in Hlt; lia|].
    destruct (index_ok_offset self (Z.to_nat n) off) as [Hpos _];
      [exact Hok|exact Hoff|].
    rewrite (get_header_explicit self n off); [|lia|lia| |exact Hpos].
    + destruct (header_of_cases (header_bytes self off)) as [[h ->]|[-> | ->]];
        [left; now exists h|right; now left|right; now right].
    + now apply getitem_lookup.
Qed.

Lemma get_header_on_constructed_instance_witness :
  (exists h, fst (get_header (host := Example.utc) 1 Example.em) = Ok (Some h))
  /\ fst (get_header (host := Example.utc) 1 Example.em_dup) = Raise IndexError.
Proof.
  split.
  - destruct (get_header_on_constructed_instance (host := Example.utc)
                Example.emDB Example.emVGADB Example.emNoteDB Example.em Example.em 1)
      as (_ & _ & _ & Hin); [vm_compute; reflexivity|reflexivity|lia|].
    destruct (Hin ltac:(vm_compute; reflexivity)) as [H|[H|H]];
      [exact H|vm_compute in H; discriminate..].
  - destruct (get_header_on_constructed_instance (host := Example.utc)
                Example.emDB_dup Example.emVGADB Example.emNoteDB
                Example.em_dup Example.em_dup 1)
      as (_ & _ & Hmid & _); [vm_compute; reflexivity|reflexivity|lia|].
    apply Hmid. vm_compute. split; [discriminate|reflexivity].
Defined.

(** ** The lines of [list_images] *)

Lemma range_from_0 (cnt : Z) :
  0 <= cnt -> range cnt = xrange_from (Z.to_nat cnt) 0 1.
Proof.
  intros Hcnt. unfold range, xrange.
  destruct (Z.ltb_spec 0 cnt) as [Hpos|Hzero].
  - now replace ((cnt - 0 + 1 - 1) / 1) with cnt by (rewrite Z.div_1_r; lia).
  - now replace cnt with 0 by lia.
Qed.

Lemma line_at_built {host : Host} (s1 s2 : EyeModule) (n off : Z) :
  built s1 = built s2 -> line_at s1 n off = line_at s2 n off.
Proof.
  intros Hbuilt. unfold line_at, header_bytes, category_at.
  unfold built in Hbuilt. inversion Hbuilt. reflexivity.
Qed.

Lemma list_images_line_run {host : Host} (s : EyeModule) (n off : Z) :
  0 <= n < record_cnt s ->
  getitem (images s) n = Ok off -> 0 <= off ->
  fst (list_images_line n s) = line_at s n off.
Proof.
  intros Hn Hoff Hpos. unfold list_images_line, line_at. unfold St.bind at 1.
  rewrite (get_header_run s n off) by (assumption || lia).
  destruct (header_of (header_bytes s off)) as [header|e|]; try reflexivity.
  cbn [returned Res.bind]. set (s1 := with_fd DB _ _).
  unfold St.bind at 1. rewrite (category_of_run s1 n off)
    by (unfold s1; now rewrite images_with_fd, images_with_cur_image).
  replace (category_at s1 off) with (category_at s off)
    by (destruct s; reflexivity).
  destruct (category_at s off); reflexivity.
Qed.

Lemma list_images_from {host : Host} (self : EyeModule) (offs : list Z) :
  forall (first : nat) (s : EyeModule),
  built s = built self ->
  drop first (images self) = offs ->
  Forall (fun off => 0 <= off) offs ->
  Z.of_nat (first + length offs) <= record_cnt self ->
  fst (for_each (xrange_from (length offs) (Z.of_nat first) 1) list_images_line s)
  = collect (imap (fun i off => line_at self (Z.of_nat (first + i)) off) offs).
Proof.
  induction offs as [|off offs IH]; intros first s Hbuilt Hdrop Hpos Hcnt.
  - reflexivity.
  - apply Forall_cons in Hpos as [Hoff Hpos].
    assert (Hlook : images self !! first = Some off).
    { rewrite <- (Nat.add_0_r first), <- lookup_drop, Hdrop. reflexivity. }
    assert (Hget : getitem (images s) (Z.of_nat first) = Ok off).
    { apply getitem_lookup; [lia|]. rewrite Nat2Z.id.
      now rewrite (built_images _ _ Hbuilt). }
    cbn [length xrange_from for_each imap collect].
    pose proof (list_images_line_run s (Z.of_nat first) off) as Hline.
    rewrite (built_record_cnt _ _ Hbuilt) in Hline.
    simpl length in Hcnt.
    specialize (Hline ltac:(lia) Hget Hoff).
    rewrite (line_at_built s self _ _ Hbuilt) in Hline.
    rewrite Nat.add_0_r. unfold St.bind at 1.
    pose proof (keeps_built_list_images_line (Z.of_nat first) s) as Hkeeps.
    destruct (list_images_line (Z.of_nat first) s) as [r s1].
    cbn [fst snd] in Hline, Hkeeps. subst r.
    destruct (line_at self (Z.of_nat first) off) as [line|e|]; try reflexivity.
    cbn [Res.bind]. unfold St.bind at 1.
    assert (Hrest : fst (for_each (xrange_from (length offs) (Z.of_nat (S first)) 1)
                           list_images_line s1)
                    = collect (imap ((fun i off' =>
                                        line_at self (Z.of_nat (first + i)) off') ∘ S)
                                 offs)).
    { rewrite (IH (S first) s1).
      - f_equal. apply imap_ext. intros i x _. simpl. do 2 f_equal. lia.
      - now rewrite Hkeeps.
      - replace (S first) with (first + 1)%nat by lia.
        rewrite <- drop_drop, Hdrop. reflexivity.
      - exact Hpos.
      - lia. }
    replace (Z.of_nat first + 1) with (Z.of_nat (S first)) by lia.
    destruct (for_each _ _ s1) as [r s2]. cbn [fst] in Hrest. subst r.
    destruct (collect _); reflexivity.
Qed.

(** X20. [list_images] on an instance whose image list has as many entries
    as there are records (no two records share a data offset) and holds no
    negative offset, as is the case for the offsets of every instance of the
    constructor: the lines written are, image by image in the order of the
    data offsets, the number counted from one, and the name, width, height
    and creation time of the header at that offset with the name of its
    category; the first header or category that cannot be read ends the
    listing with its exception. *)
Theorem list_images_lists {host : Host} (self : EyeModule) :
  record_cnt self = len (images self) ->
  Forall (fun off => 0 <= off) (images self) ->
  fst (list_images self)
  = collect (imap (fun i off => line_at self (Z.of_nat i) off) (images self)).
Proof.
  intros Hcnt Hpos. unfold list_images. unfold St.bind at 1.
  unfold max_image_nr at 1, St.gets at 1.
  rewrite range_from_0 by (rewrite Hcnt; apply len_nonneg).
  rewrite Hcnt. unfold len. rewrite Nat2Z.id.
  apply (list_images_from self (images self) 0 self).
  - reflexivity.
  - apply drop_0.
  - exact Hpos.
  - rewrite Hcnt. unfold len. lia.
Qed.

Lemma list_images_lists_witness :
  map l_Name (match fst (list_images (host := Example.utc) Example.em) with
              | Ok lines => lines
              | _ => []
              end)
  = [list_byte_of_string "first"; list_byte_of_string "second";
     list_byte_of_string "third"].
Proof.
  rewrite (list_images_lists (host := Example.utc) Example.em).
  - vm_compute. reflexivity.
  - vm_compute. reflexivity.
  - vm_compute. repeat constructor; discriminate.
Defined.
